(** * oci_env: configuration resolution and profile compilation

    A shallow embedding of [client/oci_env/utils.py]: the functions
    [get_oci_env_path], [read_env_file], [get_config] and [parse_profiles]
    and the class [Compose], together with the parts of the Python runtime
    they call ([str] methods, [str.format], [posixpath], a POSIX file tree
    without symbolic links, [print] and [subprocess]).

    Text is a [string] whose characters are code points below 256.  A text
    file holds the text Python sees after decoding and newline translation,
    so a line ends with the single character U+000A. *)

From Stdlib Require Import Ascii ZArith.
From stdpp Require Import gmap strings list.

Local Open Scope Z_scope.

(** ** Characters *)

Definition nl : ascii := "010"%char.
Definition tab : ascii := "009"%char.
Definition cr : ascii := "013"%char.
Definition squote : ascii := "'"%char.
Definition dquote : ascii := "034"%char.
Definition backslash : ascii := "092"%char.
Definition slash : ascii := "/"%char.
Definition lbrace : ascii := "{"%char.
Definition rbrace : ascii := "}"%char.

(** Equality of characters, as a boolean. *)
Definition eqc (a b : ascii) : bool := bool_decide (a = b).
Arguments eqc : simpl never.

(** ** Python [str] methods *)

Module Str.

(** [c in s] for a one-character [c]. *)
Fixpoint contains (c : ascii) (s : string) : bool :=
  match s with
  | EmptyString => false
  | String x s' => eqc x c || contains c s'
  end.

(** [s.startswith(p)] *)
Fixpoint startswith (p s : string) : bool :=
  match p, s with
  | EmptyString, _ => true
  | String a p', String b s' => eqc a b && startswith p' s'
  | String _ _, EmptyString => false
  end.

(** [s.endswith(c)] for a one-character [c]. *)
Fixpoint endswith (c : ascii) (s : string) : bool :=
  match s with
  | EmptyString => false
  | String x EmptyString => eqc x c
  | String _ s' => endswith c s'
  end.

(** [s.split(c)]: never empty, one more piece than occurrences of [c]. *)
Fixpoint split (c : ascii) (s : string) : list string :=
  match s with
  | EmptyString => [EmptyString]
  | String x s' =>
      if eqc x c then EmptyString :: split c s'
      else match split c s' with
           | p :: ps => String x p :: ps
           | [] => [String x EmptyString]
           end
  end.

(** [s.split(c, maxsplit=1)]: [[s]] when [c] does not occur, otherwise the
    text before the first [c] and the text after it. *)
Fixpoint split1 (c : ascii) (s : string) : list string :=
  match s with
  | EmptyString => [EmptyString]
  | String x s' =>
      if eqc x c then [EmptyString; s']
      else match split1 c s' with
           | p :: ps => String x p :: ps
           | [] => [String x EmptyString]
           end
  end.

(** [sep.join(l)] *)
Fixpoint join (sep : string) (l : list string) : string :=
  match l with
  | [] => EmptyString
  | [x] => x
  | x :: rest => x +:+ sep +:+ join sep rest
  end.

(** [s.replace(a, b)] for one-character [a] and [b]. *)
Fixpoint replace (a b : ascii) (s : string) : string :=
  match s with
  | EmptyString => EmptyString
  | String x s' => String (if eqc x a then b else x) (replace a b s')
  end.

(** [s.lstrip(chars)] and [s.rstrip(chars)], the characters to drop given by
    a predicate. *)
Fixpoint lstrip (drop : ascii -> bool) (s : string) : string :=
  match s with
  | EmptyString => EmptyString
  | String x s' => if drop x then lstrip drop s' else s
  end.

Fixpoint rstrip (drop : ascii -> bool) (s : string) : string :=
  match s with
  | EmptyString => EmptyString
  | String x s' =>
      match rstrip drop s' with
      | EmptyString => if drop x then EmptyString else String x EmptyString
      | r => String x r
      end
  end.

(** [s.strip(chars)]: drops leading and trailing characters that occur in
    [chars]. *)
Definition strip_chars (chars : string) (s : string) : string :=
  rstrip (fun x => contains x chars) (lstrip (fun x => contains x chars) s).

(** [c.isspace()] on code points below 256. *)
Definition isspace (c : ascii) : bool :=
  let n := N_of_ascii c in
  ((9 <=? n) && (n <=? 13) || (28 <=? n) && (n <=? 32)
   || (n =? 133) || (n =? 160))%N.

(** [s.strip()] *)
Definition strip (s : string) : string := rstrip isspace (lstrip isspace s).

(** Iterating a text file: the lines with their terminator kept. *)
Fixpoint lines (s : string) : list string :=
  match s with
  | EmptyString => []
  | String x s' =>
      if eqc x nl then String x EmptyString :: lines s'
      else match lines s' with
           | l :: ls => String x l :: ls
           | [] => [String x EmptyString]
           end
  end.

(** The pieces of [repr] on a string. *)
Definition hexdigit (n : N) : ascii :=
  match String.get (N.to_nat n) "0123456789abcdef" with
  | Some c => c
  | None => "0"%char
  end.

Definition printable (c : ascii) : bool :=
  let n := N_of_ascii c in
  negb ((n <? 32) || (n =? 127) || (128 <=? n) && (n <=? 160) || (n =? 173))%N.

Definition repr_char (quote c : ascii) : string :=
  if eqc c quote || eqc c backslash then String backslash (String c EmptyString)
  else if eqc c tab then "\t"
  else if eqc c nl then "\n"
  else if eqc c cr then "\r"
  else if printable c then String c EmptyString
  else let n := N_of_ascii c in
       "\x" +:+ String (hexdigit (n / 16)) (String (hexdigit (n mod 16)) EmptyString).

Fixpoint repr_body (quote : ascii) (s : string) : string :=
  match s with
  | EmptyString => EmptyString
  | String c s' => repr_char quote c +:+ repr_body quote s'
  end.

(** [repr(s)]: double quotes only when [s] has a single quote and no
    double quote. *)
Definition repr (s : string) : string :=
  let quote := if contains squote s && negb (contains dquote s)
               then dquote else squote in
  String quote (repr_body quote s +:+ String quote EmptyString).

End Str.

(** ** Outcomes of a computation *)

(** The Python exceptions that the program can meet. *)
Inductive exception :=
| KeyError (key : string)
| IndexError
| ValueError
| FileNotFoundError
| IsADirectoryError
| NotADirectoryError
| FileExistsError.

(** [Exit status said] is [print(said); exit(status)].  [Unmodelled] marks
    input on which the embedding does not say what Python does. *)
Inductive outcome (A : Type) :=
| Ok (a : A)
| Exit (status : Z) (said : string)
| Raise (e : exception)
| Unmodelled.
Arguments Ok {A} a.
Arguments Exit {A} status said.
Arguments Raise {A} e.
Arguments Unmodelled {A}.

(** Outcomes chain: the first that is not [Ok] ends the chain. *)
#[global] Instance outcome_ret : MRet outcome := fun A a => Ok a.

#[global] Instance outcome_bind : MBind outcome := fun A B f o =>
  match o with
  | Ok a => f a
  | Exit n m => Exit n m
  | Raise e => Raise e
  | Unmodelled => Unmodelled
  end.

(** The outcome with its value, if any, sent through [f]. *)
Definition omap {A B} (f : A -> B) (o : outcome A) : outcome B :=
  match o with
  | Ok a => Ok (f a)
  | Exit n m => Exit n m
  | Raise e => Raise e
  | Unmodelled => Unmodelled
  end.

(** ** [str.format] with keyword arguments

    The scanner of CPython's [MarkupIterator_next] and [parse_field], one
    character at a time.  The call passes keyword arguments only, so a field
    with an empty or all-digit name indexes an empty tuple.  A field that
    uses a conversion ([!]), a format specification ([:]), an index ([[])
    or an attribute ([.]) is [Unmodelled]. *)

Module Format.

(** Where the scanner stands: in literal text, after an opening brace, after
    a closing brace, or inside a field whose name so far is [name]. *)
Inductive state :=
| InText
| SawOpen
| SawClose
| InField (name : string).

(** The largest index, on a 64-bit build. *)
Definition PY_SSIZE_T_MAX : Z := 2 ^ 63 - 1.

(** The value of a decimal digit. *)
Definition digit (c : ascii) : option Z :=
  let n := Z.of_N (N_of_ascii c) in
  if (48 <=? n) && (n <=? 57) then Some (n - 48) else None.

(** [get_integer]: the field name is no number, a number that overflows
    (CPython raises [ValueError]), or an index. *)
Inductive integer := NotInteger | TooManyDigits | Index (n : Z).

Fixpoint get_integer_from (acc : Z) (s : string) : integer :=
  match s with
  | EmptyString => Index acc
  | String c s' =>
      match digit c with
      | None => NotInteger
      | Some d =>
          if (PY_SSIZE_T_MAX - d) / 10 <? acc then TooManyDigits
          else get_integer_from (acc * 10 + d) s'
      end
  end.

Definition get_integer (s : string) : integer :=
  match s with
  | EmptyString => NotInteger
  | _ => get_integer_from 0 s
  end.

(** [get_field_object] with an empty positional tuple. *)
Definition get_field (config : gmap string string) (name : string)
  : outcome string :=
  if Str.contains "."%char name then Unmodelled
  else match name with
       | EmptyString => Raise IndexError
       | _ =>
           match get_integer name with
           | TooManyDigits => Raise ValueError
           | Index _ => Raise IndexError
           | NotInteger =>
               match config !! name with
               | Some v => Ok v
               | None => Raise (KeyError name)
               end
           end
       end.

(** The scanner.  A field is looked up as soon as its closing brace is read,
    so the first failure from the left decides the outcome. *)
Fixpoint run (config : gmap string string) (st : state) (s : string)
  : outcome string :=
  let field name c rest :=
    if eqc c rbrace then
      match get_field config name with
      | Ok v => omap (String.append v) (run config InText rest)
      | Exit n m => Exit n m
      | Raise e => Raise e
      | Unmodelled => Unmodelled
      end
    else if eqc c lbrace then Raise ValueError
    else if eqc c ":"%char || eqc c "!"%char || eqc c "["%char then Unmodelled
    else run config (InField (name +:+ String c EmptyString)) rest in
  match s with
  | EmptyString =>
      match st with
      | InText => Ok EmptyString
      | _ => Raise ValueError
      end
  | String c rest =>
      match st with
      | InText =>
          if eqc c lbrace then run config SawOpen rest
          else if eqc c rbrace then run config SawClose rest
          else omap (String c) (run config InText rest)
      | SawOpen =>
          if eqc c lbrace then omap (String lbrace) (run config InText rest)
          else field EmptyString c rest
      | SawClose =>
          if eqc c rbrace then omap (String rbrace) (run config InText rest)
          else Raise ValueError
      | InField name => field name c rest
      end
  end.

(** [template.format] applied to the unpacked [config] *)
Definition format (config : gmap string string) (template : string)
  : outcome string :=
  run config InText template.

End Format.

(** ** [posixpath] *)

Module Path.

(** [os.path.isabs(p)] *)
Definition isabs (p : string) : bool := Str.startswith "/" p.

(** One round of the loop of [posixpath.join]. *)
Definition join2 (path b : string) : string :=
  if Str.startswith "/" b then b
  else if bool_decide (path = "") || Str.endswith slash path then path +:+ b
  else path +:+ "/" +:+ b.

(** [os.path.join(a, *p)] *)
Definition join (a : string) (p : list string) : string := foldl join2 a p.

(** POSIX keeps two leading slashes apart from one, and from three or more. *)
Definition initial_slashes (path : string) : nat :=
  if Str.startswith "/" path then
    if Str.startswith "//" path && negb (Str.startswith "///" path)
    then 2%nat else 1%nat
  else 0%nat.

(** The body of the loop of [posixpath.normpath]. *)
Definition norm_step (slashes : nat) (new_comps : list string) (comp : string)
  : list string :=
  if bool_decide (comp = "") || bool_decide (comp = ".") then new_comps
  else if negb (bool_decide (comp = ".."))
          || bool_decide (slashes = 0%nat) && bool_decide (new_comps = [])
          || bool_decide (last new_comps = Some "..")
       then new_comps ++ [comp]
       else removelast new_comps.

(** [os.path.normpath(path)] *)
Definition normpath (path : string) : string :=
  if bool_decide (path = "") then "."
  else
    let slashes := initial_slashes path in
    let comps := foldl (norm_step slashes) [] (Str.split slash path) in
    let path := Str.join "" (replicate slashes "/") +:+ Str.join "/" comps in
    if bool_decide (path = "") then "." else path.

(** [os.path.abspath(path)] in working directory [cwd]. *)
Definition abspath (cwd path : string) : string :=
  normpath (if isabs path then path else join cwd [path]).

End Path.

(** ** The file tree

    A node is addressed by its components below the root.  The root is a
    directory; there are no symbolic links, so [..] is the parent. *)

Inductive node :=
| Dir
| File (content : string).

Abbreviation filesystem := (gmap (list string) node).

(** What the process inherits: its environment and working directory. *)
Record context := { environ : gmap string string; cwd : string }.

Module FS.

(** The node at [k], the root being a directory. *)
Definition node_at (fs : filesystem) (k : list string) : option node :=
  match k with
  | [] => Some Dir
  | _ => fs !! k
  end.

(** Where a path leads: to the address [k], which need not hold a node, or
    nowhere because a component is missing or is not a directory. *)
Inductive walked :=
| Found (k : list string)
| ENOENT
| ENOTDIR.

(** Path resolution: every component is looked up in a directory. *)
Fixpoint walk (fs : filesystem) (cur : list string) (comps : list string)
  : walked :=
  match comps with
  | [] => Found cur
  | c :: rest =>
      match node_at fs cur with
      | None => ENOENT
      | Some (File _) => ENOTDIR
      | Some Dir =>
          if bool_decide (c = "") || bool_decide (c = ".") then walk fs cur rest
          else if bool_decide (c = "..") then walk fs (removelast cur) rest
          else walk fs (cur ++ [c]) rest
      end
  end.

(** The address of [p]; a relative path starts at the working directory,
    and the empty path names nothing. *)
Definition resolve (ctx : context) (fs : filesystem) (p : string) : walked :=
  if bool_decide (p = "") then ENOENT
  else walk fs []
         (Str.split slash (if Path.isabs p then p else cwd ctx +:+ "/" +:+ p)).

(** [os.path.isdir(p)] *)
Definition isdir (ctx : context) (fs : filesystem) (p : string) : bool :=
  match resolve ctx fs p with
  | Found k => match node_at fs k with Some Dir => true | _ => false end
  | _ => false
  end.

(** [os.path.isfile(p)] *)
Definition isfile (ctx : context) (fs : filesystem) (p : string) : bool :=
  match resolve ctx fs p with
  | Found k => match node_at fs k with Some (File _) => true | _ => false end
  | _ => false
  end.

(** [open(p, "r").read()] *)
Definition read (ctx : context) (fs : filesystem) (p : string)
  : outcome string :=
  match resolve ctx fs p with
  | Found k =>
      match node_at fs k with
      | Some (File content) => Ok content
      | Some Dir => Raise IsADirectoryError
      | None => Raise FileNotFoundError
      end
  | ENOENT => Raise FileNotFoundError
  | ENOTDIR => Raise NotADirectoryError
  end.

(** [open(p, "w").write(data)]: creates the file or replaces its content. *)
Definition write (ctx : context) (p data : string) (fs : filesystem)
  : outcome unit * filesystem :=
  match resolve ctx fs p with
  | Found k =>
      match node_at fs k with
      | Some Dir => (Raise IsADirectoryError, fs)
      | _ => (Ok tt, <[k := File data]> fs)
      end
  | ENOENT => (Raise FileNotFoundError, fs)
  | ENOTDIR => (Raise NotADirectoryError, fs)
  end.

(** [pathlib.Path(p).mkdir(exist_ok=True)] *)
Definition mkdir_exist_ok (ctx : context) (p : string) (fs : filesystem)
  : outcome unit * filesystem :=
  match resolve ctx fs p with
  | Found k =>
      match node_at fs k with
      | None => (Ok tt, <[k := Dir]> fs)
      | Some Dir => (Ok tt, fs)
      | Some (File _) => (Raise FileExistsError, fs)
      end
  | ENOENT => (Raise FileNotFoundError, fs)
  | ENOTDIR => (Raise NotADirectoryError, fs)
  end.

End FS.

(** ** Computations on the file tree

    The tree is the one piece of state; it survives an exit or an exception. *)

Definition M (A : Type) : Type := filesystem -> outcome A * filesystem.

#[global] Instance M_ret : MRet M := fun A a fs => (Ok a, fs).

#[global] Instance M_bind : MBind M := fun A B f m fs =>
  match m fs with
  | (Ok a, fs') => f a fs'
  | (Exit n said, fs') => (Exit n said, fs')
  | (Raise e, fs') => (Raise e, fs')
  | (Unmodelled, fs') => (Unmodelled, fs')
  end.

(** A pure outcome as a computation. *)
Definition lift {A} (o : outcome A) : M A := fun fs => (o, fs).

(** [print(said); exit(status)] *)
Definition print_exit {A} (said : string) (status : Z) : M A :=
  lift (Exit status said).

(** [try: m / except FileNotFoundError: h] *)
Definition except_FileNotFoundError {A} (m : M A) (h : M A) : M A := fun fs =>
  match m fs with
  | (Raise FileNotFoundError, fs') => h fs'
  | r => r
  end.

(** [try: o / except KeyError as e: h e], for a pure [o]. *)
Definition except_KeyError {A} (o : outcome A) (h : string -> outcome A)
  : outcome A :=
  match o with
  | Raise (KeyError key) => h key
  | _ => o
  end.

(** ** The program *)

(** [get_oci_env_path()] *)
Definition get_oci_env_path (ctx : context) : string :=
  default (cwd ctx) (environ ctx !! "OCI_ENV_PATH").

(** The characters stripped from a key, and those stripped from a value:
    quote, space, double quote, and for the value the line feed. *)
Definition key_chars : string := String squote (String " " (String dquote "")).
Definition val_chars : string :=
  String squote (String " " (String dquote (String nl ""))).

(** One round of the loop of [read_env_file]. *)
Definition read_env_line (result : gmap string string) (line : string)
  : outcome (gmap string string) :=
  if negb (Str.startswith "#" line) && Str.contains "="%char line then
    match Str.split1 "="%char line with
    | [key; val] =>
        Ok (<[Str.strip_chars key_chars key := Str.strip_chars val_chars val]>
              result)
    | _ => Raise ValueError
    end
  else Ok result.

(** The loop of [read_env_file] over the lines of the file. *)
Fixpoint read_env_lines (result : gmap string string) (f : list string)
  : outcome (gmap string string) :=
  match f with
  | [] => Ok result
  | line :: rest =>
      result' ← read_env_line result line;
      read_env_lines result' rest
  end.

(** [read_env_file(path)] *)
Definition read_env_file (ctx : context) (path : string)
  : M (gmap string string) :=
  except_FileNotFoundError
    (f ← (fun fs => (FS.read ctx fs path, fs));
     lift (read_env_lines ∅ (Str.lines f)))
    (print_exit ("No .compose.env file found in " +:+ path +:+ ".") 1).

(** The values with the highest precedence. *)
Definition constant_vals (path : string) : gmap string string :=
  <["OCI_ENV_DIRECTORY" :=
      default "" (last (Str.split slash (Str.strip_chars "/" path)))]>
  (<["COMPOSE_CONTEXT" := path]> ∅).

(** The default values. *)
Definition config_defaults (path : string) : gmap string string :=
  list_to_map
    [ ("DEV_SOURCE_PATH", "");
      ("COMPOSE_PROFILE", "");
      ("DJANGO_SUPERUSER_USERNAME", "admin");
      ("DJANGO_SUPERUSER_PASSWORD", "password");
      ("API_HOST", "localhost");
      ("API_PORT", "5001");
      ("API_PROTOCOL", "http");
      ("COMPOSE_PROJECT_NAME",
        default "" (constant_vals path !! "OCI_ENV_DIRECTORY"));
      ("COMPOSE_BINARY", "podman");
      ("API_CONTAINER", "pulp");
      ("DB_CONTAINER", "pulp");
      ("CONTENT_APP_CONTAINER", "pulp");
      ("WORKER_CONTAINER", "pulp");
      ("DEV_IMAGE_SUFFIX", "");
      ("DEV_VOLUME_SUFFIX", "");
      ("NGINX_PORT", "5001");
      ("NGINX_SSL_PORT", "443") ].

(** The dictionary display that unpacks [a], then [b], then [c]: a later
    dictionary overrides an earlier one. *)
Definition dict_merge3 (a b c : gmap string string) : gmap string string :=
  c ∪ (b ∪ a).

(** [get_config()] *)
Definition get_config (ctx : context) : M (gmap string string) :=
  let path := get_oci_env_path ctx in
  user_preferences ← read_env_file ctx (Path.join path [".compose.env"]);
  mret (dict_merge3 (config_defaults path) user_preferences (constant_vals path)).

Module Profile.
(** An element of [profile_paths]. *)
Record t := { path : string; name : string; container_path : string }.
End Profile.

(** [config[key]] *)
Definition getitem (config : gmap string string) (key : string) : M string :=
match config !! key with
| Some v => mret v
| None => lift (Raise (KeyError key))
end.

(** The branch of [parse_profiles] that splits a profile reference: the
  plugin, the profile name and the source directory. *)
Definition locate (ctx : context) (path oci_dir profile : string)
: outcome (string * string * string) :=
if Str.contains slash profile then
  match Str.split1 slash profile with
  | [plugin; name] =>
      Ok (plugin, name,
          Path.abspath (cwd ctx)
            (Path.join path [".."; plugin; "profiles"; name]))
  | _ => Raise ValueError
  end
else Ok (oci_dir, profile, Path.join path ["profiles"; profile]).

(** The loop of [parse_profiles] that checks the profiles of
  [COMPOSE_PROFILE] and collects their descriptors. *)
Fixpoint resolve_loop (ctx : context) (path oci_dir : string)
  (profiles : list string) (profile_paths : list Profile.t)
: M (list Profile.t) :=
match profiles with
| [] => mret profile_paths
| profile :: rest =>
    '(plugin, name, profile_path) ← lift (locate ctx path oci_dir profile);
    exists_ ← (fun fs => (Ok (FS.isdir ctx fs profile_path), fs));
    if negb exists_ then
      print_exit (profile +:+ " from COMPOSE_PROFILE does not exist at "
                    +:+ profile_path) 1
    else
      resolve_loop ctx path oci_dir rest
        (profile_paths ++
           [ {| Profile.path := profile_path;
                Profile.name := profile;
                Profile.container_path :=
                  Path.join "/src" [plugin; "profiles"; name] |} ])
end.

(** The first half of [parse_profiles]: up to the list [profile_paths]. *)
Definition resolve_profiles (ctx : context) (config : gmap string string)
: M (list Profile.t) :=
compose_profile ← getitem config "COMPOSE_PROFILE";
let profiles := Str.split ":"%char compose_profile in
let path := get_oci_env_path ctx in
oci_dir ← getitem config "OCI_ENV_DIRECTORY";
let compiled_path := Path.join path [".compiled"] in
_ ← FS.mkdir_exist_ok ctx compiled_path;
resolve_loop ctx path oci_dir profiles
  [ {| Profile.path := Path.join path ["base"];
       Profile.name := "base";
       Profile.container_path := Path.join "/src" [oci_dir; "base"] |} ].

(** The three buffers filled by the second loop. *)
Record buffers := {
init_script : list string;
env_output : list string;
compose_files : list string
}.

(** What is printed when a template names a variable that is not set. *)
Definition template_message (file key : string) : string :=
file +:+ " contains variable " +:+ Str.repr key
  +:+ ", which is not defined in your .compose.env. "
  +:+ "This value is required to be set.".

Definition template_error {A} (file key : string) : outcome A :=
Exit 1 (template_message file key).

(** The loop over the lines of a [pulp_config.env]. *)
Fixpoint format_env_lines (config : gmap string string) (env_file : string)
  (f : list string) (env_output : list string) : outcome (list string) :=
match f with
| [] => Ok env_output
| line :: rest =>
    out ← except_KeyError (Format.format config (Str.strip line))
            (template_error env_file);
    format_env_lines config env_file rest (env_output ++ [out])
end.

(** The body of the loop that compiles one profile.  The compiled file is
  appended to [compose_files] before it is opened for writing, so the entry
  stays when that [open] raises [FileNotFoundError]. *)
Definition compile_profile (ctx : context) (config : gmap string string)
  (compiled_path : string) (b : buffers) (profile : Profile.t) : M buffers :=
let init_file := Path.join (Profile.path profile) ["init.sh"] in
let env_file := Path.join (Profile.path profile) ["pulp_config.env"] in
let compose_file := Path.join (Profile.path profile) ["compose.yaml"] in
has_init ← (fun fs => (Ok (FS.isfile ctx fs init_file), fs));
let init_script :=
  if has_init : bool then
    init_script b ++
      ["bash " +:+ Path.join (Profile.container_path profile) ["init.sh"]]
  else init_script b in
env_output ←
  except_FileNotFoundError
    (f ← (fun fs => (FS.read ctx fs env_file, fs));
     lift (format_env_lines config env_file (Str.lines f) (env_output b)))
    (mret (env_output b));
compose_files ←
  except_FileNotFoundError
    (data ← (fun fs => (FS.read ctx fs compose_file, fs));
     data ← lift (except_KeyError (Format.format config data)
                    (template_error compose_file));
     let compose_file :=
       Path.join compiled_path
         [Str.replace slash "_"%char (Profile.name profile) +:+ "_compose.yaml"] in
     except_FileNotFoundError
       (_ ← FS.write ctx compose_file data;
        mret (compose_files b ++ [compose_file]))
       (mret (compose_files b ++ [compose_file])))
    (mret (compose_files b));
mret {| init_script := init_script;
        env_output := env_output;
        compose_files := compose_files |}.

(** The loop of [parse_profiles] that compiles the profiles. *)
Fixpoint compile_loop (ctx : context) (config : gmap string string)
  (compiled_path : string) (profile_paths : list Profile.t) (b : buffers)
: M buffers :=
match profile_paths with
| [] => mret b
| profile :: rest =>
    b' ← compile_profile ctx config compiled_path b profile;
    compile_loop ctx config compiled_path rest b'
end.

(** The first lines of the compiled [init.sh]. *)
Definition init_banner : list string :=
[ "#!/bin/bash";
  "";
  "# AUTOGENERATED by oci-env";
  "# This script runs automatically when the container starts.";
  "" ].

(** The second half of [parse_profiles]: from [init_script] to the end. *)
Definition compile_profiles (ctx : context) (config : gmap string string)
  (profile_paths : list Profile.t) : M (list string) :=
let compiled_path := Path.join (get_oci_env_path ctx) [".compiled"] in
b ← compile_loop ctx config compiled_path profile_paths
      {| init_script := init_banner; env_output := []; compose_files := [] |};
_ ← FS.write ctx (Path.join compiled_path ["init.sh"])
      (Str.join (String nl "") (init_script b));
_ ← FS.write ctx (Path.join compiled_path ["combined.env"])
      (Str.join (String nl "") (env_output b));
mret (compose_files b).

(** [parse_profiles(config)] *)
Definition parse_profiles (ctx : context) (config : gmap string string)
: M (list string) :=
profile_paths ← resolve_profiles ctx config;
compile_profiles ctx config profile_paths.

(** ** Processes and the terminal

    The methods of [Compose] print to the terminal and start a process.  A
    method is the tree of what it asks for, one request after the other; the
    answer to a request selects the rest of the tree. *)

(** What a [CompletedProcess] holds as [stdout]: the bytes that the process
    wrote when [capture_output] is set, nothing otherwise. *)
Definition captured (capture_output : bool) : Type :=
  if capture_output then list Byte.byte else unit.

(** A [CompletedProcess]. *)
Record completed (capture_output : bool) := {
  returncode : Z;
  stdout : captured capture_output
}.
Arguments returncode {capture_output} _.
Arguments stdout {capture_output} _.

(** [Say line] is [print(line)], [Call cmd] is [subprocess.call(cmd)] and
    [Run cmd c] is [subprocess.run(cmd, capture_output=c)]. *)
Inductive action (A : Type) : Type :=
| Return (o : outcome A)
| Say (line : string) (next : action A)
| Call (cmd : list string) (next : Z -> action A)
| Run (cmd : list string) (capture_output : bool)
    (next : completed capture_output -> action A).
Arguments Return {A} o.
Arguments Say {A} line next.
Arguments Call {A} cmd next.
Arguments Run {A} cmd capture_output next.

(** Actions chain as outcomes do. *)
Fixpoint action_bind {A B} (f : A -> action B) (m : action A) : action B :=
  match m with
  | Return (Ok a) => f a
  | Return (Exit n said) => Return (Exit n said)
  | Return (Raise e) => Return (Raise e)
  | Return Unmodelled => Return Unmodelled
  | Say line next => Say line (action_bind f next)
  | Call cmd next => Call cmd (fun rc => action_bind f (next rc))
  | Run cmd c next => Run cmd c (fun proc => action_bind f (next proc))
  end.

#[global] Instance action_ret : MRet action := fun A a => Return (Ok a).
#[global] Instance action_mbind : MBind action := @action_bind.

(** The machine that an action runs on: how a process started through
    [subprocess.call] or [subprocess.run] ends.  Starting it can fail, as
    with [FileNotFoundError] for a program that is not installed. *)
Record system := {
  on_call : list string -> outcome Z;
  on_run : forall capture_output, list string -> outcome (completed capture_output)
}.

(** What can be seen of an action from outside: the lines printed and the
    commands handed to [subprocess]. *)
Inductive event :=
| Printed (line : string)
| Started (cmd : list string).

(** Running an action: the events in order, and how the action ends.  An
    exception out of [subprocess] ends the action. *)
Fixpoint perform {A} (os : system) (a : action A) : list event * outcome A :=
  match a with
  | Return o => ([], o)
  | Say line next =>
      let '(events, o) := perform os next in (Printed line :: events, o)
  | Call cmd next =>
      match on_call os cmd with
      | Ok rc =>
          let '(events, o) := perform os (next rc) in (Started cmd :: events, o)
      | Exit n said => ([Started cmd], Exit n said)
      | Raise e => ([Started cmd], Raise e)
      | Unmodelled => ([Started cmd], Unmodelled)
      end
  | Run cmd c next =>
      match on_run os c cmd with
      | Ok proc =>
          let '(events, o) := perform os (next proc) in (Started cmd :: events, o)
      | Exit n said => ([Started cmd], Exit n said)
      | Raise e => ([Started cmd], Raise e)
      | Unmodelled => ([Started cmd], Unmodelled)
      end
  end.

(** [b.decode()] on bytes below 128, each of which stands for the character
    with its number. *)
Definition decode (b : list Byte.byte) : outcome string :=
  if forallb (fun x => (Byte.to_N x <? 128)%N) b
  then Ok (String.string_of_list_byte b)
  else Unmodelled.

Module Compose.

(** The attributes of a [Compose] object. *)
Record t := {
  path : string;
  config : gmap string string;
  compose_files : list string;
  is_verbose : bool
}.

(** [Compose(is_verbose)] *)
Definition __init__ (ctx : context) (is_verbose : bool) : M t :=
  let path := get_oci_env_path ctx in
  config ← get_config ctx;
  compose_files ← parse_profiles ctx config;
  mret {| path := path;
          config := config;
          compose_files := compose_files;
          is_verbose := is_verbose |}.

(** [self.config[key]] *)
Definition getitem (self : t) (key : string) : action string :=
  match config self !! key with
  | Some v => mret v
  | None => Return (Raise (KeyError key))
  end.

(** The lines that both [compose_command] and [exec] print when
    [is_verbose] is set. *)
Definition announce (self : t) (cmd : list string) : action unit :=
  if is_verbose self
  then Say ("Running command in container: " +:+ Str.join " " cmd) (mret tt)
  else mret tt.

(** What a method that starts [cmd] returns: the return code from
    [subprocess.call] when [interactive] is set, the [CompletedProcess] from
    [subprocess.run] otherwise. *)
Definition returned (interactive pipe_output : bool) : Type :=
  if interactive then Z else completed pipe_output.

(** The last statement of [compose_command] and of [exec]. *)
Definition subprocess (cmd : list string) (interactive pipe_output : bool)
  : action (returned interactive pipe_output) :=
  match interactive as i return action (returned i pipe_output) with
  | true => Call cmd (fun rc => mret rc)
  | false => Run cmd pipe_output (fun proc => mret proc)
  end.

(** [self.compose_command(cmd, interactive, pipe_output)] *)
Definition compose_command (self : t) (cmd : list string)
    (interactive pipe_output : bool)
  : action (returned interactive pipe_output) :=
  compose_binary ← getitem self "COMPOSE_BINARY";
  project_name ← getitem self "COMPOSE_PROJECT_NAME";
  let binary := [compose_binary +:+ "-compose"; "-p"; project_name] in
  let compose_files :=
    foldl (fun acc f => (acc ++ ["-f"]) ++ [f]) [] (compose_files self) in
  let cmd := (binary ++ compose_files) ++ cmd in
  _ ← announce self cmd;
  subprocess cmd interactive pipe_output.

(** [self.exec(args, service, interactive, pipe_output)]; a [service] that
    is [None] or empty is replaced by [API_CONTAINER]. *)
Definition exec (ctx : context) (self : t) (args : list string)
    (service : option string) (interactive pipe_output : bool)
  : action (returned interactive pipe_output) :=
  service ← match service with
            | Some (String _ _ as s) => mret s
            | _ => getitem self "API_CONTAINER"
            end;
  project_name ← getitem self "COMPOSE_PROJECT_NAME";
  binary ← getitem self "COMPOSE_BINARY";
  let container := project_name +:+ "_" +:+ service +:+ "_1" in
  let cmd :=
    if bool_decide
         (default "0" (environ ctx !! "COMPOSE_INTERACTIVE_NO_CLI") = "1")
    then [binary; "exec"; container] ++ args
    else [binary; "exec"; "-it"; container] ++ args in
  _ ← announce self cmd;
  subprocess cmd interactive pipe_output.

(** [self.exec_container_script(script, args, interactive, pipe_output)];
    [args or []] is the empty list for [None]. *)
Definition exec_container_script (ctx : context) (self : t) (script : string)
    (args : option (list string)) (interactive pipe_output : bool)
  : action (returned interactive pipe_output) :=
  let args := default [] args in
  oci_env_directory ← getitem self "OCI_ENV_DIRECTORY";
  let script_path :=
    "/src/" +:+ oci_env_directory +:+ "/base/container_scripts/" +:+ script in
  let cmd := ["bash"; script_path] ++ args in
  exec ctx self cmd None interactive pipe_output.

(** [self.get_dynaconf_variable(name)] *)
Definition get_dynaconf_variable (ctx : context) (self : t) (name : string)
  : action string :=
  proc ← exec_container_script ctx self "get_dynaconf_var.sh" (Some [name])
           false true;
  text ← Return (decode (stdout (proc : completed true)));
  mret (Str.strip text).

End Compose.

(** * Vocabulary of the statements

    Predicates and functions that the statements below use: what the
    specification says in words, and the views of the program that the proofs
    go through. *)

(** The computation returned a value. *)
Definition is_ok {A} (o : outcome A) : bool :=
  match o with
  | Ok _ => true
  | _ => false
  end.

(** The value of a computation that returned, [d] otherwise. *)
Definition the_value {A} (d : A) (o : outcome A) : A :=
  match o with
  | Ok a => a
  | _ => d
  end.

(** Every character of [s] satisfies [p]. *)
Fixpoint all_chars (p : ascii -> bool) (s : string) : bool :=
  match s with
  | EmptyString => true
  | String c s' => p c && all_chars p s'
  end.

(** The first character of [s], if any. *)
Definition first_char (s : string) : option ascii :=
  match s with
  | EmptyString => None
  | String c _ => Some c
  end.

(** The last character of [s], if any. *)
Fixpoint final_char (s : string) : option ascii :=
  match s with
  | EmptyString => None
  | String c EmptyString => Some c
  | String _ s' => final_char s'
  end.

(** [r] is [s] without the leading and trailing characters that [drop]
    accepts. *)
Definition stripped_of (drop : ascii -> bool) (s r : string) : Prop :=
  exists l t,
    s = l +:+ r +:+ t /\ all_chars drop l = true /\ all_chars drop t = true
    /\ match first_char r with Some c => drop c = false | None => True end
    /\ match final_char r with Some c => drop c = false | None => True end.

(** The line can contribute a pair: it does not start with [#] and has an [=]. *)
Definition candidate (line : string) : bool :=
  negb (Str.startswith "#" line) && Str.contains "="%char line.

(** The pair that a candidate line contributes: the text before the first
    [=] and the text after it, each without the surrounding characters of
    [key_chars] and [val_chars]. *)
Inductive contributes (line k v : string) : Prop :=
| Contributes before after :
    line = before +:+ String "="%char after ->
    Str.contains "="%char before = false ->
    stripped_of (fun c => Str.contains c key_chars) before k ->
    stripped_of (fun c => Str.contains c val_chars) after v ->
    contributes line k v.

(** The mapping after the lines of a user file, read in order. *)
Inductive env_result : list string -> gmap string string -> gmap string string -> Prop :=
| env_result_nil m : env_result [] m m
| env_result_skip line rest m m' :
    candidate line = false -> env_result rest m m' ->
    env_result (line :: rest) m m'
| env_result_pair line rest k v m m' :
    candidate line = true -> contributes line k v ->
    env_result rest (<[k:=v]> m) m' ->
    env_result (line :: rest) m m'.

(** [seg] is what follows the last slash of [path], trailing and leading
    slashes of [path] put aside. *)
Definition last_segment (path seg : string) : Prop :=
  Str.contains slash seg = false
  /\ exists pre, Str.strip_chars "/" path = pre +:+ seg
                 /\ (pre = "" \/ Str.endswith slash pre = true).

(** An opening or closing brace. *)
Definition is_brace (c : ascii) : bool := eqc c lbrace || eqc c rbrace.

(** The characters that end or qualify a field name. *)
Definition field_special (c : ascii) : bool :=
  is_brace c || eqc c ":"%char || eqc c "!"%char || eqc c "["%char
  || eqc c "."%char.

(** A key that a template can name as [{key}]: not empty, not starting with
    a digit, without any of the characters [{ } : ! [ .]. *)
Definition plain_key (k : string) : bool :=
  match k with
  | EmptyString => false
  | String c _ =>
      match Format.digit c with Some _ => false | None => true end
      && all_chars (fun c => negb (field_special c)) k
  end.

(** Doubling the braces of a text. *)
Fixpoint escape (t : string) : string :=
  match t with
  | EmptyString => EmptyString
  | String c t' => if is_brace c then String c (String c (escape t'))
                   else String c (escape t')
  end.

(** A template as its author means it: literal text and placeholders. *)
Inductive piece :=
| Text (t : string)
| Placeholder (key : string).

(** The text of a template: literal braces doubled, placeholders in braces. *)
Fixpoint render (ps : list piece) : string :=
  match ps with
  | [] => EmptyString
  | Text t :: rest => escape t +:+ render rest
  | Placeholder k :: rest => "{" +:+ k +:+ String rbrace (render rest)
  end.

(** What the author of a template expects: the literal text as it is, every
    placeholder replaced by the value of its key. *)
Fixpoint expand (config : gmap string string) (ps : list piece) : option string :=
  match ps with
  | [] => Some EmptyString
  | Text t :: rest => String.append t <$> expand config rest
  | Placeholder k :: rest =>
      v ← config !! k; String.append v <$> expand config rest
  end.

(** The placeholders of a template name plain keys. *)
Definition plain_piece (p : piece) : Prop :=
  match p with
  | Text _ => True
  | Placeholder k => plain_key k = true
  end.

(** The path a relative path stands for. *)
Definition absolute (ctx : context) (p : string) : string :=
  if Path.isabs p then p else cwd ctx +:+ "/" +:+ p.

(** A file or directory name: one component, not [.] or [..]. *)
Definition regular (n : string) : Prop :=
  Str.contains slash n = false /\ n <> "" /\ n <> "." /\ n <> "..".

(** Every directory of [a] is a directory of [b]. *)
Definition sub_dirs (a b : filesystem) : Prop :=
  forall k, a !! k = Some Dir -> b !! k = Some Dir.

(** [a] and [b] have the same directories. *)
Definition same_dirs (a b : filesystem) : Prop :=
  forall k, a !! k = Some Dir <-> b !! k = Some Dir.

(** A path component that [os.path.join] places after one separator. *)
Definition plain (s : string) : Prop :=
  s <> "" /\ Str.startswith "/" s = false /\ Str.endswith slash s = false.

(** What is printed for a profile that is not there. *)
Definition missing_profile (profile dir : string) : string :=
  profile +:+ " from COMPOSE_PROFILE does not exist at " +:+ dir.

(** The first element of [profile_paths]. *)
Definition base_profile (root oci_dir : string) : Profile.t :=
  {| Profile.path := Path.join root ["base"];
     Profile.name := "base";
     Profile.container_path := Path.join "/src" [oci_dir; "base"] |}.


(** [d] is the descriptor appended for [profile]. *)
Definition describes (ctx : context) (root oci_dir : string) (fs : filesystem)
    (profile : string) (d : Profile.t) : Prop :=
  exists plugin name dir,
    locate ctx root oci_dir profile = Ok (plugin, name, dir)
    /\ FS.isdir ctx fs dir = true
    /\ d = {| Profile.path := dir;
              Profile.name := profile;
              Profile.container_path := Path.join "/src" [plugin; "profiles"; name] |}.

(** The three paths that a round of the compilation loop looks at. *)
Definition init_file (p : Profile.t) : string := Path.join (Profile.path p) ["init.sh"].
Definition env_file (p : Profile.t) : string :=
  Path.join (Profile.path p) ["pulp_config.env"].
Definition compose_file (p : Profile.t) : string :=
  Path.join (Profile.path p) ["compose.yaml"].

(** The name of the compiled orchestration file of a profile. *)
Definition compose_name (p : Profile.t) : string :=
  Str.replace slash "_"%char (Profile.name p) +:+ "_compose.yaml".

(** What one round of the compilation loop reads from a profile. *)
Record inputs := {
  has_init : bool;
  env_read : outcome string;
  compose_read : outcome string
}.

Definition profile_inputs (ctx : context) (fs : filesystem) (p : Profile.t)
  : inputs :=
  {| has_init := FS.isfile ctx fs (init_file p);
     env_read := FS.read ctx fs (env_file p);
     compose_read := FS.read ctx fs (compose_file p) |}.

(** The [try] block over [pulp_config.env], given what [open] returned. *)
Definition env_stage (config : gmap string string) (file : string)
    (r : outcome string) (env_output : list string) : outcome (list string) :=
  match r with
  | Ok f => format_env_lines config file (Str.lines f) env_output
  | Raise FileNotFoundError => Ok env_output
  | Raise e => Raise e
  | Exit n m => Exit n m
  | Unmodelled => Unmodelled
  end.

(** The [try] block over [compose.yaml] up to the substituted text, given
    what [open] returned; [None] when there is no such file. *)
Definition compose_stage (config : gmap string string) (file : string)
    (r : outcome string) : outcome (option string) :=
  match r with
  | Ok data =>
      omap Some (except_KeyError (Format.format config data) (template_error file))
  | Raise FileNotFoundError => Ok None
  | Raise e => Raise e
  | Exit n m => Exit n m
  | Unmodelled => Unmodelled
  end.

(** One round of the loop as a function of what it reads: the new buffers
    and the file to write, if any. *)
Definition plan (config : gmap string string) (compiled_path : string)
    (i : inputs) (b : buffers) (p : Profile.t)
  : outcome (buffers * option (string * string)) :=
  env_output ← env_stage config (env_file p) (env_read i) (env_output b);
  data ← compose_stage config (compose_file p) (compose_read i);
  let init_script :=
    if has_init i then
      init_script b ++ ["bash " +:+ Path.join (Profile.container_path p) ["init.sh"]]
    else init_script b in
  let out := Path.join compiled_path [compose_name p] in
  mret match data with
       | None =>
           ({| init_script := init_script; env_output := env_output;
               compose_files := compose_files b |}, None)
       | Some d =>
           ({| init_script := init_script; env_output := env_output;
               compose_files := compose_files b ++ [out] |}, Some (out, d))
       end.

(** The write that ends a round. *)
Definition commit (ctx : context) (w : option (string * string)) : M unit :=
  match w with
  | None => mret tt
  | Some (out, d) => except_FileNotFoundError (FS.write ctx out d) (mret tt)
  end.

(** The exceptions [str.format] raises. *)
Definition format_exception (e : exception) : Prop :=
  match e with
  | KeyError _ | IndexError | ValueError => True
  | _ => False
  end.

(** [s] ends with [suffix]. *)
Fixpoint has_suffix (suffix s : string) : bool :=
  bool_decide (s = suffix)
  || match s with
     | EmptyString => false
     | String _ s' => has_suffix suffix s'
     end.

(** The source directory of [p] is a directory. *)
Definition verified (ctx : context) (fs : filesystem) (p : Profile.t) : Prop :=
  FS.isdir ctx fs (Profile.path p) = true.

(** A round leaves the directories and what verified profiles hold as they were. *)
Definition step_frame (ctx : context) (fs fs' : filesystem) : Prop :=
  same_dirs fs fs'
  /\ forall q, verified ctx fs q -> profile_inputs ctx fs' q = profile_inputs ctx fs q.

(** Two runs in step: every node is equal in both, or untouched in both. *)
Definition related (a0 b0 a b : filesystem) : Prop :=
  same_dirs a b
  /\ forall k, a !! k = b !! k \/ (a !! k = a0 !! k /\ b !! k = b0 !! k).

(** The stripped line substitutes to [out]. *)
Definition formats_to (config : gmap string string) (line out : string) : Prop :=
  Format.format config (Str.strip line) = Ok out.

(** The lines that the profiles, in order, contribute to [combined.env]. *)
Inductive env_lines (ctx : context) (config : gmap string string)
    (fs : filesystem) : list Profile.t -> list string -> Prop :=
| env_lines_nil : env_lines ctx config fs [] []
| env_lines_absent p ps rest :
    FS.read ctx fs (env_file p) = Raise FileNotFoundError ->
    env_lines ctx config fs ps rest ->
    env_lines ctx config fs (p :: ps) rest
| env_lines_present p ps content outs rest :
    FS.read ctx fs (env_file p) = Ok content ->
    Forall2 (formats_to config) (Str.lines content) outs ->
    env_lines ctx config fs ps rest ->
    env_lines ctx config fs (p :: ps) (outs ++ rest).





(** The output directory of a run. *)
Definition compiled_path (ctx : context) : string :=
  Path.join (get_oci_env_path ctx) [".compiled"].

(** The buffers before the first round. *)
Definition empty_buffers : buffers :=
  {| init_script := init_banner; env_output := []; compose_files := [] |}.

(** The inputs of the compilation are unchanged between [before] and [after]. *)
Definition same_inputs (ctx : context) (before after : filesystem)
    (ps : list Profile.t) : Prop :=
  Forall (fun p => profile_inputs ctx after p = profile_inputs ctx before p) ps.

(** [file] is the compiled orchestration file of one of the profiles. *)
Definition compiled_from (cp : string) (ps : list Profile.t) (file : string) : Prop :=
  exists p, p ∈ ps /\ file = Path.join cp [compose_name p].

(** The directory [dir] is there in [fs] and is another one than [cp]. *)
Definition apart (ctx : context) (fs : filesystem) (cp dir : string) : Prop :=
  FS.isdir ctx fs dir = true /\ FS.resolve ctx fs dir <> FS.resolve ctx fs cp.

(** * A sample checkout

    A run root [/home/u/oci_env] with a local profile [ui], a sibling plugin
    [galaxy] with the profile [dev], and a user file that selects both. *)

(** A file tree from the absolute paths of its nodes. *)
Definition tree (l : list (string * node)) : filesystem :=
  list_to_map
    (prod_map (fun p => filter (fun c => c <> "") (Str.split slash p)) id <$> l).

(** A text file from its lines. *)
Definition text (l : list string) : string :=
  Str.join "" ((fun line => line +:+ String nl "") <$> l).

Module Sample.

Definition ctx : context := {| environ := ∅; cwd := "/home/u/oci_env" |}.

Definition user_file : string :=
  text ["# profiles"; "COMPOSE_PROFILE=ui:galaxy/dev"; "API_PORT = '8080' ";
        "not a setting"].

Definition disk : filesystem :=
  tree
    [ ("/home", Dir); ("/home/u", Dir); ("/home/u/oci_env", Dir);
      ("/home/u/oci_env/.compose.env", File user_file);
      ("/home/u/oci_env/base", Dir);
      ("/home/u/oci_env/base/init.sh", File "echo base");
      ("/home/u/oci_env/base/pulp_config.env",
        File (text ["HOST={API_HOST}"; "  PORT={API_PORT}  "]));
      ("/home/u/oci_env/base/compose.yaml",
        File "image: {COMPOSE_PROJECT_NAME} {{literal}}");
      ("/home/u/oci_env/profiles", Dir);
      ("/home/u/oci_env/profiles/ui", Dir);
      ("/home/u/oci_env/profiles/ui/pulp_config.env", File "UI=1");
      ("/home/u/galaxy", Dir);
      ("/home/u/galaxy/profiles", Dir);
      ("/home/u/galaxy/profiles/dev", Dir);
      ("/home/u/galaxy/profiles/dev/init.sh", File "echo dev");
      ("/home/u/galaxy/profiles/dev/compose.yaml", File "context: {COMPOSE_CONTEXT}");
      ("/b", Dir) ].

(** The mapping that [get_config] builds on [disk]. *)
Definition config : gmap string string :=
  the_value ∅ (fst (get_config ctx disk)).

Definition base : Profile.t :=
  {| Profile.path := "/home/u/oci_env/base";
     Profile.name := "base";
     Profile.container_path := "/src/oci_env/base" |}.

Definition ui : Profile.t :=
  {| Profile.path := "/home/u/oci_env/profiles/ui";
     Profile.name := "ui";
     Profile.container_path := "/src/oci_env/profiles/ui" |}.

Definition dev : Profile.t :=
  {| Profile.path := "/home/u/galaxy/profiles/dev";
     Profile.name := "galaxy/dev";
     Profile.container_path := "/src/galaxy/profiles/dev" |}.

Definition resolved : outcome (list Profile.t) * filesystem :=
  resolve_profiles ctx config disk.

Definition first_run : outcome (list string) * filesystem :=
  parse_profiles ctx config disk.

Definition compiled_files : list string :=
  [ "/home/u/oci_env/.compiled/base_compose.yaml";
    "/home/u/oci_env/.compiled/galaxy_dev_compose.yaml" ].

(** [disk] once [.compiled] exists. *)
Definition after_mkdir : filesystem :=
  snd (FS.mkdir_exist_ok ctx "/home/u/oci_env/.compiled" disk).




(** The configuration with a profile list that names a missing profile. *)
Definition missing_config : gmap string string :=
  <["COMPOSE_PROFILE" := "ui:nope"]> config.

(** The configuration with the default, empty profile list. *)
Definition empty_config : gmap string string :=
  <["COMPOSE_PROFILE" := ""]> config.


Definition pieces : list piece :=
  [Text "HOST="; Placeholder "API_HOST"; Text " {literal}"].

Definition host : gmap string string := {["API_HOST" := "localhost"]}.

(** A process started in [/home/u] with [OCI_ENV_PATH] set to the relative
    path [oci_env]. *)
Definition relative_ctx : context :=
  {| environ := {["OCI_ENV_PATH" := "oci_env"]}; cwd := "/home/u" |}.

(** The configuration with a profile list whose one reference leads, by way
    of [..], to the output directory [.compiled]. *)
Definition looping_config : gmap string string :=
  <["COMPOSE_PROFILE" := "oci_env/../.compiled"]> config.

Definition looping : Profile.t :=
  {| Profile.path := "/home/u/oci_env/.compiled";
     Profile.name := "oci_env/../.compiled";
     Profile.container_path := "/src/oci_env/profiles/../.compiled" |}.

(** A run with that configuration, and a second run on the tree that the
    first one left. *)
Definition looping_first : outcome (list string) * filesystem :=
  parse_profiles ctx looping_config disk.

Definition looping_second : outcome (list string) * filesystem :=
  parse_profiles ctx looping_config (snd looping_first).

End Sample.

(** * Vocabulary of the further properties *)

(** [s] neither begins nor ends with a character of [chars]. *)
Definition clean (chars s : string) : Prop :=
  match first_char s with
  | Some c => Str.contains c chars = false
  | None => True
  end
  /\ match final_char s with
     | Some c => Str.contains c chars = false
     | None => True
     end.

(** A key and a value that a line of a user file carries as they are: on
    one line, the key without [=] and not opening a comment, and neither
    with a character at its ends that [read_env_file] strips. *)
Definition setting (kv : string * string) : Prop :=
  Str.contains "="%char kv.1 = false /\ Str.contains nl kv.1 = false
  /\ Str.startswith "#" kv.1 = false /\ clean key_chars kv.1
  /\ Str.contains nl kv.2 = false /\ clean val_chars kv.2.

(** The user file that sets the pairs of [l], one per line. *)
Definition env_text (l : list (string * string)) : string :=
  text ((fun kv => kv.1 +:+ "=" +:+ kv.2) <$> l).

(** How [read_env_file] ends when opening [path] raises [e]: only
    [FileNotFoundError] is caught. *)
Definition unreadable {A} (path : string) (e : exception) : outcome A :=
  match e with
  | FileNotFoundError =>
      Exit 1 ("No .compose.env file found in " +:+ path +:+ ".")
  | _ => Raise e
  end.

(** The keys that [get_config] gives a default. *)
Definition default_keys : list string :=
  [ "DEV_SOURCE_PATH"; "COMPOSE_PROFILE"; "DJANGO_SUPERUSER_USERNAME";
    "DJANGO_SUPERUSER_PASSWORD"; "API_HOST"; "API_PORT"; "API_PROTOCOL";
    "COMPOSE_PROJECT_NAME"; "COMPOSE_BINARY"; "API_CONTAINER"; "DB_CONTAINER";
    "CONTENT_APP_CONTAINER"; "WORKER_CONTAINER"; "DEV_IMAGE_SUFFIX";
    "DEV_VOLUME_SUFFIX"; "NGINX_PORT"; "NGINX_SSL_PORT" ].

(** The keys that [get_config] computes. *)
Definition constant_keys : list string := ["OCI_ENV_DIRECTORY"; "COMPOSE_CONTEXT"].

(** The rounds of the compilation loop as a function of what they read in
    the tree [fs]: the buffers after the last round. *)
Fixpoint plans (config : gmap string string) (compiled_path : string)
    (ctx : context) (fs : filesystem) (ps : list Profile.t) (b : buffers)
  : outcome buffers :=
  match ps with
  | [] => Ok b
  | p :: rest =>
      x ← plan config compiled_path (profile_inputs ctx fs p) b p;
      plans config compiled_path ctx fs rest x.1
  end.

(** The lines that the profiles with an [init.sh] add to the compiled
    [init.sh]. *)
Definition init_lines (ctx : context) (fs : filesystem) (ps : list Profile.t)
  : list string :=
  flat_map
    (fun p =>
       if FS.isfile ctx fs (init_file p)
       then ["bash " +:+ Path.join (Profile.container_path p) ["init.sh"]]
       else [])
    ps.

(** The compiled orchestration files of the profiles that have a
    [compose.yaml]. *)
Definition compiled_list (ctx : context) (fs : filesystem) (ps : list Profile.t)
  : list string :=
  flat_map
    (fun p =>
       if is_ok (FS.read ctx fs (compose_file p))
       then [Path.join (compiled_path ctx) [compose_name p]]
       else [])
    ps.

(** From [fs] to [fs'] nothing changed but files directly in the directory
    [d] whose name satisfies [names], written where no directory was. *)
Definition only_files (names : string -> Prop) (d : list string)
    (fs fs' : filesystem) : Prop :=
  forall k,
    fs' !! k = fs !! k
    \/ exists n c, k = d ++ [n] /\ names n /\ fs' !! k = Some (File c)
                   /\ fs !! k <> Some Dir.

(** The names of the files that a run writes into [.compiled]. *)
Definition output_name (n : string) : Prop :=
  n = "init.sh" \/ n = "combined.env" \/ has_suffix "_compose.yaml" n = true.

(** The compiled file of one of the profiles [ps] has the name [n]. *)
Definition compose_name_of (ps : list Profile.t) (n : string) : Prop :=
  exists q, q ∈ ps /\ n = compose_name q.




(** How the system answers a method that starts [cmd]: through
    [subprocess.call] when [interactive] is set, through [subprocess.run]
    otherwise. *)
Definition answer (os : system) (cmd : list string)
    (interactive pipe_output : bool)
  : outcome (Compose.returned interactive pipe_output) :=
  match interactive as i return outcome (Compose.returned i pipe_output) with
  | true => on_call os cmd
  | false => on_run os pipe_output cmd
  end.

(** What a method that starts [cmd] lets see: the line that announces the
    command when the object is verbose, then the command. *)
Definition shown (is_verbose : bool) (cmd : list string) : list event :=
  (if is_verbose
   then [Printed ("Running command in container: " +:+ Str.join " " cmd)]
   else [])
  ++ [Started cmd].

(** The service that [exec] addresses: the one asked for, or the one of
    [API_CONTAINER] when none or an empty one is asked for. *)
Definition target (service : option string) (api : string) : string :=
  match service with
  | Some (String _ _ as s) => s
  | _ => api
  end.

(** The option that asks for a terminal; [exec] leaves it out when
    [COMPOSE_INTERACTIVE_NO_CLI] is [1]. *)
Definition terminal (ctx : context) : list string :=
  if bool_decide (environ ctx !! "COMPOSE_INTERACTIVE_NO_CLI" = Some "1")
  then []
  else ["-it"].

(** The command of [exec]. *)
Definition exec_command (ctx : context) (binary project service : string)
    (args : list string) : list string :=
  [binary; "exec"] ++ terminal ctx
    ++ [project +:+ "_" +:+ service +:+ "_1"] ++ args.

(** An end without surprise: no [KeyError], and status 1 for an exit. *)
Definition orderly {A} (o : outcome A) : Prop :=
  match o with
  | Raise (KeyError _) => False
  | Exit status _ => status = 1
  | _ => True
  end.

(** * A sample session

    The sample checkout, seen through a [Compose] object on a machine where
    every process ends with return code 0 and writes [ value] and a line
    feed. *)

Module Demo.

(** The constructor on the sample checkout, verbose. *)
Definition built : outcome Compose.t * filesystem :=
  Compose.__init__ Sample.ctx true Sample.disk.

(** An object to stand for the result where the constructor fails. *)
Definition blank : Compose.t :=
  {| Compose.path := "";
     Compose.config := ∅;
     Compose.compose_files := [];
     Compose.is_verbose := false |}.

(** The object that the constructor returns. *)
Definition self : Compose.t := the_value blank (fst built).

(** The machine of the session. *)
Definition os : system :=
  {| on_call := fun _ => Ok 0;
     on_run := fun c _ =>
       Ok {| returncode := 0;
             stdout := match c return captured c with
                       | true => String.list_byte_of_string
                                   (" value" +:+ String nl "")
                       | false => tt
                       end |} |}.

(** A user file that sets a key twice and a value with an [=] sign. *)
Definition pairs : list (string * string) :=
  [("API_PORT", "8080"); ("NAME", "a=b"); ("API_PORT", "9090")].

(** A tree that holds that file as [/etc/env]. *)
Definition settings : filesystem :=
  tree [("/etc", Dir); ("/etc/env", File (env_text pairs))].

(** A checkout without a user file. *)
Definition bare : filesystem :=
  tree [("/home", Dir); ("/home/u", Dir); ("/home/u/oci_env", Dir)].




(** A second run, on the tree that the first run left, with a profile list
    that names a missing profile. *)
Definition second_run : outcome (list string) * filesystem :=
  parse_profiles Sample.ctx Sample.missing_config (snd Sample.first_run).

End Demo.

(** * Facts about the program *)

(** Closes an equation between closed terms by evaluating both sides. *)
Ltac evaluate := vm_compute; reflexivity.

Lemma run_result {A} (m : M A) (fs : filesystem) (a : outcome A) :
  fst (m fs) = a -> m fs = (a, snd (m fs)).
Proof. intros <-. by destruct (m fs). Qed.

Lemma ok_result {A} (m : M A) (fs : filesystem) (d : A) :
  is_ok (fst (m fs)) = true ->
  m fs = (Ok (the_value d (fst (m fs))), snd (m fs)).
Proof. destruct (m fs) as [[a| | |] fs']; simpl; by intros. Qed.

Lemma eqc_refl a : eqc a a = true.
Proof. unfold eqc. by apply bool_decide_eq_true. Qed.

Lemma eqc_true a b : eqc a b = true <-> a = b.
Proof. unfold eqc. apply bool_decide_eq_true. Qed.

Lemma eqc_false a b : eqc a b = false <-> a <> b.
Proof. unfold eqc. apply bool_decide_eq_false. Qed.

Lemma sapp_cons c s t : String c s +:+ t = String c (s +:+ t).
Proof. reflexivity. Qed.

Lemma sapp_nil_l s : "" +:+ s = s.
Proof. reflexivity. Qed.

Lemma sapp_nil_r s : s +:+ "" = s.
Proof. induction s as [|c s IH]; [done|]. by rewrite sapp_cons, IH. Qed.

Lemma sapp_assoc s t u : (s +:+ t) +:+ u = s +:+ t +:+ u.
Proof. induction s as [|c s IH]; [done|]. by rewrite !sapp_cons, IH. Qed.

Lemma sapp_eq_nil s t : s +:+ t = "" -> s = "" /\ t = "".
Proof. destruct s; [done|]. by rewrite sapp_cons. Qed.

Module StrFacts.

Lemma contains_app c s t :
  Str.contains c (s +:+ t) = Str.contains c s || Str.contains c t.
Proof.
  induction s as [|x s IH]; [done|].
  rewrite sapp_cons. simpl. rewrite IH. by rewrite orb_assoc.
Qed.

Lemma split1_absent c s : Str.contains c s = false -> Str.split1 c s = [s].
Proof.
  induction s as [|x s IH]; [done|]. simpl.
  intros [Hx Hs]%orb_false_iff. rewrite Hx, (IH Hs). done.
Qed.

Lemma split1_present c s :
  Str.contains c s = true ->
  exists a b, Str.split1 c s = [a; b] /\ s = a +:+ String c b
              /\ Str.contains c a = false.
Proof.
  induction s as [|x s IH]; [done|]. simpl.
  destruct (eqc x c) eqn:Hx.
  - intros _. apply eqc_true in Hx as ->. by exists "", s.
  - simpl. intros (a & b & -> & -> & Ha)%IH.
    exists (String x a), b. simpl. rewrite Hx, Ha. done.
Qed.

Lemma lstrip_spec drop s :
  exists l, s = l +:+ Str.lstrip drop s /\ all_chars drop l = true
            /\ match first_char (Str.lstrip drop s) with
               | Some c => drop c = false
               | None => True
               end.
Proof.
  induction s as [|x s (l & Hs & Hl & Hf)]; [by exists ""|]. simpl.
  destruct (drop x) eqn:Hx.
  - exists (String x l). rewrite sapp_cons, <- Hs. simpl. by rewrite Hx, Hl.
  - exists "". by simpl.
Qed.

Lemma rstrip_spec drop s :
  exists t, s = Str.rstrip drop s +:+ t /\ all_chars drop t = true
            /\ match final_char (Str.rstrip drop s) with
               | Some c => drop c = false
               | None => True
               end
            /\ (Str.rstrip drop s <> "" -> first_char (Str.rstrip drop s) = first_char s).
Proof.
  induction s as [|x s (t & Hs & Ht & Hf & _)]; [by exists ""|]. simpl.
  destruct (Str.rstrip drop s) as [|y r] eqn:Hr.
  - destruct (drop x) eqn:Hx.
    + exists (String x t). rewrite sapp_nil_l in *. subst s. simpl. by rewrite Hx, Ht.
    + exists t. rewrite sapp_cons, sapp_nil_l in *. by subst s.
  - exists t. rewrite sapp_cons, <- Hs. repeat split; try done.
Qed.

End StrFacts.

Lemma strip_spec drop s : stripped_of drop s (Str.rstrip drop (Str.lstrip drop s)).
Proof.
  destruct (StrFacts.lstrip_spec drop s) as (l & Hs & Hl & Hf).
  destruct (StrFacts.rstrip_spec drop (Str.lstrip drop s)) as (t & Hs' & Ht & Hf' & Hfirst).
  exists l, t. repeat split; try done.
  - by rewrite <- Hs'.
  - destruct (Str.rstrip drop (Str.lstrip drop s)) eqn:E; [done|].
    rewrite Hfirst by done. done.
Qed.

Lemma read_env_line_candidate result line :
  candidate line = true ->
  exists k v, contributes line k v /\ read_env_line result line = Ok (<[k:=v]> result).
Proof.
  intros Hc. unfold read_env_line. fold (candidate line). rewrite Hc.
  apply andb_true_iff in Hc as [_ Heq].
  destruct (StrFacts.split1_present _ _ Heq) as (a & b & -> & Hline & Ha).
  eexists _, _. split; [|reflexivity].
  econstructor; eauto; apply strip_spec.
Qed.

Lemma read_env_line_other result line :
  candidate line = false -> read_env_line result line = Ok result.
Proof. intros Hc. unfold read_env_line. fold (candidate line). by rewrite Hc. Qed.

Lemma read_env_lines_total f : forall result,
  exists result', read_env_lines result f = Ok result' /\ env_result f result result'.
Proof.
  induction f as [|line rest IH]; intros result; simpl.
  - eexists. split; [done|constructor].
  - destruct (candidate line) eqn:Hc.
    + destruct (read_env_line_candidate result line Hc) as (k & v & Hkv & ->).
      simpl. destruct (IH (<[k:=v]> result)) as (r & -> & Hr).
      exists r. split; [done|]. by eapply env_result_pair.
    + rewrite (read_env_line_other _ _ Hc). simpl.
      destruct (IH result) as (r & -> & Hr).
      exists r. split; [done|]. by apply env_result_skip.
Qed.

Module SplitFacts.

Lemma split_nonempty c s : Str.split c s <> [].
Proof. destruct s as [|x s]; simpl; [done|]. destruct (eqc x c); [done|]. by destruct (Str.split c s). Qed.

Lemma split_absent c s : Str.contains c s = false -> Str.split c s = [s].
Proof.
  induction s as [|x s IH]; [done|]. simpl.
  intros [Hx Hs]%orb_false_iff. by rewrite Hx, (IH Hs).
Qed.

Lemma split_app c a b :
  Str.split c (a +:+ String c b) = Str.split c a ++ Str.split c b.
Proof.
  induction a as [|x a IH]; rewrite ?sapp_nil_l, ?sapp_cons; simpl.
  - by rewrite eqc_refl.
  - destruct (eqc x c); rewrite IH; [done|].
    pose proof (split_nonempty c a). by destruct (Str.split c a).
Qed.

Lemma last_occurrence c s :
  Str.contains c s = true ->
  exists a b, s = a +:+ String c b /\ Str.contains c b = false.
Proof.
  induction s as [|x s IH]; [done|]. simpl.
  destruct (Str.contains c s) eqn:Hs.
  - intros _. destruct IH as (a & b & -> & Hb); [done|].
    by exists (String x a), b.
  - rewrite orb_false_r. intros ->%eqc_true. by exists "", s.
Qed.

Lemma endswith_snoc c a : Str.endswith c (a +:+ String c "") = true.
Proof.
  induction a as [|x a IH]; [simpl; apply eqc_refl|].
  rewrite sapp_cons. simpl. rewrite IH.
  destruct (a +:+ String c "") eqn:E; [|done].
  by apply sapp_eq_nil in E as [_ ?].
Qed.

(** The last piece of a split is the text after the last separator. *)
Lemma split_last c s :
  exists pre seg,
    last (Str.split c s) = Some seg /\ s = pre +:+ seg
    /\ Str.contains c seg = false
    /\ (pre = "" \/ Str.endswith c pre = true).
Proof.
  destruct (Str.contains c s) eqn:Hs.
  - destruct (last_occurrence c s Hs) as (a & b & -> & Hb).
    exists (a +:+ String c ""), b. rewrite split_app, (split_absent _ _ Hb).
    rewrite last_snoc, sapp_assoc. repeat split; try done.
    right. apply endswith_snoc.
  - exists "", s. rewrite (split_absent _ _ Hs). auto.
Qed.

End SplitFacts.

Lemma constant_vals_directory path :
  exists seg, constant_vals path !! "OCI_ENV_DIRECTORY" = Some seg
              /\ last_segment path seg.
Proof.
  destruct (SplitFacts.split_last slash (Str.strip_chars "/" path))
    as (pre & seg & Hlast & Hs & Hseg & Hpre).
  exists seg. unfold constant_vals. rewrite lookup_insert_eq, Hlast. simpl.
  split; [done|]. split; [done|]. by exists pre.
Qed.

Module FormatFacts.
Import Format.

Lemma omap_omap {A B C} (f : A -> B) (g : B -> C) o :
  omap g (omap f o) = omap (fun a => g (f a)) o.
Proof. by destruct o. Qed.

Lemma omap_ext {A B} (f g : A -> B) o :
  (forall a, f a = g a) -> omap f o = omap g o.
Proof. intros H. destruct o; simpl; by rewrite ?H. Qed.

Lemma all_contains p c s :
  all_chars p s = true -> p c = false -> Str.contains c s = false.
Proof.
  induction s as [|x s IH]; [done|]. simpl.
  intros [Hx Hs]%andb_true_iff Hc. rewrite (IH Hs Hc), orb_false_r.
  apply eqc_false. intros ->. congruence.
Qed.

Lemma get_field_plain config k :
  plain_key k = true ->
  get_field config k = match config !! k with
                       | Some v => Ok v
                       | None => Raise (KeyError k)
                       end.
Proof.
  destruct k as [|c k]; [done|]. unfold plain_key.
  intros [Hd Hall]%andb_true_iff. unfold get_field.
  rewrite (all_contains _ "."%char _ Hall) by done.
  unfold get_integer. simpl. by destruct (digit c).
Qed.

Lemma not_special c :
  field_special c = false ->
  eqc c rbrace = false /\ eqc c lbrace = false
  /\ eqc c ":"%char || eqc c "!"%char || eqc c "["%char = false.
Proof.
  unfold field_special, is_brace. rewrite !orb_false_iff. tauto.
Qed.

(** Inside a field, characters are collected up to the closing brace. *)
Lemma run_field config k : forall name rest,
  all_chars (fun c => negb (field_special c)) k = true ->
  run config (InField name) (k +:+ String rbrace rest)
  = match get_field config (name +:+ k) with
    | Ok v => omap (String.append v) (run config InText rest)
    | Exit n m => Exit n m
    | Raise e => Raise e
    | Unmodelled => Unmodelled
    end.
Proof.
  induction k as [|c k IH]; intros name rest Hall.
  - rewrite sapp_nil_l, sapp_nil_r. reflexivity.
  - simpl in Hall. apply andb_true_iff in Hall as [Hc Hall].
    apply negb_true_iff, not_special in Hc as (H1 & H2 & H3).
    rewrite sapp_cons. simpl. rewrite H1, H2, H3.
    rewrite (IH _ _ Hall), sapp_assoc. done.
Qed.

(** A placeholder with a plain key is replaced by the key's value. *)
Lemma format_placeholder config k rest :
  plain_key k = true ->
  format config ("{" +:+ k +:+ String rbrace rest)
  = match config !! k with
    | Some v => omap (String.append v) (format config rest)
    | None => Raise (KeyError k)
    end.
Proof.
  intros Hk. pose proof (get_field_plain config k Hk) as Hget.
  destruct k as [|c k]; [done|].
  unfold plain_key in Hk. apply andb_true_iff in Hk as [_ Hall].
  pose proof Hall as Hall'. simpl in Hall'.
  apply andb_true_iff in Hall' as [Hc Hk].
  apply negb_true_iff, not_special in Hc as (H1 & H2 & H3).
  unfold format. rewrite sapp_cons, sapp_nil_l, sapp_cons. simpl.
  rewrite H1, H2, H3. rewrite (run_field _ _ _ _ Hk).
  rewrite sapp_nil_l, sapp_cons, sapp_nil_l, Hget.
  by destruct (config !! String c k).
Qed.

(** Text scanned to completion is independent of what follows it. *)
Lemma run_app config pre : forall st out rest,
  run config st pre = Ok out ->
  run config st (pre +:+ rest) = omap (String.append out) (run config InText rest).
Proof.
  induction pre as [|c pre IH]; intros st out rest.
  - destruct st; simpl; try discriminate. intros [= <-].
    rewrite sapp_nil_l. destruct (run config InText rest); done.
  - rewrite sapp_cons. destruct st; simpl.
    + destruct (eqc c lbrace); [apply IH|].
      destruct (eqc c rbrace); [apply IH|].
      destruct (run config InText pre) eqn:E; try discriminate.
      simpl. intros [= <-]. rewrite (IH _ _ _ E), omap_omap. done.
    + destruct (eqc c lbrace).
      { destruct (run config InText pre) eqn:E; try discriminate.
        simpl. intros [= <-]. rewrite (IH _ _ _ E), omap_omap. done. }
      destruct (eqc c rbrace).
      { discriminate. }
      destruct (eqc c ":"%char || eqc c "!"%char || eqc c "["%char);
        [discriminate|]. apply IH.
    + destruct (eqc c rbrace); [|discriminate].
      destruct (run config InText pre) eqn:E; try discriminate.
      simpl. intros [= <-]. rewrite (IH _ _ _ E), omap_omap. done.
    + destruct (eqc c rbrace).
      { destruct (get_field config name) as [v| | |]; try discriminate.
        destruct (run config InText pre) eqn:E; try discriminate.
        simpl. intros [= <-]. rewrite (IH _ _ _ E), omap_omap.
        apply omap_ext. intros ?. by rewrite sapp_assoc. }
      destruct (eqc c lbrace); [discriminate|].
      destruct (eqc c ":"%char || eqc c "!"%char || eqc c "["%char);
        [discriminate|]. apply IH.
Qed.

Lemma format_app config pre out rest :
  format config pre = Ok out ->
  format config (pre +:+ rest) = omap (String.append out) (format config rest).
Proof. apply run_app. Qed.

(** Text without braces is copied. *)
Lemma format_plain config t :
  all_chars (fun c => negb (is_brace c)) t = true -> format config t = Ok t.
Proof.
  unfold format. induction t as [|c t IH]; [done|]. simpl.
  intros [Hc Ht]%andb_true_iff. apply negb_true_iff in Hc.
  unfold is_brace in Hc. apply orb_false_iff in Hc as [-> ->].
  by rewrite (IH Ht).
Qed.

End FormatFacts.

Lemma format_escape config t : Format.format config (escape t) = Ok t.
Proof.
  unfold Format.format. induction t as [|c t IH]; [done|]. simpl.
  unfold is_brace. destruct (eqc c lbrace) eqn:Hl.
  - apply eqc_true in Hl as ->. simpl. by rewrite IH.
  - destruct (eqc c rbrace) eqn:Hr.
    + apply eqc_true in Hr as ->. simpl. by rewrite IH.
    + simpl. by rewrite Hl, Hr, IH.
Qed.

Lemma format_render config ps : forall out,
  Forall plain_piece ps -> expand config ps = Some out ->
  Format.format config (render ps) = Ok out.
Proof.
  induction ps as [|[t|k] ps IH]; intros out Hps Hout.
  - by injection Hout as <-.
  - simpl in *. inversion Hps; subst.
    destruct (expand config ps) as [o|] eqn:E; [|done]. injection Hout as <-.
    rewrite (FormatFacts.format_app _ _ _ _ (format_escape config t)).
    by rewrite (IH o).
  - simpl in *. inversion Hps as [|?? Hk Hrest]; subst.
    rewrite FormatFacts.format_placeholder by done.
    destruct (config !! k) as [v|]; [|done]. simpl in Hout.
    destruct (expand config ps) as [o|] eqn:E; [|done]. injection Hout as <-.
    by rewrite (IH o).
Qed.

Lemma format_lone_rbrace config t rest :
  all_chars (fun c => negb (is_brace c)) t = true ->
  first_char rest <> Some rbrace ->
  Format.format config (t +:+ String rbrace rest) = Raise ValueError.
Proof.
  intros Ht Hrest.
  rewrite (FormatFacts.format_app _ _ _ _ (FormatFacts.format_plain config t Ht)).
  unfold Format.format. simpl.
  destruct rest as [|c rest]; [done|]. simpl.
  destruct (eqc c rbrace) eqn:Hc; [|done].
  apply eqc_true in Hc as ->. done.
Qed.

Module FSFacts.
Import FS.

Lemma same_dirs_sub a b : same_dirs a b -> sub_dirs a b /\ sub_dirs b a.
Proof. intros H. split; intros k; apply H. Qed.

Lemma same_dirs_refl a : same_dirs a a.
Proof. by intros k. Qed.

Lemma same_dirs_sym a b : same_dirs a b -> same_dirs b a.
Proof. intros H k. by rewrite (H k). Qed.

Lemma same_dirs_trans a b c : same_dirs a b -> same_dirs b c -> same_dirs a c.
Proof. intros H1 H2 k. by rewrite (H1 k). Qed.

Lemma node_at_sub a b k :
  sub_dirs a b -> node_at a k = Some Dir -> node_at b k = Some Dir.
Proof. intros H. destruct k; [done|]. apply H. Qed.

Lemma walk_app fs cs cs' : forall cur,
  walk fs cur (cs ++ cs')
  = match walk fs cur cs with Found d => walk fs d cs' | e => e end.
Proof.
  induction cs as [|c cs IH]; intros cur; [done|]. simpl.
  destruct (node_at fs cur) as [[|]|]; try done.
  destruct (bool_decide (c = "") || bool_decide (c = ".")); [apply IH|].
  destruct (bool_decide (c = "..")); apply IH.
Qed.

Lemma walk_found_mono a b cs : forall cur k,
  sub_dirs a b -> walk a cur cs = Found k -> walk b cur cs = Found k.
Proof.
  induction cs as [|c cs IH]; intros cur k Hab; [done|]. simpl.
  destruct (node_at a cur) as [[|]|] eqn:E; try done.
  rewrite (node_at_sub _ _ _ Hab E).
  destruct (bool_decide (c = "") || bool_decide (c = ".")); [by apply IH|].
  destruct (bool_decide (c = "..")); by apply IH.
Qed.

Lemma resolve_found_mono ctx a b p k :
  sub_dirs a b -> resolve ctx a p = Found k -> resolve ctx b p = Found k.
Proof.
  unfold resolve. destruct (bool_decide (p = "")); [done|].
  apply walk_found_mono.
Qed.

Lemma isdir_sub ctx a b p :
  sub_dirs a b -> isdir ctx a p = true -> isdir ctx b p = true.
Proof.
  intros Hab. unfold isdir.
  destruct (resolve ctx a p) as [k| |] eqn:E; try done.
  rewrite (resolve_found_mono _ _ _ _ _ Hab E).
  destruct (node_at a k) as [[|]|] eqn:Ek; try done.
  by rewrite (node_at_sub _ _ _ Hab Ek).
Qed.

Lemma isdir_same ctx a b p : same_dirs a b -> isdir ctx a p = isdir ctx b p.
Proof.
  intros [H1 H2]%same_dirs_sub.
  destruct (isdir ctx a p) eqn:Ea.
  - symmetry. by eapply isdir_sub.
  - destruct (isdir ctx b p) eqn:Eb; [|done].
    apply (isdir_sub _ _ _ _ H2) in Eb. congruence.
Qed.

(** One step into a directory. *)
Lemma walk_name fs d n :
  regular n -> node_at fs d = Some Dir -> walk fs d [n] = Found (d ++ [n]).
Proof.
  intros (_ & H1 & H2 & H3) Hd. simpl. rewrite Hd.
  by rewrite !bool_decide_eq_false_2.
Qed.

Lemma walk_empty_name fs d :
  walk fs d [""] = match node_at fs d with
                   | Some Dir => Found d
                   | Some (File _) => ENOTDIR
                   | None => ENOENT
                   end.
Proof. simpl. by destruct (node_at fs d) as [[|]|]. Qed.

Lemma startswith_slash_app p x :
  p <> "" -> Str.startswith "/" (p +:+ x) = Str.startswith "/" p.
Proof. by destruct p. Qed.

Lemma startswith_contains n :
  Str.startswith "/" n = true -> Str.contains slash n = true.
Proof.
  destruct n as [|c n]; [done|]. simpl.
  intros [<-%eqc_true _]%andb_true_iff. unfold slash. by rewrite eqc_refl.
Qed.

Lemma endswith_inv c p :
  Str.endswith c p = true -> exists q, p = q +:+ String c "".
Proof.
  induction p as [|x p IH]; [done|]. simpl.
  destruct p as [|y p].
  - intros ->%eqc_true. by exists "".
  - intros (q & ->)%IH. by exists (String x q).
Qed.

Lemma endswith_app c a b :
  b <> "" -> Str.endswith c (a +:+ b) = Str.endswith c b.
Proof.
  intros Hb. induction a as [|x a IH]; [done|].
  rewrite sapp_cons. simpl. rewrite IH.
  destruct (a +:+ b) eqn:E; [|done]. by apply sapp_eq_nil in E as [_ ?].
Qed.

Lemma absolute_app ctx p x :
  p <> "" -> absolute ctx (p +:+ x) = absolute ctx p +:+ x.
Proof.
  intros Hp. unfold absolute, Path.isabs.
  rewrite (startswith_slash_app _ _ Hp).
  destruct (Str.startswith "/" p); [done|]. by rewrite !sapp_assoc.
Qed.

Lemma resolve_nonempty ctx fs p :
  p <> "" -> resolve ctx fs p = walk fs [] (Str.split slash (absolute ctx p)).
Proof. intros Hp. unfold resolve. by rewrite bool_decide_eq_false_2. Qed.

Lemma resolve_found_nonempty ctx fs p k : resolve ctx fs p = Found k -> p <> "".
Proof. intros H ->. done. Qed.

Lemma join2_child p n :
  p <> "" -> regular n ->
  exists q, Path.join2 p n = q +:+ String slash n
            /\ (p = q \/ p = q +:+ "/") /\ Path.join2 p n <> "".
Proof.
  intros Hp (Hn & Hne & _). unfold Path.join2.
  destruct (Str.startswith "/" n) eqn:E.
  { apply startswith_contains in E. congruence. }
  rewrite bool_decide_eq_false_2 by done. simpl.
  destruct (Str.endswith slash p) eqn:Hend.
  - destruct (endswith_inv _ _ Hend) as (q & ->). exists q.
    rewrite sapp_assoc. split; [done|]. split; [by right|].
    intros [_ [=]]%sapp_eq_nil.
  - exists p. split; [done|]. split; [by left|].
    intros [_ [=]]%sapp_eq_nil.
Qed.

(** A name looked up in a directory that resolves. *)
Lemma resolve_child ctx fs p n d :
  regular n -> resolve ctx fs p = Found d -> node_at fs d = Some Dir ->
  resolve ctx fs (Path.join2 p n) = Found (d ++ [n]).
Proof.
  intros Hn Hp Hd. pose proof (resolve_found_nonempty _ _ _ _ Hp) as Hne.
  destruct (join2_child p n Hne Hn) as (q & -> & Hq & Hj).
  rewrite resolve_nonempty in Hp by done.
  assert (q <> "" \/ q = "") as [Hq0 | ->] by (destruct q; auto).
  - rewrite resolve_nonempty, absolute_app by (try done; by destruct q).
    rewrite SplitFacts.split_app, walk_app.
    rewrite (SplitFacts.split_absent _ n) by apply Hn.
    destruct Hq as [<- | ->].
    + rewrite Hp. by apply walk_name.
    + rewrite absolute_app in Hp by done.
      change (absolute ctx q +:+ "/") with (absolute ctx q +:+ String slash "") in Hp.
      rewrite SplitFacts.split_app, walk_app in Hp.
      destruct (walk fs [] (Str.split slash (absolute ctx q))) as [d'| |]; try done.
      change (Str.split slash "") with [""] in Hp.
      rewrite walk_empty_name in Hp.
      destruct (node_at fs d') as [[|]|] eqn:E; try done.
      injection Hp as ->. by apply walk_name.
  - destruct Hq as [-> | ->]; [done|].
    rewrite resolve_nonempty by done.
    change (absolute ctx ("" +:+ String slash n)) with ("" +:+ String slash n).
    change (absolute ctx ("" +:+ "/")) with ("" +:+ String slash "") in Hp.
    rewrite SplitFacts.split_app, walk_app in *.
    rewrite (SplitFacts.split_absent _ n) by apply Hn.
    change (Str.split slash "") with [""] in *.
    simpl in Hp. injection Hp as <-. by apply walk_name.
Qed.

(** A trailing slash asks for a directory and names the same node. *)
Lemma isdir_trailing_slash ctx fs q :
  q <> "" -> isdir ctx fs (q +:+ "/") = isdir ctx fs q.
Proof.
  intros Hq. unfold isdir.
  rewrite !resolve_nonempty, absolute_app by (try done; by destruct q).
  change (absolute ctx q +:+ "/") with (absolute ctx q +:+ String slash "").
  rewrite SplitFacts.split_app, walk_app.
  destruct (walk fs [] (Str.split slash (absolute ctx q))) as [d| |]; try done.
  change (Str.split slash "") with [""]. rewrite walk_empty_name.
  destruct (node_at fs d) as [[|]|] eqn:E; rewrite ?E; done.
Qed.

End FSFacts.

Module PathFacts.

Lemma join2_literal a b :
  a <> "" -> Str.endswith slash a = false -> Str.startswith "/" b = false ->
  Path.join2 a b = a +:+ "/" +:+ b.
Proof.
  intros Ha He Hb. unfold Path.join2.
  by rewrite Hb, He, bool_decide_eq_false_2.
Qed.

Lemma literal_keeps a b :
  b <> "" -> Str.endswith slash b = false ->
  a +:+ "/" +:+ b <> "" /\ Str.endswith slash (a +:+ "/" +:+ b) = false.
Proof.
  intros Hb He. split.
  - intros [_ [=]]%sapp_eq_nil.
  - rewrite FSFacts.endswith_app by done.
    destruct b; [done|]. done.
Qed.

Lemma join_base root :
  root <> "" -> Str.endswith slash root = false ->
  Path.join root ["base"] = root +:+ "/base".
Proof. intros. unfold Path.join. simpl. by rewrite join2_literal. Qed.

Lemma join_src a b :
  plain a -> Str.startswith "/" b = false ->
  Path.join "/src" [a; b] = "/src/" +:+ a +:+ "/" +:+ b.
Proof.
  intros (Ha & Hs & He) Hb. unfold Path.join. simpl.
  rewrite (join2_literal "/src" a) by done.
  destruct (literal_keeps "/src" a Ha He) as [H1 H2].
  rewrite join2_literal by done. by rewrite !sapp_assoc.
Qed.




Lemma join_empty_name root :
  Path.join root ["profiles"; ""] = Path.join root ["profiles"] +:+ "/"
  /\ Path.join root ["profiles"] <> "".
Proof.
  unfold Path.join. simpl.
  assert (Path.join2 root "profiles" <> ""
          /\ Str.endswith slash (Path.join2 root "profiles") = false) as [H1 H2].
  { unfold Path.join2. simpl.
    destruct (bool_decide (root = "") || Str.endswith slash root).
    - split; [intros [_ [=]]%sapp_eq_nil|]. by rewrite FSFacts.endswith_app.
    - split; [intros [_ [=]]%sapp_eq_nil|]. by rewrite FSFacts.endswith_app. }
  split; [|done]. rewrite join2_literal by done. done.
Qed.

End PathFacts.

Module ResolveFacts.

Lemma locate_shape ctx root od token :
  exists plugin name dir,
    locate ctx root od token = Ok (plugin, name, dir)
    /\ if Str.contains slash token
       then token = plugin +:+ "/" +:+ name
            /\ Str.contains slash plugin = false
            /\ dir = Path.abspath (cwd ctx)
                       (Path.join root [".."; plugin; "profiles"; name])
       else plugin = od /\ name = token
            /\ dir = Path.join root ["profiles"; token].
Proof.
  unfold locate. destruct (Str.contains slash token) eqn:E.
  - destruct (StrFacts.split1_present _ _ E) as (a & b & -> & Ht & Ha).
    by exists a, b, (Path.abspath (cwd ctx)
                       (Path.join root [".."; a; "profiles"; b])).
  - by exists od, token, (Path.join root ["profiles"; token]).
Qed.

Lemma resolve_loop_fs ctx root od tokens : forall acc fs r fs',
  resolve_loop ctx root od tokens acc fs = (r, fs') -> fs' = fs.
Proof.
  induction tokens as [|t tokens IH]; intros acc fs r fs'; simpl.
  - by intros [= _ <-].
  - unfold mbind, M_bind, lift.
    destruct (locate ctx root od t) as [[[pl nm] dir]| | |];
      try by intros [= _ <-].
    destruct (FS.isdir ctx fs dir); simpl; [apply IH|by intros [= _ <-]].
Qed.

Lemma resolve_loop_ok ctx root od tokens : forall acc fs ps fs',
  resolve_loop ctx root od tokens acc fs = (Ok ps, fs') ->
  exists ds, ps = acc ++ ds /\ Forall2 (describes ctx root od fs) tokens ds.
Proof.
  induction tokens as [|t tokens IH]; intros acc fs ps fs'; simpl.
  - intros [= <- _]. exists []. by rewrite app_nil_r.
  - unfold mbind, M_bind, lift.
    destruct (locate ctx root od t) as [[[pl nm] dir]| | |] eqn:El; try done.
    destruct (FS.isdir ctx fs dir) eqn:Ed; simpl; [|done].
    intros (ds & -> & Hds)%IH. eexists (_ :: ds).
    rewrite <- app_assoc. split; [done|].
    constructor; [|done]. by exists pl, nm, dir.
Qed.



Lemma resolve_profiles_unfold ctx config fs fs1 v od :
  config !! "COMPOSE_PROFILE" = Some v ->
  config !! "OCI_ENV_DIRECTORY" = Some od ->
  FS.mkdir_exist_ok ctx (Path.join (get_oci_env_path ctx) [".compiled"]) fs
    = (Ok tt, fs1) ->
  resolve_profiles ctx config fs
  = resolve_loop ctx (get_oci_env_path ctx) od (Str.split ":"%char v)
      [base_profile (get_oci_env_path ctx) od] fs1.
Proof.
  intros Hv Hod Hmk. unfold resolve_profiles, getitem, mbind, M_bind.
  rewrite Hv, Hod. unfold mret, M_ret. by rewrite Hmk.
Qed.

Lemma resolve_profiles_inv ctx config fs ps fs' :
  resolve_profiles ctx config fs = (Ok ps, fs') ->
  exists v od ds,
    config !! "COMPOSE_PROFILE" = Some v
    /\ config !! "OCI_ENV_DIRECTORY" = Some od
    /\ FS.mkdir_exist_ok ctx (Path.join (get_oci_env_path ctx) [".compiled"]) fs
       = (Ok tt, fs')
    /\ ps = base_profile (get_oci_env_path ctx) od :: ds
    /\ Forall2 (describes ctx (get_oci_env_path ctx) od fs')
         (Str.split ":"%char v) ds.
Proof.
  unfold resolve_profiles, getitem, mbind, M_bind.
  destruct (config !! "COMPOSE_PROFILE") as [v|] eqn:Hv; [|done].
  destruct (config !! "OCI_ENV_DIRECTORY") as [od|] eqn:Hod; [|done].
  unfold mret, M_ret.
  destruct (FS.mkdir_exist_ok _ _ fs) as [[[]| | |] fs1] eqn:Hmk; try done.
  intros Hloop. pose proof (resolve_loop_fs _ _ _ _ _ _ _ _ Hloop) as ->.
  apply resolve_loop_ok in Hloop as (ds & -> & Hds).
  by exists v, od, ds.
Qed.

End ResolveFacts.

Module CompileFacts.

Lemma get_field_exception config name e :
  Format.get_field config name = Raise e -> format_exception e.
Proof.
  unfold Format.get_field.
  destruct (Str.contains "." name); [done|].
  destruct name; [by intros [= <-]|].
  destruct (Format.get_integer _); try by intros [= <-].
  destruct (config !! _); [done|by intros [= <-]].
Qed.

Lemma run_exception config s : forall st e,
  Format.run config st s = Raise e -> format_exception e.
Proof.
  assert (forall o (f : string -> string) e,
            (forall e, o = Raise e -> format_exception e) ->
            omap f o = Raise e -> format_exception e) as Homap.
  { intros o f e H. destruct o as [a|n m|e'|]; simpl; try done.
    intros [= <-]. by apply H. }
  induction s as [|c s IH]; intros st e.
  - destruct st; simpl; try done; by intros [= <-].
  - destruct st; simpl.
    + destruct (eqc c lbrace); [apply IH|].
      destruct (eqc c rbrace); [apply IH|]. apply Homap, IH.
    + destruct (eqc c lbrace); [apply Homap, IH|].
      destruct (eqc c rbrace).
      { by intros [= <-]. }
      destruct (eqc c ":"%char || eqc c "!"%char || eqc c "["%char); [done|].
      apply IH.
    + destruct (eqc c rbrace); [apply Homap, IH|by intros [= <-]].
    + destruct (eqc c rbrace).
      { destruct (Format.get_field config name) as [v| |e'|] eqn:E; try done.
        - apply Homap, IH.
        - intros [= <-]. by eapply get_field_exception. }
      destruct (eqc c lbrace); [by intros [= <-]|].
      destruct (eqc c ":"%char || eqc c "!"%char || eqc c "["%char); [done|].
      apply IH.
Qed.

Lemma template_format_exception config file s e :
  except_KeyError (Format.format config s) (template_error file) = Raise e ->
  format_exception e.
Proof.
  destruct (Format.format config s) as [| |e'|] eqn:E; simpl; try done.
  destruct e'; simpl; try done; intros [= <-];
    by apply (run_exception _ _ _ _ E).
Qed.

Lemma format_env_lines_exception config file f : forall out e,
  format_env_lines config file f out = Raise e -> format_exception e.
Proof.
  induction f as [|line f IH]; intros out e; simpl; [done|].
  destruct (except_KeyError _ _) eqn:E; simpl; try done.
  - apply IH.
  - intros [= <-]. by eapply template_format_exception.
Qed.

Lemma compile_profile_plan ctx config cp b p fs :
  compile_profile ctx config cp b p fs
  = (x ← lift (plan config cp (profile_inputs ctx fs p) b p);
     _ ← commit ctx x.2;
     mret x.1) fs.
Proof.
  unfold compile_profile, plan, profile_inputs, mbind, M_bind, outcome_bind,
    lift, mret, M_ret, outcome_ret, except_FileNotFoundError,
    env_stage, compose_stage, commit.
  cbn [has_init env_read compose_read].
  fold (env_file p) (compose_file p) (init_file p).
  destruct (FS.read ctx fs (env_file p)) as [f| |e|] eqn:Hf; try done.
  2:{ destruct e; try done.
      destruct (FS.read ctx fs (compose_file p)) as [d| |e|] eqn:Hd; try done.
      2:{ by destruct e. }
      destruct (except_KeyError (Format.format config d)
                  (template_error (compose_file p))) as [d'| |e|] eqn:Hk;
        simpl; try done.
      2:{ pose proof (template_format_exception _ _ _ _ Hk). by destruct e. }
      unfold except_FileNotFoundError, compose_name, mret, M_ret.
      destruct (FS.write ctx _ d' fs) as [[[]| |e|] fs']; try done.
      by destruct e. }
  destruct (format_env_lines config (env_file p) (Str.lines f) (env_output b))
    as [out| |e|] eqn:Hout; try done.
  2:{ pose proof (format_env_lines_exception _ _ _ _ _ Hout). by destruct e. }
  destruct (FS.read ctx fs (compose_file p)) as [d| |e|] eqn:Hd; try done.
  2:{ by destruct e. }
  destruct (except_KeyError (Format.format config d)
              (template_error (compose_file p))) as [d'| |e|] eqn:Hk;
    simpl; try done.
  2:{ pose proof (template_format_exception _ _ _ _ Hk). by destruct e. }
  unfold except_FileNotFoundError, compose_name, mret, M_ret.
  destruct (FS.write ctx _ d' fs) as [[[]| |e|] fs']; try done.
  by destruct e.
Qed.

End CompileFacts.

Module FrameFacts.
Import FS.

Lemma node_at_snoc (fs : filesystem) d n : node_at fs (d ++ [n]) = fs !! (d ++ [n]).
Proof. by destruct d. Qed.

Lemma same_dirs_insert_file (fs : filesystem) k data :
  fs !! k <> Some Dir -> same_dirs fs (<[k := File data]> fs).
Proof.
  intros Hk j. destruct (decide (k = j)) as [<-|Hne].
  - rewrite lookup_insert_eq. split; [done|discriminate].
  - by rewrite lookup_insert_ne.
Qed.

Lemma has_suffix_app suffix x : has_suffix suffix (x +:+ suffix) = true.
Proof.
  induction x as [|c x IH].
  - rewrite sapp_nil_l. destruct suffix; simpl; [done|].
    by rewrite bool_decide_eq_true_2.
  - rewrite sapp_cons. simpl. by rewrite IH, orb_true_r.
Qed.

Lemma contains_replace a b s :
  a <> b -> Str.contains a (Str.replace a b s) = false.
Proof.
  intros Hab. induction s as [|c s IH]; [done|]. simpl. rewrite IH, orb_false_r.
  apply eqc_false. destruct (eqc c a) eqn:E; [congruence|]. by apply eqc_false.
Qed.

Lemma compose_name_regular p :
  regular (compose_name p)
  /\ has_suffix "_compose.yaml" (compose_name p) = true.
Proof.
  assert (has_suffix "_compose.yaml" (compose_name p) = true) as Hs
    by apply has_suffix_app.
  split; [|done]. split; [|repeat split; intros E; by rewrite E in Hs].
  unfold compose_name. rewrite StrFacts.contains_app, contains_replace; done.
Qed.

Lemma isdir_found ctx fs p :
  isdir ctx fs p = true ->
  exists d, resolve ctx fs p = Found d /\ node_at fs d = Some Dir.
Proof.
  unfold isdir. destruct (resolve ctx fs p) as [d| |]; try done.
  destruct (node_at fs d) as [[|]|] eqn:E; try done. by exists d.
Qed.

Lemma found_isdir ctx fs p d :
  resolve ctx fs p = Found d -> node_at fs d = Some Dir -> isdir ctx fs p = true.
Proof. intros H1 H2. unfold isdir. by rewrite H1, H2. Qed.

(** Reading a name in a directory looks at one node. *)
Lemma read_child ctx fs pp m :
  isdir ctx fs pp = true -> regular m ->
  exists d,
    resolve ctx fs pp = Found d /\ node_at fs d = Some Dir
    /\ read ctx fs (Path.join pp [m])
       = match fs !! (d ++ [m]) with
         | Some (File c) => Ok c
         | Some Dir => Raise IsADirectoryError
         | None => Raise FileNotFoundError
         end
    /\ isfile ctx fs (Path.join pp [m])
       = match fs !! (d ++ [m]) with Some (File _) => true | _ => false end.
Proof.
  intros (d & Hd & Hn)%isdir_found Hm. exists d. split; [done|]. split; [done|].
  unfold read, isfile, Path.join. simpl.
  by rewrite (FSFacts.resolve_child _ _ _ _ _ Hm Hd Hn), node_at_snoc.
Qed.

Lemma write_child ctx fs cp n data :
  isdir ctx fs cp = true -> regular n ->
  exists d,
    resolve ctx fs cp = Found d /\ node_at fs d = Some Dir
    /\ write ctx (Path.join cp [n]) data fs
       = match fs !! (d ++ [n]) with
         | Some Dir => (Raise IsADirectoryError, fs)
         | _ => (Ok tt, <[d ++ [n] := File data]> fs)
         end.
Proof.
  intros (d & Hd & Hn)%isdir_found Hm. exists d. split; [done|]. split; [done|].
  unfold write, Path.join. simpl.
  by rewrite (FSFacts.resolve_child _ _ _ _ _ Hm Hd Hn), node_at_snoc.
Qed.

Lemma verified_same ctx a b q : same_dirs a b -> verified ctx a q -> verified ctx b q.
Proof. intros H. unfold verified. by rewrite (FSFacts.isdir_same _ _ _ _ H). Qed.

Lemma inputs_frame ctx fs q d n data :
  verified ctx fs q -> has_suffix "_compose.yaml" n = true ->
  fs !! (d ++ [n]) <> Some Dir ->
  profile_inputs ctx (<[d ++ [n] := File data]> fs) q = profile_inputs ctx fs q.
Proof.
  intros Hq Hn Hk.
  pose proof (same_dirs_insert_file fs _ data Hk) as Hsame.
  pose proof (verified_same _ _ _ _ Hsame Hq) as Hq'.
  assert (forall m, regular m -> has_suffix "_compose.yaml" m = false ->
            read ctx (<[d ++ [n] := File data]> fs) (Path.join (Profile.path q) [m])
            = read ctx fs (Path.join (Profile.path q) [m])
            /\ isfile ctx (<[d ++ [n] := File data]> fs) (Path.join (Profile.path q) [m])
               = isfile ctx fs (Path.join (Profile.path q) [m])) as Hm.
  { intros m Hreg Hsuf.
    destruct (read_child ctx fs _ m Hq Hreg) as (e & He & _ & -> & ->).
    destruct (read_child ctx _ _ m Hq' Hreg) as (e' & He' & _ & -> & ->).
    apply (FSFacts.resolve_found_mono _ _ _ _ _ (proj1 (FSFacts.same_dirs_sub _ _ Hsame))) in He.
    assert (e' = e) as -> by congruence.
    rewrite lookup_insert_ne; [done|].
    intros [_ [= ->]]%app_inj_tail. congruence. }
  unfold profile_inputs, init_file, env_file, compose_file. f_equal; by apply Hm.
Qed.

Lemma step_frame_refl ctx fs : step_frame ctx fs fs.
Proof. split; [apply FSFacts.same_dirs_refl|done]. Qed.

Lemma step_frame_trans ctx a b c :
  step_frame ctx a b -> step_frame ctx b c -> step_frame ctx a c.
Proof.
  intros [H1 H2] [H3 H4]. split; [by eapply FSFacts.same_dirs_trans|].
  intros q Hq. rewrite H4, H2; [done..|]. by eapply verified_same.
Qed.

Lemma write_frame ctx cp n data fs r fs' :
  isdir ctx fs cp = true -> regular n -> has_suffix "_compose.yaml" n = true ->
  write ctx (Path.join cp [n]) data fs = (r, fs') -> step_frame ctx fs fs'.
Proof.
  intros Hcp Hn Hs. destruct (write_child ctx fs cp n data Hcp Hn) as (d & _ & _ & ->).
  destruct (fs !! (d ++ [n])) as [[|c]|] eqn:E; intros [= <- <-];
    try apply step_frame_refl.
  - split; [apply same_dirs_insert_file; congruence|].
    intros q Hq. apply inputs_frame; [done..|congruence].
  - split; [apply same_dirs_insert_file; congruence|].
    intros q Hq. apply inputs_frame; [done..|congruence].
Qed.

Lemma commit_frame ctx config cp i b p b' w fs r fs' :
  isdir ctx fs cp = true ->
  plan config cp i b p = Ok (b', w) ->
  commit ctx w fs = (r, fs') -> step_frame ctx fs fs'.
Proof.
  intros Hcp Hplan. destruct (compose_name_regular p) as [Hreg Hsuf].
  assert (w = None \/ exists d, w = Some (Path.join cp [compose_name p], d)) as [->|[d ->]].
  { unfold plan, mbind, outcome_bind in Hplan.
    destruct (env_stage _ _ _ _); try done.
    destruct (compose_stage _ _ _) as [[d|]| | |]; try done;
      injection Hplan as <- <-; eauto. }
  - intros [= <- <-]. apply step_frame_refl.
  - unfold commit, except_FileNotFoundError.
    destruct (write ctx _ d fs) as [r0 fs0] eqn:Hw.
    pose proof (write_frame _ _ _ _ _ _ _ Hcp Hreg Hsuf Hw) as Hframe.
    destruct r0 as [| |[]|]; intros [= <- <-]; done.
Qed.

Lemma compile_profile_frame ctx config cp b p fs r fs' :
  isdir ctx fs cp = true ->
  compile_profile ctx config cp b p fs = (r, fs') -> step_frame ctx fs fs'.
Proof.
  intros Hcp. rewrite CompileFacts.compile_profile_plan.
  unfold mbind, M_bind, lift.
  destruct (plan config cp (profile_inputs ctx fs p) b p) as [[b' w]| | |] eqn:Hplan;
    try (intros [= <- <-]; apply step_frame_refl).
  cbn [fst snd].
  destruct (commit ctx w fs) as [r0 fs0] eqn:Hc.
  pose proof (commit_frame _ _ _ _ _ _ _ _ _ _ _ Hcp Hplan Hc) as Hframe.
  destruct r0; intros [= <- <-]; done.
Qed.

Lemma compile_loop_frame ctx config cp ps : forall b fs r fs',
  isdir ctx fs cp = true ->
  compile_loop ctx config cp ps b fs = (r, fs') -> step_frame ctx fs fs'.
Proof.
  induction ps as [|p ps IH]; intros b fs r fs' Hcp; simpl.
  - intros [= <- <-]. apply step_frame_refl.
  - unfold mbind, M_bind.
    destruct (compile_profile ctx config cp b p fs) as [r0 fs0] eqn:Hp.
    pose proof (compile_profile_frame _ _ _ _ _ _ _ _ Hcp Hp) as Hframe.
    destruct r0; try (intros [= <- <-]; done).
    intros Hloop. eapply step_frame_trans; [done|].
    eapply IH; [|done]. by rewrite <- (FSFacts.isdir_same _ _ _ _ (proj1 Hframe)).
Qed.

End FrameFacts.

Module LoopFacts.
Import FS.

Lemma format_env_lines_ok config file f : forall out out',
  format_env_lines config file f out = Ok out' ->
  exists outs, Forall2 (formats_to config) f outs /\ out' = out ++ outs.
Proof.
  induction f as [|line f IH]; intros out out'; simpl.
  - intros [= <-]. exists []. by rewrite app_nil_r.
  - unfold mbind, outcome_bind.
    destruct (Format.format config (Str.strip line)) as [o| |e|] eqn:E;
      simpl; try done; [|by destruct e].
    intros (outs & Houts & ->)%IH. exists (o :: outs).
    rewrite <- app_assoc. split; [by constructor|done].
Qed.




Lemma env_stage_ok config file r out out' :
  env_stage config file r out = Ok out' ->
  (r = Raise FileNotFoundError /\ out' = out)
  \/ exists content outs,
       r = Ok content /\ Forall2 (formats_to config) (Str.lines content) outs
       /\ out' = out ++ outs.
Proof.
  destruct r as [content| |e|]; simpl; try done.
  - intros (outs & H1 & H2)%format_env_lines_ok. right. by exists content, outs.
  - destruct e; try done. intros [= <-]. by left.
Qed.

Lemma compile_loop_app ctx config cp l1 l2 : forall b fs,
  compile_loop ctx config cp (l1 ++ l2) b fs
  = (b' ← compile_loop ctx config cp l1 b; compile_loop ctx config cp l2 b') fs.
Proof.
  induction l1 as [|p l1 IH]; intros b fs; simpl; [done|].
  unfold mbind, M_bind.
  destruct (compile_profile ctx config cp b p fs) as [[b'| | |] fs'];
    [apply IH|done..].
Qed.

Lemma env_lines_frame ctx config a b ps outs :
  Forall (fun q => read ctx b (env_file q) = read ctx a (env_file q)) ps ->
  env_lines ctx config b ps outs -> env_lines ctx config a ps outs.
Proof.
  intros Hps Hb. induction Hb as [|p ps rest Hr _ IH|p ps content outs rest Hr Hf _ IH];
    inversion Hps as [|?? Hq Hrest]; subst; simpl in *.
  - constructor.
  - apply env_lines_absent; [by rewrite <- Hq|by apply IH].
  - eapply env_lines_present; [by rewrite <- Hq|done|by apply IH].
Qed.

Lemma compile_loop_env ctx config cp ps : forall b fs b' fs',
  isdir ctx fs cp = true ->
  Forall (verified ctx fs) (tail ps) ->
  compile_loop ctx config cp ps b fs = (Ok b', fs') ->
  exists outs, env_lines ctx config fs ps outs
               /\ env_output b' = env_output b ++ outs.
Proof.
  induction ps as [|p ps IH]; intros b fs b' fs' Hcp Hv; simpl.
  - intros [= <- _]. exists []. split; [constructor|by rewrite app_nil_r].
  - unfold mbind, M_bind.
    destruct (compile_profile ctx config cp b p fs) as [[b1| | |] fs1] eqn:Hp;
      try done.
    intros Hloop. simpl in Hv.
    pose proof (FrameFacts.compile_profile_frame _ _ _ _ _ _ _ _ Hcp Hp) as [Hsame Hin].
    assert (isdir ctx fs1 cp = true) as Hcp1
        by (by rewrite <- (FSFacts.isdir_same _ _ _ _ Hsame)).
    assert (Forall (verified ctx fs1) ps) as Hv1.
    { eapply Forall_impl; [done|]. intros q. by apply FrameFacts.verified_same. }
    destruct (IH b1 fs1 b' fs' Hcp1) as (outs & Houts & Hb'); [|done|].
    { destruct ps; [constructor|]. by inversion Hv1. }
    assert (env_lines ctx config fs ps outs) as Houts'.
    { eapply env_lines_frame; [|done].
      eapply Forall_impl; [exact Hv|]. intros q Hq. simpl.
      exact (f_equal env_read (Hin q Hq)). }
    rewrite CompileFacts.compile_profile_plan in Hp.
    unfold mbind, M_bind, lift in Hp.
    destruct (plan config cp (profile_inputs ctx fs p) b p) as [[b2 w]| | |] eqn:Hplan;
      try done.
    cbn [fst snd] in Hp.
    destruct (commit ctx w fs) as [[[]| | |] fs2]; try done.
    unfold mret, M_ret in Hp. injection Hp as -> ->.
    unfold plan, mbind, outcome_bind in Hplan. cbn [env_read compose_read] in Hplan.
    destruct (env_stage _ _ _ _) as [eo| | |] eqn:Hstage; try done.
    destruct (compose_stage _ _ _) as [d| | |]; try done.
    assert (env_output b1 = eo) as Heo.
    { unfold mret, outcome_ret in Hplan. by destruct d; injection Hplan as <- _. }
    apply env_stage_ok in Hstage as [[Hr ->]|(content & os & Hr & Hf & ->)].
    + exists outs. split; [by apply env_lines_absent|congruence].
    + exists (os ++ outs). split; [by eapply env_lines_present|].
      rewrite Hb', Heo. by rewrite app_assoc.
Qed.

Lemma mkdir_spec ctx p fs fs1 :
  mkdir_exist_ok ctx p fs = (Ok tt, fs1) ->
  isdir ctx fs1 p = true /\ mkdir_exist_ok ctx p fs1 = (Ok tt, fs1).
Proof.
  unfold mkdir_exist_ok.
  destruct (resolve ctx fs p) as [k| |] eqn:Hk; try done.
  destruct (node_at fs k) as [[|]|] eqn:Hn; try done.
  - intros [= <-]. unfold isdir. by rewrite Hk, Hn.
  - intros [= <-].
    assert (k <> []) as Hne by (by intros ->).
    assert (fs !! k = None) as Hnone by (by destruct k).
    assert (sub_dirs fs (<[k:=Dir]> fs)) as Hsub.
    { intros j Hj. rewrite lookup_insert_ne; [done|congruence]. }
    rewrite (FSFacts.resolve_found_mono _ _ _ _ _ Hsub Hk).
    assert (node_at (<[k:=Dir]> fs) k = Some Dir) as Hn'.
    { destruct k; [done|]. apply lookup_insert_eq. }
    unfold isdir. rewrite (FSFacts.resolve_found_mono _ _ _ _ _ Hsub Hk).
    by rewrite Hn'.
Qed.

Lemma write_read ctx cp n data fs fs' :
  isdir ctx fs cp = true -> regular n ->
  write ctx (Path.join cp [n]) data fs = (Ok tt, fs') ->
  read ctx fs' (Path.join cp [n]) = Ok data /\ same_dirs fs fs'.
Proof.
  intros Hcp Hn. destruct (FrameFacts.write_child ctx fs cp n data Hcp Hn)
    as (d & Hd & Hnode & ->). intros Hw.
  assert (fs !! (d ++ [n]) <> Some Dir /\ fs' = <[d ++ [n] := File data]> fs)
    as [Hnd ->].
  { destruct (fs !! (d ++ [n])) as [[|c]|]; [done|by injection Hw as <-..]. }
  pose proof (FrameFacts.same_dirs_insert_file fs _ data Hnd) as Hsame.
  split; [|done].
  assert (isdir ctx (<[d ++ [n] := File data]> fs) cp = true) as Hcp'
      by (by rewrite <- (FSFacts.isdir_same _ _ _ _ Hsame)).
  destruct (FrameFacts.read_child ctx _ cp n Hcp' Hn) as (d' & Hd' & _ & -> & _).
  apply (FSFacts.resolve_found_mono _ _ _ _ _
           (proj1 (FSFacts.same_dirs_sub _ _ Hsame))) in Hd.
  assert (d' = d) as -> by congruence. by rewrite lookup_insert_eq.
Qed.

End LoopFacts.

Module RunFacts.
Import FS.

Lemma regular_init : regular "init.sh".
Proof. by repeat split. Qed.

Lemma regular_combined : regular "combined.env".
Proof. by repeat split. Qed.

Lemma describes_verified ctx root od fs tokens ds :
  Forall2 (describes ctx root od fs) tokens ds -> Forall (verified ctx fs) ds.
Proof.
  induction 1 as [|t d tokens ds (pl & nm & dir & _ & Hd & ->) _ IH]; constructor; done.
Qed.

(** A successful resolution leaves the compiled directory in place and
    every profile after the base one verified. *)
Lemma resolve_profiles_ready ctx config fs ps fs1 :
  resolve_profiles ctx config fs = (Ok ps, fs1) ->
  isdir ctx fs1 (compiled_path ctx) = true /\ Forall (verified ctx fs1) (tail ps).
Proof.
  intros (v & od & ds & _ & _ & Hmk & -> & Hds)%ResolveFacts.resolve_profiles_inv.
  split; [by apply LoopFacts.mkdir_spec in Hmk as [? _]|].
  by eapply describes_verified.
Qed.



End RunFacts.

Module SimFacts.
Import FS.

Lemma related_start a b : same_dirs a b -> related a b a b.
Proof. intros H. split; [done|]. intros k. by right. Qed.

Lemma related_insert_file a0 b0 a b k data :
  related a0 b0 a b -> a !! k <> Some Dir ->
  related a0 b0 (<[k := File data]> a) (<[k := File data]> b).
Proof.
  intros [Hsame Hk] Ha.
  assert (b !! k <> Some Dir) as Hb by (by rewrite <- (Hsame k)).
  split.
  - eapply FSFacts.same_dirs_trans;
      [apply FSFacts.same_dirs_sym, FrameFacts.same_dirs_insert_file, Ha|].
    eapply FSFacts.same_dirs_trans; [exact Hsame|].
    by apply FrameFacts.same_dirs_insert_file.
  - intros j. destruct (decide (k = j)) as [<-|Hne].
    + left. by rewrite !lookup_insert_eq.
    + rewrite !lookup_insert_ne by done. apply Hk.
Qed.

Lemma write_sim ctx cp n data a0 b0 a b r a' :
  related a0 b0 a b -> isdir ctx a cp = true -> regular n ->
  write ctx (Path.join cp [n]) data a = (r, a') ->
  exists b', write ctx (Path.join cp [n]) data b = (r, b')
             /\ related a0 b0 a' b'.
Proof.
  intros Hrel Hcp Hn. pose proof Hrel as [Hsame _].
  assert (isdir ctx b cp = true) as Hcpb
      by (by rewrite <- (FSFacts.isdir_same _ _ _ _ Hsame)).
  destruct (FrameFacts.write_child ctx a cp n data Hcp Hn) as (d & Hd & _ & ->).
  destruct (FrameFacts.write_child ctx b cp n data Hcpb Hn) as (d' & Hd' & _ & ->).
  apply (FSFacts.resolve_found_mono _ _ _ _ _
           (proj1 (FSFacts.same_dirs_sub _ _ Hsame))) in Hd.
  assert (d' = d) as -> by congruence.
  destruct (a !! (d ++ [n])) as [[|c]|] eqn:Ea.
  - intros [= <- <-]. rewrite (proj1 (Hsame _) Ea). by eexists.
  - intros [= <- <-].
    assert (b !! (d ++ [n]) <> Some Dir) as Hb.
    { rewrite <- (Hsame _). congruence. }
    exists (<[d ++ [n] := File data]> b). split.
    + by destruct (b !! (d ++ [n])) as [[|]|].
    + apply related_insert_file; [done|congruence].
  - intros [= <- <-].
    assert (b !! (d ++ [n]) <> Some Dir) as Hb.
    { rewrite <- (Hsame _). congruence. }
    exists (<[d ++ [n] := File data]> b). split.
    + by destruct (b !! (d ++ [n])) as [[|]|].
    + apply related_insert_file; [done|congruence].
Qed.

Lemma compile_profile_sim ctx config cp bufs p a0 b0 a b r a' :
  related a0 b0 a b -> isdir ctx a cp = true ->
  profile_inputs ctx b p = profile_inputs ctx a p ->
  compile_profile ctx config cp bufs p a = (r, a') ->
  exists b', compile_profile ctx config cp bufs p b = (r, b')
             /\ related a0 b0 a' b'.
Proof.
  intros Hrel Hcp Hin. rewrite !CompileFacts.compile_profile_plan, Hin.
  unfold mbind, M_bind, lift.
  destruct (plan config cp (profile_inputs ctx a p) bufs p) as [[b1 w]| | |] eqn:Hplan;
    try (intros [= <- <-]; by eexists).
  cbn [fst snd].
  assert (w = None \/ exists d, w = Some (Path.join cp [compose_name p], d))
    as [->|[d ->]].
  { unfold plan, mbind, outcome_bind in Hplan.
    destruct (env_stage _ _ _ _); try done.
    destruct (compose_stage _ _ _) as [[d|]| | |]; try done;
      injection Hplan as <- <-; eauto. }
  - simpl. intros [= <- <-]. by eexists.
  - unfold commit, except_FileNotFoundError.
    destruct (write ctx _ d a) as [r0 a1] eqn:Hw.
    destruct (write_sim _ _ _ _ _ _ _ _ _ _ Hrel Hcp
                (proj1 (FrameFacts.compose_name_regular p)) Hw) as (b1' & -> & Hrel').
    destruct r0 as [[]| |[]|]; intros [= <- <-]; by eexists.
Qed.

Lemma compile_loop_sim ctx config cp ps a0 b0 : forall bufs a b r a',
  related a0 b0 a b -> isdir ctx a cp = true ->
  Forall (fun p => profile_inputs ctx b p = profile_inputs ctx a p) ps ->
  Forall (verified ctx a) (tail ps) ->
  compile_loop ctx config cp ps bufs a = (r, a') ->
  exists b', compile_loop ctx config cp ps bufs b = (r, b')
             /\ related a0 b0 a' b'.
Proof.
  induction ps as [|p ps IH]; intros bufs a b r a' Hrel Hcp Hin Hv; simpl.
  - intros [= <- <-]. by eexists.
  - inversion Hin as [|?? Hp Hrest]; subst. simpl in Hv.
    unfold mbind, M_bind.
    destruct (compile_profile ctx config cp bufs p a) as [r0 a1] eqn:Ha.
    destruct (compile_profile_sim _ _ _ _ _ _ _ _ _ _ _ Hrel Hcp Hp Ha)
      as (b1 & Hb & Hrel1).
    rewrite Hb.
    destruct r0 as [bufs1| | |]; try (intros [= <- <-]; by eexists).
    pose proof (FrameFacts.compile_profile_frame _ _ _ _ _ _ _ _ Hcp Ha) as [Hsa Hia].
    assert (isdir ctx b cp = true) as Hcpb
        by (by rewrite <- (FSFacts.isdir_same _ _ _ _ (proj1 Hrel))).
    pose proof (FrameFacts.compile_profile_frame _ _ _ _ _ _ _ _ Hcpb Hb) as [Hsb Hib].
    apply IH; [done| |..].
    + by rewrite <- (FSFacts.isdir_same _ _ _ _ Hsa).
    + apply Forall_forall. intros q Hq.
      rewrite Forall_forall in Hv, Hrest.
      rewrite (Hia q (Hv q Hq)), <- (Hrest q Hq).
      apply Hib. eapply FrameFacts.verified_same; [apply Hrel|]. by apply Hv.
    + destruct ps; [constructor|]. simpl.
      inversion Hv; subst.
      eapply Forall_impl; [done|]. intros q. by apply FrameFacts.verified_same.
Qed.

Lemma write_same_dirs ctx cp n data a r a' :
  isdir ctx a cp = true -> regular n ->
  write ctx (Path.join cp [n]) data a = (r, a') -> same_dirs a a'.
Proof.
  intros Hcp Hn.
  destruct (FrameFacts.write_child ctx a cp n data Hcp Hn) as (d & _ & _ & ->).
  destruct (a !! (d ++ [n])) as [[|]|] eqn:E; intros [= <- <-];
    try apply FSFacts.same_dirs_refl;
    apply FrameFacts.same_dirs_insert_file; congruence.
Qed.

Lemma compile_profiles_sim ctx config ps a0 b0 a b r a' :
  related a0 b0 a b -> isdir ctx a (compiled_path ctx) = true ->
  Forall (fun p => profile_inputs ctx b p = profile_inputs ctx a p) ps ->
  Forall (verified ctx a) (tail ps) ->
  compile_profiles ctx config ps a = (r, a') ->
  exists b', compile_profiles ctx config ps b = (r, b')
             /\ related a0 b0 a' b' /\ same_dirs a a'.
Proof.
  intros Hrel Hcp Hin Hv. unfold compile_profiles, mbind, M_bind.
  fold (compiled_path ctx) empty_buffers.
  destruct (compile_loop ctx config (compiled_path ctx) ps empty_buffers a)
    as [r0 a1] eqn:Ha.
  destruct (compile_loop_sim _ _ _ _ _ _ _ _ _ _ _ Hrel Hcp Hin Hv Ha)
    as (b1 & -> & Hrel1).
  pose proof (FrameFacts.compile_loop_frame _ _ _ _ _ _ _ _ Hcp Ha) as [Hs1 _].
  destruct r0 as [bufs| | |]; try (intros [= <- <-]; by eexists).
  rewrite (FSFacts.isdir_same _ _ _ _ Hs1) in Hcp.
  destruct (write ctx (Path.join (compiled_path ctx) ["init.sh"]) _ a1)
    as [r1 a2] eqn:Hw1.
  destruct (write_sim _ _ _ _ _ _ _ _ _ _ Hrel1 Hcp RunFacts.regular_init Hw1)
    as (b2 & -> & Hrel2).
  pose proof (write_same_dirs _ _ _ _ _ _ _ Hcp RunFacts.regular_init Hw1) as Hs2.
  assert (same_dirs a a2) as Hs12 by (by eapply FSFacts.same_dirs_trans).
  destruct r1 as [[]| | |]; try (intros [= <- <-]; by eexists).
  rewrite (FSFacts.isdir_same _ _ _ _ Hs2) in Hcp.
  destruct (write ctx (Path.join (compiled_path ctx) ["combined.env"]) _ a2)
    as [r2 a3] eqn:Hw2.
  destruct (write_sim _ _ _ _ _ _ _ _ _ _ Hrel2 Hcp RunFacts.regular_combined Hw2)
    as (b3 & -> & Hrel3).
  pose proof (write_same_dirs _ _ _ _ _ _ _ Hcp RunFacts.regular_combined Hw2) as Hs3.
  assert (same_dirs a a3) as Hs by (by eapply FSFacts.same_dirs_trans).
  destruct r2 as [[]| | |]; intros [= <- <-]; by eexists.
Qed.

Lemma mkdir_existing ctx p fs :
  isdir ctx fs p = true -> mkdir_exist_ok ctx p fs = (Ok tt, fs).
Proof.
  intros (d & Hd & Hn)%FrameFacts.isdir_found. unfold mkdir_exist_ok.
  by rewrite Hd, Hn.
Qed.

Lemma resolve_loop_same ctx root od tokens a b : forall acc r,
  same_dirs a b ->
  resolve_loop ctx root od tokens acc a = (r, a) ->
  resolve_loop ctx root od tokens acc b = (r, b).
Proof.
  intros acc r Hsame. revert acc.
  induction tokens as [|t tokens IH]; intros acc; simpl.
  - by intros [= <-].
  - unfold mbind, M_bind, lift.
    destruct (locate ctx root od t) as [[[pl nm] dir]| | |];
      try by intros [= <-].
    rewrite <- (FSFacts.isdir_same _ _ _ _ Hsame).
    destruct (isdir ctx a dir); simpl; [apply IH|by intros [= <-]].
Qed.

Lemma mkdir_failed ctx p fs r fs1 :
  mkdir_exist_ok ctx p fs = (r, fs1) -> r <> Ok tt -> fs1 = fs.
Proof.
  unfold mkdir_exist_ok. destruct (resolve ctx fs p) as [k| |];
    try by intros [= <- <-].
  destruct (node_at fs k) as [[|]|]; by intros [= <- <-].
Qed.

(** Resolution, run again on the tree it left, does the same. *)
Lemma resolve_profiles_stable ctx config fs r fs1 :
  resolve_profiles ctx config fs = (r, fs1) ->
  resolve_profiles ctx config fs1 = (r, fs1).
Proof.
  unfold resolve_profiles, getitem, mbind, M_bind.
  destruct (config !! "COMPOSE_PROFILE") as [v|]; [|by intros [= <- <-]].
  destruct (config !! "OCI_ENV_DIRECTORY") as [od|]; [|by intros [= <- <-]].
  unfold mret, M_ret.
  destruct (mkdir_exist_ok ctx _ fs) as [r0 fsm] eqn:Hmk.
  destruct r0 as [[]| | |].
  - intros Hloop. pose proof (ResolveFacts.resolve_loop_fs _ _ _ _ _ _ _ _ Hloop) as ->.
    apply LoopFacts.mkdir_spec in Hmk as [_ ->]. exact Hloop.
  - assert (fsm = fs) as -> by (eapply mkdir_failed; [exact Hmk|done]).
    intros [= <- <-]. by rewrite Hmk.
  - assert (fsm = fs) as -> by (eapply mkdir_failed; [exact Hmk|done]).
    intros [= <- <-]. by rewrite Hmk.
  - assert (fsm = fs) as -> by (eapply mkdir_failed; [exact Hmk|done]).
    intros [= <- <-]. by rewrite Hmk.
Qed.

Lemma resolve_profiles_same_dirs ctx config fs ps fs1 b :
  resolve_profiles ctx config fs = (Ok ps, fs1) ->
  same_dirs fs1 b ->
  resolve_profiles ctx config b = (Ok ps, b).
Proof.
  intros Hres Hsame.
  destruct (ResolveFacts.resolve_profiles_inv _ _ _ _ _ Hres)
    as (v & od & ds & Hv & Hod & Hmk & _ & _).
  rewrite (ResolveFacts.resolve_profiles_unfold _ _ _ _ _ _ Hv Hod Hmk) in Hres.
  apply LoopFacts.mkdir_spec in Hmk as [Hcp _].
  rewrite (FSFacts.isdir_same _ _ _ _ Hsame) in Hcp.
  rewrite (ResolveFacts.resolve_profiles_unfold _ _ _ _ _ _ Hv Hod
             (mkdir_existing _ _ _ Hcp)).
  by apply (resolve_loop_same _ _ _ _ fs1).
Qed.

End SimFacts.

Lemma parse_profiles_rerun ctx config fs r fs' :
  parse_profiles ctx config fs = (r, fs') ->
  (forall ps fs1,
     resolve_profiles ctx config fs = (Ok ps, fs1) -> same_inputs ctx fs1 fs' ps) ->
  parse_profiles ctx config fs' = (r, fs').
Proof.
  intros Hrun Hin. unfold parse_profiles, mbind, M_bind in *.
  destruct (resolve_profiles ctx config fs) as [r0 fs1] eqn:Hres.
  destruct r0 as [ps| | |].
  - destruct (RunFacts.resolve_profiles_ready _ _ _ _ _ Hres) as [Hcp Hv].
    destruct (SimFacts.compile_profiles_sim ctx config ps fs1 fs1 fs1 fs1 r fs'
                (SimFacts.related_start _ _ (FSFacts.same_dirs_refl fs1)) Hcp)
      as (_ & _ & _ & Hsame); [by apply Forall_true|done..|].
    rewrite (SimFacts.resolve_profiles_same_dirs _ _ _ _ _ fs' Hres Hsame).
    destruct (SimFacts.compile_profiles_sim ctx config ps fs1 fs' fs1 fs' r fs'
                (SimFacts.related_start _ _ Hsame) Hcp (Hin ps fs1 eq_refl) Hv Hrun)
      as (b' & -> & [_ Hrel] & _).
    f_equal. apply map_eq. intros k. destruct (Hrel k) as [->|[_ ->]]; done.
  - injection Hrun as <- <-. by rewrite (SimFacts.resolve_profiles_stable _ _ _ _ _ Hres).
  - injection Hrun as <- <-. by rewrite (SimFacts.resolve_profiles_stable _ _ _ _ _ Hres).
  - injection Hrun as <- <-. by rewrite (SimFacts.resolve_profiles_stable _ _ _ _ _ Hres).
Qed.

Module FilesFacts.

Lemma plan_files config cp i b p b' w :
plan config cp i b p = Ok (b', w) ->
compose_files b' = compose_files b
\/ compose_files b' = compose_files b ++ [Path.join cp [compose_name p]].
Proof.
unfold plan, mbind, outcome_bind.
destruct (env_stage _ _ _ _); try done.
destruct (compose_stage _ _ _) as [[d|]| | |]; try done;
  intros [= <- _]; auto.
Qed.

Lemma compile_loop_files ctx config cp ps : forall b fs b' fs',
compile_loop ctx config cp ps b fs = (Ok b', fs') ->
exists extra, compose_files b' = compose_files b ++ extra
              /\ Forall (compiled_from cp ps) extra.
Proof.
induction ps as [|p ps IH]; intros b fs b' fs'; simpl.
- intros [= <- _]. exists []. by rewrite app_nil_r.
- unfold mbind, M_bind.
  destruct (compile_profile ctx config cp b p fs) as [[b1| | |] fs1] eqn:Hp;
    try done.
  intros (extra & Hb' & Hextra)%IH.
  assert (Forall (compiled_from cp (p :: ps)) extra) as Hextra'.
  { eapply Forall_impl; [done|]. intros f (q & Hq & ->). exists q.
    split; [by apply elem_of_cons; right|done]. }
  rewrite CompileFacts.compile_profile_plan in Hp.
  unfold mbind, M_bind, lift in Hp.
  destruct (plan config cp (profile_inputs ctx fs p) b p) as [[b2 w]| | |] eqn:Hplan;
    try done.
  cbn [fst snd] in Hp.
  destruct (commit ctx w fs) as [[[]| | |] fs2]; try done.
  unfold mret, M_ret in Hp. injection Hp as -> ->.
  destruct (plan_files _ _ _ _ _ _ _ Hplan) as [Hb1|Hb1].
  + exists extra. split; [congruence|done].
  + exists (Path.join cp [compose_name p] :: extra).
    split; [rewrite Hb', Hb1; by rewrite <- app_assoc|].
    constructor; [|done]. exists p. split; [apply elem_of_cons; by left|done].
Qed.

Lemma compile_profiles_files ctx config ps fs files fs' :
compile_profiles ctx config ps fs = (Ok files, fs') ->
Forall (compiled_from (compiled_path ctx) ps) files.
Proof.
unfold compile_profiles, mbind, M_bind. fold (compiled_path ctx).
destruct (compile_loop ctx config (compiled_path ctx) ps _ fs)
  as [[b| | |] fs1] eqn:Hloop; try done.
destruct (compile_loop_files _ _ _ _ _ _ _ _ Hloop) as (extra & Hb & Hextra).
simpl in Hb. subst extra.
destruct (FS.write ctx _ _ fs1) as [[[]| | |] fs2]; try done.
destruct (FS.write ctx _ _ fs2) as [[[]| | |] fs3]; try done.
by intros [= <- _].
Qed.

End FilesFacts.

Module TouchFacts.
Import FS.

Lemma only_files_refl names d fs : only_files names d fs fs.
Proof. intros k. by left. Qed.

Lemma only_files_trans names d a b c :
  only_files names d a b -> only_files names d b c -> only_files names d a c.
Proof.
  intros Hab Hbc k. destruct (Hab k) as [Ha|(n & x & Hk & Hn & Hb & Ha)],
    (Hbc k) as [Hc|(n' & x' & Hk' & Hn' & Hc & Hb')].
  - left. congruence.
  - right. exists n', x'. repeat split; try done. congruence.
  - right. exists n, x. repeat split; try done. congruence.
  - right. exists n', x'. repeat split; done.
Qed.

Lemma only_files_weaken (names names' : string -> Prop) d a b :
  (forall n, names n -> names' n) -> only_files names d a b -> only_files names' d a b.
Proof.
  intros H Hab k. destruct (Hab k) as [?|(n & x & ? & ? & ? & ?)]; [by left|].
  right. exists n, x. auto.
Qed.

Lemma only_files_same_dirs names d a b : only_files names d a b -> same_dirs a b.
Proof.
  intros Hab k. destruct (Hab k) as [->|(n & x & _ & _ & Hb & Ha)]; [done|].
  rewrite Hb. split; [done|discriminate].
Qed.

Lemma only_files_insert (names : string -> Prop) (d : list string)
    (fs : filesystem) n data :
  names n -> fs !! (d ++ [n]) <> Some Dir ->
  only_files names d fs (<[d ++ [n] := File data]> fs).
Proof.
  intros Hn Hk k. destruct (decide (k = d ++ [n])) as [->|Hne].
  - right. exists n, data. by rewrite lookup_insert_eq.
  - left. by rewrite lookup_insert_ne.
Qed.

(** The address of a directory stays when the directories do. *)
Lemma resolve_same ctx a b p d :
  same_dirs a b -> resolve ctx a p = Found d -> resolve ctx b p = Found d.
Proof. intros [H _]%FSFacts.same_dirs_sub. by apply FSFacts.resolve_found_mono. Qed.

Lemma write_only ctx cp n data fs r fs' d :
  isdir ctx fs cp = true -> regular n -> resolve ctx fs cp = Found d ->
  write ctx (Path.join cp [n]) data fs = (r, fs') ->
  only_files (fun m => m = n) d fs fs'
  /\ (r = Ok tt /\ fs' !! (d ++ [n]) = Some (File data) \/ r <> Ok tt /\ fs' = fs).
Proof.
  intros Hcp Hn Hd. destruct (FrameFacts.write_child ctx fs cp n data Hcp Hn)
    as (d' & Hd' & _ & ->).
  assert (d' = d) as -> by congruence.
  destruct (fs !! (d ++ [n])) as [[|c]|] eqn:E; intros [= <- <-].
  - split; [apply only_files_refl|]. by right.
  - split; [apply only_files_insert; [done|congruence]|].
    left. by rewrite lookup_insert_eq.
  - split; [apply only_files_insert; [done|congruence]|].
    left. by rewrite lookup_insert_eq.
Qed.

(** Another name in the same directory reads as before. *)
Lemma only_files_read ctx cp (names : string -> Prop) d m a b :
  isdir ctx a cp = true -> resolve ctx a cp = Found d -> regular m ->
  only_files names d a b -> ~ names m ->
  read ctx b (Path.join cp [m]) = read ctx a (Path.join cp [m])
  /\ isfile ctx b (Path.join cp [m]) = isfile ctx a (Path.join cp [m]).
Proof.
  intros Hcp Hd Hm Hab Hnot.
  pose proof (only_files_same_dirs _ _ _ _ Hab) as Hsame.
  assert (isdir ctx b cp = true) as Hcp'
      by (by rewrite <- (FSFacts.isdir_same _ _ _ _ Hsame)).
  destruct (FrameFacts.read_child ctx a cp m Hcp Hm) as (e & He & _ & -> & ->).
  destruct (FrameFacts.read_child ctx b cp m Hcp' Hm) as (e' & He' & _ & -> & ->).
  assert (e = d) as -> by congruence.
  apply (resolve_same _ _ _ _ _ Hsame) in He.
  assert (e' = d) as -> by congruence.
  destruct (Hab (d ++ [m])) as [->|(n & x & [_ [= ->]]%app_inj_tail & Hn & _)]; done.
Qed.

Lemma commit_only ctx config cp i b p b' w fs r fs' d :
  isdir ctx fs cp = true -> resolve ctx fs cp = Found d ->
  plan config cp i b p = Ok (b', w) ->
  commit ctx w fs = (r, fs') ->
  only_files (fun m => m = compose_name p) d fs fs'.
Proof.
  intros Hcp Hd Hplan. destruct (FrameFacts.compose_name_regular p) as [Hreg _].
  assert (w = None \/ exists x, w = Some (Path.join cp [compose_name p], x)) as [->|[x ->]].
  { unfold plan, mbind, outcome_bind in Hplan.
    destruct (env_stage _ _ _ _); try done.
    destruct (compose_stage _ _ _) as [[x|]| | |]; try done;
      injection Hplan as <- <-; eauto. }
  - intros [= <- <-]. apply only_files_refl.
  - unfold commit, except_FileNotFoundError.
    destruct (write ctx _ x fs) as [r0 fs0] eqn:Hw.
    destruct (write_only _ _ _ _ _ _ _ _ Hcp Hreg Hd Hw) as [Honly _].
    destruct r0 as [| |[]|]; intros [= <- <-]; done.
Qed.

Lemma compile_profile_only ctx config cp b p fs r fs' d :
  isdir ctx fs cp = true -> resolve ctx fs cp = Found d ->
  compile_profile ctx config cp b p fs = (r, fs') ->
  only_files (fun m => m = compose_name p) d fs fs'.
Proof.
  intros Hcp Hd. rewrite CompileFacts.compile_profile_plan.
  unfold mbind, M_bind, lift.
  destruct (plan config cp (profile_inputs ctx fs p) b p) as [[b' w]| | |] eqn:Hplan;
    try (intros [= <- <-]; apply only_files_refl).
  cbn [fst snd].
  destruct (commit ctx w fs) as [r0 fs0] eqn:Hc.
  pose proof (commit_only _ _ _ _ _ _ _ _ _ _ _ _ Hcp Hd Hplan Hc) as Honly.
  destruct r0; intros [= <- <-]; done.
Qed.

Lemma compile_loop_only ctx config cp ps d : forall b fs r fs',
  isdir ctx fs cp = true -> resolve ctx fs cp = Found d ->
  compile_loop ctx config cp ps b fs = (r, fs') ->
  only_files (fun m => exists q, q ∈ ps /\ m = compose_name q) d fs fs'.
Proof.
  induction ps as [|p ps IH]; intros b fs r fs' Hcp Hd; simpl.
  - intros [= <- <-]. apply only_files_refl.
  - unfold mbind, M_bind.
    destruct (compile_profile ctx config cp b p fs) as [r0 fs0] eqn:Hp.
    pose proof (compile_profile_only _ _ _ _ _ _ _ _ _ Hcp Hd Hp) as Honly.
    assert (only_files (fun m => exists q, q ∈ p :: ps /\ m = compose_name q) d fs fs0)
      as Hfirst.
    { eapply only_files_weaken; [|exact Honly]. intros n ->. exists p.
      split; [|done]. apply elem_of_cons. by left. }
    destruct r0; try (intros [= <- <-]; done).
    intros Hloop. eapply only_files_trans; [exact Hfirst|].
    pose proof (only_files_same_dirs _ _ _ _ Honly) as Hsame.
    eapply only_files_weaken; [|eapply IH; [| |exact Hloop]].
    + intros n (q & Hq & ->). exists q. split; [|done]. apply elem_of_cons. by right.
    + by rewrite <- (FSFacts.isdir_same _ _ _ _ Hsame).
    + by eapply resolve_same.
Qed.

End TouchFacts.

Module OutputFacts.
Import FS.

Lemma write_cases ctx cp n data fs r fs' d :
  isdir ctx fs cp = true -> regular n -> resolve ctx fs cp = Found d ->
  write ctx (Path.join cp [n]) data fs = (r, fs') ->
  only_files (fun m => m = n) d fs fs'
  /\ (r = Ok tt /\ fs' !! (d ++ [n]) = Some (File data)
      \/ r = Raise IsADirectoryError /\ fs' = fs).
Proof.
  intros Hcp Hn Hd. destruct (FrameFacts.write_child ctx fs cp n data Hcp Hn)
    as (d' & Hd' & _ & ->).
  assert (d' = d) as -> by congruence.
  destruct (fs !! (d ++ [n])) as [[|c]|] eqn:E; intros [= <- <-].
  - split; [apply TouchFacts.only_files_refl|]. by right.
  - split; [apply TouchFacts.only_files_insert; [done|congruence]|].
    left. by rewrite lookup_insert_eq.
  - split; [apply TouchFacts.only_files_insert; [done|congruence]|].
    left. by rewrite lookup_insert_eq.
Qed.

Lemma compose_name_not_init ps : ~ compose_name_of ps "init.sh".
Proof.
  intros (q & _ & Hq). destruct (FrameFacts.compose_name_regular q) as [_ Hs].
  by rewrite <- Hq in Hs.
Qed.

Lemma compose_name_not_combined ps : ~ compose_name_of ps "combined.env".
Proof.
  intros (q & _ & Hq). destruct (FrameFacts.compose_name_regular q) as [_ Hs].
  by rewrite <- Hq in Hs.
Qed.

Lemma compose_name_output ps n : compose_name_of ps n -> output_name n.
Proof.
  intros (q & _ & ->). right. right. apply FrameFacts.compose_name_regular.
Qed.

(** The second half of a run, step by step: the loop, then the two files. *)
Lemma compile_profiles_cases ctx config ps fs r fs' d :
  isdir ctx fs (compiled_path ctx) = true ->
  resolve ctx fs (compiled_path ctx) = Found d ->
  compile_profiles ctx config ps fs = (r, fs') ->
  exists fs2,
    only_files (compose_name_of ps) d fs fs2
    /\ (fs' = fs2 /\ is_ok r = false
        \/ exists b fs3,
             compile_loop ctx config (compiled_path ctx) ps empty_buffers fs = (Ok b, fs2)
             /\ only_files (fun m => m = "init.sh") d fs2 fs3
             /\ only_files (fun m => m = "combined.env") d fs3 fs'
             /\ (is_ok r = false -> fs' = fs3 /\ r = Raise IsADirectoryError)).
Proof.
  intros Hcp Hd Hrun. unfold compile_profiles, mbind, M_bind in Hrun.
  fold (compiled_path ctx) empty_buffers in Hrun.
  destruct (compile_loop ctx config (compiled_path ctx) ps empty_buffers fs)
    as [r2 fs2] eqn:Hloop.
  pose proof (TouchFacts.compile_loop_only _ _ _ _ _ _ _ _ _ Hcp Hd Hloop) as Honly.
  exists fs2. split; [done|].
  destruct r2 as [b| | |]; try (injection Hrun as <- <-; by left).
  pose proof (TouchFacts.only_files_same_dirs _ _ _ _ Honly) as Hsame.
  assert (isdir ctx fs2 (compiled_path ctx) = true) as Hcp2
      by (by rewrite <- (FSFacts.isdir_same _ _ _ _ Hsame)).
  pose proof (TouchFacts.resolve_same _ _ _ _ _ Hsame Hd) as Hd2.
  destruct (write ctx (Path.join (compiled_path ctx) ["init.sh"]) _ fs2)
    as [r3 fs3] eqn:Hw1.
  destruct (write_cases _ _ _ _ _ _ _ _ Hcp2 RunFacts.regular_init Hd2 Hw1)
    as [Honly3 [[-> _]|[-> ->]]]; [|injection Hrun as <- <-; by left].
  pose proof (TouchFacts.only_files_same_dirs _ _ _ _ Honly3) as Hsame3.
  assert (isdir ctx fs3 (compiled_path ctx) = true) as Hcp3
      by (by rewrite <- (FSFacts.isdir_same _ _ _ _ Hsame3)).
  pose proof (TouchFacts.resolve_same _ _ _ _ _ Hsame3 Hd2) as Hd3.
  destruct (write ctx (Path.join (compiled_path ctx) ["combined.env"]) _ fs3)
    as [r4 fs4] eqn:Hw2.
  destruct (write_cases _ _ _ _ _ _ _ _ Hcp3 RunFacts.regular_combined Hd3 Hw2)
    as [Honly4 [[-> _]|[-> ->]]]; injection Hrun as <- <-; right; exists b, fs3.
  - repeat split; done.
  - repeat split; done.
Qed.

(** What the first half of a run does to the tree: nothing, or it creates
    the directory [.compiled]. *)
Lemma resolve_profiles_tree ctx config fs r fs1 :
  resolve_profiles ctx config fs = (r, fs1) ->
  fs1 = fs
  \/ exists d, resolve ctx fs (compiled_path ctx) = Found d
               /\ node_at fs d = None /\ fs1 = <[d := Dir]> fs.
Proof.
  unfold resolve_profiles, mbind, M_bind, getitem, lift, mret, M_ret.
  destruct (config !! "COMPOSE_PROFILE") as [v|]; [|intros [= _ <-]; by left].
  destruct (config !! "OCI_ENV_DIRECTORY") as [od|]; [|intros [= _ <-]; by left].
  fold (compiled_path ctx).
  destruct (mkdir_exist_ok ctx (compiled_path ctx) fs) as [r0 fs0] eqn:Hmk.
  assert (fs0 = fs
          \/ exists d, resolve ctx fs (compiled_path ctx) = Found d
                       /\ node_at fs d = None /\ fs0 = <[d := Dir]> fs) as Hfs0.
  { unfold mkdir_exist_ok in Hmk.
    destruct (resolve ctx fs (compiled_path ctx)) as [d| |] eqn:Hd;
      try (injection Hmk as _ <-; by left).
    destruct (node_at fs d) as [[|]|] eqn:Hn; injection Hmk as _ <-; try by left.
    right. by exists d. }
  destruct r0 as [[]| | |]; try (intros [= _ <-]; done).
  intros Hloop. apply ResolveFacts.resolve_loop_fs in Hloop. by subst fs1.
Qed.

End OutputFacts.

Module RerunFacts.
Import FS.

Lemma regular_relative n : regular n -> Str.startswith "/" n = false.
Proof.
  intros [Hn _]. destruct (Str.startswith "/" n) eqn:E; [|done].
  apply FSFacts.startswith_contains in E. congruence.
Qed.

(** What [os.path.join] puts before a name does not depend on the name. *)
Lemma join2_name p :
  exists q, (q = "" \/ Str.endswith slash q = true)
            /\ forall n, regular n -> Path.join2 p n = q +:+ n.
Proof.
  destruct (bool_decide (p = "") || Str.endswith slash p) eqn:E.
  - exists p. split.
    + apply orb_true_iff in E as [?%bool_decide_eq_true|?]; auto.
    + intros n Hn. unfold Path.join2. by rewrite (regular_relative n Hn), E.
  - exists (p +:+ "/"). split; [right; apply SplitFacts.endswith_snoc|].
    intros n Hn. unfold Path.join2.
    by rewrite (regular_relative n Hn), E, sapp_assoc.
Qed.

Lemma join2_name_plain p n :
  regular n -> Path.join2 p n <> "" /\ Str.endswith slash (Path.join2 p n) = false.
Proof.
  intros Hn. destruct (join2_name p) as (q & _ & Hj). rewrite (Hj n Hn).
  destruct Hn as (Hs & Hne & _). split.
  - by intros [_ ?]%sapp_eq_nil.
  - rewrite FSFacts.endswith_app by done.
    destruct (Str.endswith slash n) eqn:E; [|done].
    destruct (FSFacts.endswith_inv _ _ E) as (x & ->).
    rewrite StrFacts.contains_app in Hs.
    apply orb_false_iff in Hs as [_ Hs]. cbn [Str.contains] in Hs.
    by rewrite eqc_refl in Hs.
Qed.

(** The components that lead to a name joined to [p]. *)
Lemma resolve_name ctx p :
  exists cs, forall fs n,
    regular n -> resolve ctx fs (Path.join2 p n) = walk fs [] (cs ++ [n]).
Proof.
  destruct (join2_name p) as (q & [->|Hq] & Hjoin).
  - exists (Str.split slash (cwd ctx)). intros fs n Hn.
    rewrite (Hjoin n Hn), sapp_nil_l.
    rewrite FSFacts.resolve_nonempty by apply Hn.
    unfold absolute, Path.isabs. rewrite (regular_relative n Hn).
    change (cwd ctx +:+ "/" +:+ n) with (cwd ctx +:+ String slash n).
    by rewrite SplitFacts.split_app, (SplitFacts.split_absent _ n) by apply Hn.
  - destruct (FSFacts.endswith_inv _ _ Hq) as (q' & ->).
    exists (Str.split slash (if Path.isabs (q' +:+ String slash "")
                             then q' else cwd ctx +:+ "/" +:+ q')).
    intros fs n Hn. rewrite (Hjoin n Hn).
    assert (q' +:+ String slash "" <> "") as Hne
        by (by intros [_ ?]%sapp_eq_nil).
    rewrite FSFacts.resolve_nonempty
      by (intros [? _]%sapp_eq_nil; done).
    rewrite FSFacts.absolute_app by done. unfold absolute.
    destruct (Path.isabs (q' +:+ String slash "")).
    + rewrite sapp_assoc. change (String slash "" +:+ n) with (String slash n).
      by rewrite SplitFacts.split_app, (SplitFacts.split_absent _ n) by apply Hn.
    + replace ((cwd ctx +:+ "/" +:+ q' +:+ String slash "") +:+ n)
        with ((cwd ctx +:+ "/" +:+ q') +:+ String slash n)
        by (by rewrite !sapp_assoc).
      by rewrite SplitFacts.split_app, (SplitFacts.split_absent _ n) by apply Hn.
Qed.

(** A name below a path that does not end in a slash. *)
Lemma resolve_step ctx fs pp m :
  pp <> "" -> Str.endswith slash pp = false -> regular m ->
  resolve ctx fs (Path.join2 pp m)
  = match resolve ctx fs pp with
    | Found c => walk fs c [m]
    | e => e
    end.
Proof.
  intros Hne Hend Hm.
  rewrite PathFacts.join2_literal by (try done; by apply regular_relative).
  rewrite (FSFacts.resolve_nonempty _ _ pp) by done.
  rewrite FSFacts.resolve_nonempty by (intros [? _]%sapp_eq_nil; done).
  rewrite FSFacts.absolute_app by done.
  change (absolute ctx pp +:+ "/" +:+ m) with (absolute ctx pp +:+ String slash m).
  by rewrite SplitFacts.split_app, FSFacts.walk_app,
       (SplitFacts.split_absent _ m) by apply Hm.
Qed.

Lemma walk_name_inv fs r n d :
  regular n -> walk fs r [n] = Found d -> node_at fs r = Some Dir /\ d = r ++ [n].
Proof.
  intros (_ & H1 & H2 & H3). simpl.
  destruct (node_at fs r) as [[|]|]; try done.
  rewrite !bool_decide_eq_false_2 by done. simpl. by intros [= <-].
Qed.

(** Where the files of a directory beside [c] are looked up, [c] being a
    directory with the address [d]. *)
Lemma resolve_beside ctx fs root c n m d :
  regular c -> regular n -> regular m ->
  resolve ctx fs (Path.join2 root c) = Found d ->
  exists r,
    d = r ++ [c]
    /\ resolve ctx fs (Path.join2 (Path.join2 root n) m)
       = match node_at fs (r ++ [n]) with
         | Some Dir => Found (r ++ [n; m])
         | Some (File _) => ENOTDIR
         | None => ENOENT
         end.
Proof.
  intros Hc Hn Hm Hd. destruct (resolve_name ctx root) as (cs & Hcs).
  rewrite (Hcs fs c Hc), FSFacts.walk_app in Hd.
  destruct (walk fs [] cs) as [r| |] eqn:Hr; try done.
  apply (walk_name_inv _ _ _ _ Hc) in Hd as [Hdir ->].
  exists r. split; [done|].
  destruct (join2_name_plain root n Hn) as [Hne Hend].
  rewrite (resolve_step _ _ _ _ Hne Hend Hm).
  rewrite (Hcs fs n Hn), FSFacts.walk_app, Hr, (FSFacts.walk_name _ _ _ Hn Hdir).
  destruct Hm as (_ & H1 & H2 & H3). simpl.
  rewrite (FrameFacts.node_at_snoc fs r n).
  destruct (fs !! (r ++ [n])) as [[|]|]; try done.
  rewrite !bool_decide_eq_false_2 by done. simpl.
  by rewrite <- app_assoc.
Qed.

(** Files written into the directory [c] leave what is read beside it. *)
Lemma beside_read ctx root c n m (names : string -> Prop) d a b :
  regular c -> regular n -> regular m -> n <> c ->
  resolve ctx a (Path.join2 root c) = Found d ->
  only_files names d a b ->
  read ctx b (Path.join2 (Path.join2 root n) m)
  = read ctx a (Path.join2 (Path.join2 root n) m)
  /\ isfile ctx b (Path.join2 (Path.join2 root n) m)
     = isfile ctx a (Path.join2 (Path.join2 root n) m).
Proof.
  intros Hc Hn Hm Hnc Hd Hab.
  pose proof (TouchFacts.only_files_same_dirs _ _ _ _ Hab) as Hsame.
  pose proof (TouchFacts.resolve_same _ _ _ _ _ Hsame Hd) as Hd'.
  destruct (resolve_beside _ _ _ _ n m _ Hc Hn Hm Hd) as (r & Hr & Ha).
  destruct (resolve_beside _ _ _ _ n m _ Hc Hn Hm Hd') as (r' & Hr' & Hb).
  assert (r' = r) as ->.
  { rewrite Hr in Hr'. by apply app_inj_tail in Hr' as [? _]. }
  assert (b !! (r ++ [n]) = a !! (r ++ [n])) as Hnode.
  { destruct (Hab (r ++ [n])) as [?|(x & y & Hk & _)]; [done|].
    rewrite Hr in Hk. apply (f_equal length) in Hk.
    rewrite !length_app in Hk. simpl in Hk. lia. }
  assert (b !! (r ++ [n; m]) = a !! (r ++ [n; m])) as Hfile.
  { destruct (Hab (r ++ [n; m])) as [?|(x & y & Hk & _)]; [done|].
    rewrite Hr in Hk. change [n; m] with ([n] ++ [m]) in Hk.
    rewrite app_assoc in Hk. apply app_inj_tail in Hk as [Hk _].
    apply app_inv_head in Hk. congruence. }
  unfold read, isfile. rewrite Ha, Hb, !FrameFacts.node_at_snoc, Hnode.
  destruct (a !! (r ++ [n])) as [[|]|]; try done.
  change [n; m] with ([n] ++ [m]). rewrite !app_assoc, !FrameFacts.node_at_snoc.
  rewrite <- !app_assoc. simpl. by rewrite Hfile.
Qed.

(** Files written into the directory at [d] leave what a profile holds
    whose directory is another one. *)
Lemma apart_inputs ctx (names : string -> Prop) d a b q e :
  only_files names d a b ->
  resolve ctx a (Profile.path q) = Found e -> node_at a e = Some Dir ->
  e <> d ->
  profile_inputs ctx b q = profile_inputs ctx a q.
Proof.
  intros Hab He Hdir Hne.
  pose proof (TouchFacts.only_files_same_dirs _ _ _ _ Hab) as Hsame.
  pose proof (FrameFacts.found_isdir _ _ _ _ He Hdir) as Hq.
  pose proof (FrameFacts.verified_same _ _ _ q Hsame Hq) as Hq'.
  assert (forall m, regular m ->
            read ctx b (Path.join (Profile.path q) [m])
            = read ctx a (Path.join (Profile.path q) [m])
            /\ isfile ctx b (Path.join (Profile.path q) [m])
               = isfile ctx a (Path.join (Profile.path q) [m])) as Hm.
  { intros m Hreg.
    destruct (FrameFacts.read_child ctx a _ m Hq Hreg) as (x & Hx & _ & -> & ->).
    destruct (FrameFacts.read_child ctx b _ m Hq' Hreg) as (y & Hy & _ & -> & ->).
    assert (x = e) as -> by congruence.
    apply (TouchFacts.resolve_same _ _ _ _ _ Hsame) in He.
    assert (y = e) as -> by congruence.
    destruct (Hab (e ++ [m])) as [->|(n & c & [? _]%app_inj_tail & _)]; done. }
  unfold profile_inputs, init_file, env_file, compose_file.
  f_equal; apply Hm; by repeat split.
Qed.

Lemma mkdir_sub ctx p fs fs1 :
  mkdir_exist_ok ctx p fs = (Ok tt, fs1) ->
  sub_dirs fs fs1 /\ exists d, resolve ctx fs p = Found d.
Proof.
  unfold mkdir_exist_ok.
  destruct (resolve ctx fs p) as [k| |] eqn:Hk; try done.
  destruct (node_at fs k) as [[|]|] eqn:Hn; try done; intros [= <-].
  - split; [by intros j|by exists k].
  - split; [|by exists k]. intros j Hj.
    assert (k <> []) as Hne by (by intros ->).
    assert (fs !! k = None) as Hnone by (by destruct k).
    rewrite lookup_insert_ne; [done|congruence].
Qed.

(** The second half of a run writes files into [.compiled] only. *)
Lemma compile_profiles_touch ctx config ps fs r fs' d :
  isdir ctx fs (compiled_path ctx) = true ->
  resolve ctx fs (compiled_path ctx) = Found d ->
  compile_profiles ctx config ps fs = (r, fs') ->
  only_files output_name d fs fs'.
Proof.
  intros Hcp Hd Hrun.
  destruct (OutputFacts.compile_profiles_cases _ _ _ _ _ _ _ Hcp Hd Hrun)
    as (fs2 & H2 & [[-> _]|(b & fs3 & _ & H3 & H4 & _)]).
  - eapply TouchFacts.only_files_weaken; [|exact H2].
    apply OutputFacts.compose_name_output.
  - eapply TouchFacts.only_files_trans; [|eapply TouchFacts.only_files_trans].
    + eapply TouchFacts.only_files_weaken; [|exact H2].
      apply OutputFacts.compose_name_output.
    + eapply TouchFacts.only_files_weaken; [|exact H3]. intros n ->. by left.
    + eapply TouchFacts.only_files_weaken; [|exact H4]. intros n ->. right. by left.
Qed.

(** With every profile directory there from the start and none of them the
    output directory, a run leaves what it read as it was. *)
Lemma unchanged_inputs ctx config fs ps fs1 r fs' :
  resolve_profiles ctx config fs = (Ok ps, fs1) ->
  compile_profiles ctx config ps fs1 = (r, fs') ->
  Forall (fun p => apart ctx fs (compiled_path ctx) (Profile.path p)) (tail ps) ->
  same_inputs ctx fs1 fs' ps.
Proof.
  intros Hres Hrun Hap.
  destruct (RunFacts.resolve_profiles_ready _ _ _ _ _ Hres) as [Hcp _].
  destruct (FrameFacts.isdir_found _ _ _ Hcp) as (d & Hd & _).
  pose proof (compile_profiles_touch _ _ _ _ _ _ _ Hcp Hd Hrun) as Honly.
  destruct (ResolveFacts.resolve_profiles_inv _ _ _ _ _ Hres)
    as (v & od & ds & _ & _ & Hmk & -> & _).
  fold (compiled_path ctx) in Hmk.
  apply mkdir_sub in Hmk as [Hsub (d0 & Hd0)].
  assert (d0 = d) as ->.
  { apply (FSFacts.resolve_found_mono _ _ _ _ _ Hsub) in Hd0. congruence. }
  simpl in Hap. unfold same_inputs. constructor.
  - unfold profile_inputs, init_file, env_file, compose_file, base_profile.
    cbn [Profile.path]. unfold Path.join. cbn [foldl].
    assert (forall m, regular m ->
              read ctx fs' (Path.join2 (Path.join2 (get_oci_env_path ctx) "base") m)
              = read ctx fs1 (Path.join2 (Path.join2 (get_oci_env_path ctx) "base") m)
              /\ isfile ctx fs' (Path.join2 (Path.join2 (get_oci_env_path ctx) "base") m)
                 = isfile ctx fs1 (Path.join2 (Path.join2 (get_oci_env_path ctx) "base") m))
      as Hm.
    { intros m Hreg.
      apply (beside_read ctx _ ".compiled" "base" m output_name d);
        try done; by repeat split. }
    f_equal; apply Hm; by repeat split.
  - eapply Forall_impl; [exact Hap|]. intros q [Hq Hne]. simpl.
    destruct (FrameFacts.isdir_found _ _ _ Hq) as (e & He & Hdir).
    eapply (apart_inputs _ _ d _ _ _ e); [exact Honly| | |].
    + by eapply FSFacts.resolve_found_mono.
    + by eapply FSFacts.node_at_sub.
    + intros ->. apply Hne. congruence.
Qed.

(** Two trees in which a path reads differently are different. *)
Lemma read_differs (ctx : context) (a b : filesystem) p x y :
  read ctx a p = Ok x -> read ctx b p = Ok y -> String.eqb x y = false -> b <> a.
Proof.
  intros Ha Hb Hxy ->. rewrite Ha in Hb. injection Hb as ->.
  by rewrite String.eqb_refl in Hxy.
Qed.

End RerunFacts.

(** * Properties of the specification *)

(** C1.  When [parse_profiles] returns, [.compiled/combined.env] holds, joined
    by line feeds, the lines that the resolved profiles contribute in
    resolution order: a profile without [pulp_config.env] contributes
    nothing, and a profile with one contributes each of its lines, stripped
    and with the configuration substituted.  In particular the line
    [HOST={API_HOST}] becomes [HOST=localhost] under any mapping that has
    [API_HOST=localhost]. *)
Theorem combined_env_contents ctx config fs files fs' :
  parse_profiles ctx config fs = (Ok files, fs') ->
  (exists ps fs1 outs,
     resolve_profiles ctx config fs = (Ok ps, fs1)
     /\ env_lines ctx config fs1 ps outs
     /\ FS.read ctx fs' (Path.join (compiled_path ctx) ["combined.env"])
        = Ok (Str.join (String nl "") outs))
  /\ forall config' : gmap string string,
       config' !! "API_HOST" = Some "localhost" ->
       formats_to config' ("HOST={API_HOST}" +:+ String nl "") "HOST=localhost".
Proof.
  intros Hrun. split.
  - unfold parse_profiles, mbind, M_bind in Hrun.
    destruct (resolve_profiles ctx config fs) as [[ps| | |] fs1] eqn:Hres; try done.
    destruct (RunFacts.resolve_profiles_ready _ _ _ _ _ Hres) as [Hcp Hv].
    unfold compile_profiles, mbind, M_bind in Hrun. fold (compiled_path ctx) in Hrun.
    destruct (compile_loop ctx config (compiled_path ctx) ps _ fs1)
      as [[b| | |] fs2] eqn:Hloop; try done.
    destruct (LoopFacts.compile_loop_env _ _ _ _ _ _ _ _ Hcp Hv Hloop)
      as (outs & Houts & Hb). simpl in Hb.
    pose proof (FrameFacts.compile_loop_frame _ _ _ _ _ _ _ _ Hcp Hloop) as [Hsame _].
    rewrite (FSFacts.isdir_same _ _ _ _ Hsame) in Hcp.
    destruct (FS.write ctx (Path.join (compiled_path ctx) ["init.sh"]) _ fs2)
      as [[[]| | |] fs3] eqn:Hw1; try done.
    apply (LoopFacts.write_read _ _ _ _ _ _ Hcp RunFacts.regular_init) in Hw1 as [_ Hsame3].
    rewrite (FSFacts.isdir_same _ _ _ _ Hsame3) in Hcp.
    destruct (FS.write ctx (Path.join (compiled_path ctx) ["combined.env"]) _ fs3)
      as [[[]| | |] fs4] eqn:Hw2; try done.
    injection Hrun as _ <-.
    apply (LoopFacts.write_read _ _ _ _ _ _ Hcp RunFacts.regular_combined) in Hw2 as [Hread _].
    exists ps, fs1, outs. split; [done|]. split; [done|]. by rewrite <- Hb.
  - intros config' Hhost. unfold formats_to.
    change (Str.strip ("HOST={API_HOST}" +:+ String nl ""))
      with ("HOST=" +:+ "{" +:+ "API_HOST" +:+ String rbrace "").
    rewrite (FormatFacts.format_app config' "HOST=" "HOST=") by done.
    by rewrite FormatFacts.format_placeholder, Hhost.
Qed.

Lemma combined_env_contents_witness :
  fst Sample.first_run = Ok Sample.compiled_files
  /\ FS.read Sample.ctx (snd Sample.first_run)
       "/home/u/oci_env/.compiled/combined.env"
     = Ok (Str.join (String nl "") ["HOST=localhost"; "PORT=8080"; "UI=1"])
  /\ exists ps fs1 outs,
       resolve_profiles Sample.ctx Sample.config Sample.disk = (Ok ps, fs1)
       /\ env_lines Sample.ctx Sample.config fs1 ps outs
       /\ FS.read Sample.ctx (snd Sample.first_run)
            (Path.join (compiled_path Sample.ctx) ["combined.env"])
          = Ok (Str.join (String nl "") outs).
Proof.
  assert (fst Sample.first_run = Ok Sample.compiled_files) as Hfiles
      by evaluate.
  split; [exact Hfiles|]. split; [evaluate|].
  exact (proj1 (combined_env_contents Sample.ctx Sample.config Sample.disk _ _
                  (run_result _ _ _ Hfiles))).
Defined.






(** C4.  Whatever the profile list, the sequence that resolution returns
    starts with the base descriptor: name [base], source directory
    [os.path.join(<run-root>, "base")], which is [<run-root>/base] for a run
    root that is not empty and has no trailing slash, and container path
    [os.path.join("/src", <own-dir-name>, "base")], which is
    [/src/<own-dir-name>/base] for a plain own directory name. *)
Theorem resolve_profiles_base_first ctx config fs ps fs' :
  resolve_profiles ctx config fs = (Ok ps, fs') ->
  let root := get_oci_env_path ctx in
  exists oci_dir rest,
    config !! "OCI_ENV_DIRECTORY" = Some oci_dir
    /\ ps = {| Profile.path := Path.join root ["base"];
               Profile.name := "base";
               Profile.container_path := Path.join "/src" [oci_dir; "base"] |}
            :: rest
    /\ (root <> "" -> Str.endswith slash root = false ->
        Path.join root ["base"] = root +:+ "/base")
    /\ (plain oci_dir ->
        Path.join "/src" [oci_dir; "base"] = "/src/" +:+ oci_dir +:+ "/base").
Proof.
  intros (v & od & ds & Hv & Hod & Hmk & -> & Hds)%ResolveFacts.resolve_profiles_inv root.
  exists od, ds. split; [done|]. split; [done|]. split.
  - apply PathFacts.join_base.
  - intros Hp. by apply PathFacts.join_src.
Qed.

Lemma resolve_profiles_base_first_witness :
  fst Sample.resolved = Ok [Sample.base; Sample.ui; Sample.dev]
  /\ exists oci_dir rest,
       Sample.config !! "OCI_ENV_DIRECTORY" = Some oci_dir
       /\ [Sample.base; Sample.ui; Sample.dev]
          = {| Profile.path := Path.join (get_oci_env_path Sample.ctx) ["base"];
               Profile.name := "base";
               Profile.container_path := Path.join "/src" [oci_dir; "base"] |}
            :: rest.
Proof.
  assert (fst Sample.resolved = Ok [Sample.base; Sample.ui; Sample.dev]) as H
      by evaluate.
  split; [exact H|].
  destruct (resolve_profiles_base_first Sample.ctx Sample.config Sample.disk _ _
              (run_result _ _ _ H)) as (od & rest & Hod & Hps & _).
  exists od, rest. split; [exact Hod|exact Hps].
Defined.

(** C5, amended.  In the mapping that [get_config] returns,
    [OCI_ENV_DIRECTORY] is the last segment of the base directory and
    [COMPOSE_CONTEXT] is the base directory, whatever the user file and the
    defaults say; every other key has the user file's value when the file
    sets it and the default otherwise.  The base directory is the value of
    [OCI_ENV_PATH] as it is set, relative or not, and the working directory
    when it is not set. *)
Theorem get_config_precedence ctx fs config fs' :
  get_config ctx fs = (Ok config, fs') ->
  let path := get_oci_env_path ctx in
  exists user seg,
    read_env_file ctx (Path.join path [".compose.env"]) fs = (Ok user, fs')
    /\ last_segment path seg
    /\ config !! "OCI_ENV_DIRECTORY" = Some seg
    /\ config !! "COMPOSE_CONTEXT" = Some path
    /\ (environ ctx !! "OCI_ENV_PATH" = None -> path = cwd ctx)
    /\ (forall v, environ ctx !! "OCI_ENV_PATH" = Some v -> path = v)
    /\ forall key, key <> "OCI_ENV_DIRECTORY" -> key <> "COMPOSE_CONTEXT" ->
         config !! key = match user !! key with
                         | Some v => Some v
                         | None => config_defaults path !! key
                         end.
Proof.
  intros Hrun path. unfold get_config, mbind, M_bind in Hrun. fold path in Hrun.
  destruct (read_env_file ctx (Path.join path [".compose.env"]) fs)
    as [[user| | |] fs1] eqn:Hread; try discriminate.
  unfold mret, M_ret in Hrun. injection Hrun as <- <-.
  destruct (constant_vals_directory path) as (seg & Hseg & Hlast).
  exists user, seg. unfold dict_merge3.
  split; [done|]. split; [done|]. split; [|split; [|split; [|split]]].
  - by apply lookup_union_Some_l.
  - apply lookup_union_Some_l. unfold constant_vals.
    by rewrite lookup_insert_ne, lookup_insert_eq.
  - intros Hunset. unfold path, get_oci_env_path. by rewrite Hunset.
  - intros v Hset. unfold path, get_oci_env_path. by rewrite Hset.
  - intros key H1 H2. rewrite lookup_union_r.
    + rewrite lookup_union. destruct (user !! key), (config_defaults path !! key); done.
    + unfold constant_vals. by rewrite !lookup_insert_ne, lookup_empty.
Qed.

Lemma get_config_precedence_witness :
  get_config Sample.ctx Sample.disk
  = (Ok Sample.config, snd (get_config Sample.ctx Sample.disk))
  /\ Sample.config !! "COMPOSE_CONTEXT" = Some "/home/u/oci_env"
  /\ Sample.config !! "API_PORT" = Some "8080"
  /\ Sample.config !! "API_HOST" = Some "localhost"
  /\ exists seg, last_segment "/home/u/oci_env" seg
                 /\ Sample.config !! "OCI_ENV_DIRECTORY" = Some seg.
Proof.
  assert (is_ok (fst (get_config Sample.ctx Sample.disk)) = true) as Hok
      by evaluate.
  pose proof (ok_result (get_config Sample.ctx) Sample.disk ∅ Hok) as H.
  split; [exact H|].
  destruct (get_config_precedence Sample.ctx Sample.disk _ _ H)
    as (user & seg & _ & Hseg & Hdir & Hctx & _).
  split; [exact Hctx|]. split; [evaluate|].
  split; [evaluate|].
  exists seg. split; [exact Hseg|exact Hdir].
Defined.

(** C5, as stated, fails: started in [/home/u] with [OCI_ENV_PATH] set to
    [oci_env], [get_config] finds the user file and returns a mapping whose
    [COMPOSE_CONTEXT] is [oci_env], which is not an absolute path; the
    absolute path of the base directory is [/home/u/oci_env]. *)
Lemma relative_compose_context :
  is_ok (fst (get_config Sample.relative_ctx Sample.disk)) = true
  /\ the_value ∅ (fst (get_config Sample.relative_ctx Sample.disk))
       !! "COMPOSE_CONTEXT" = Some "oci_env"
  /\ Path.isabs "oci_env" = false
  /\ Path.abspath (cwd Sample.relative_ctx) "oci_env" = "/home/u/oci_env".
Proof. split; [evaluate|]. split; [evaluate|]. split; reflexivity. Qed.

(** C6, amended.  A line of the user file contributes a pair exactly when it
    does not start with [#] and has an [=]; the first [=] splits key from
    value; the key loses its leading and trailing single quotes, double
    quotes and space characters (U+0020), the value those and line feeds;
    every other line changes nothing, and reading a file that exists never
    fails. *)
Theorem read_env_file_pairs ctx path fs content :
  FS.read ctx fs path = Ok content ->
  (forall result line,
     if candidate line
     then exists k v, contributes line k v
                      /\ read_env_line result line = Ok (<[k:=v]> result)
     else read_env_line result line = Ok result)
  /\ exists result,
       read_env_file ctx path fs = (Ok result, fs)
       /\ env_result (Str.lines content) ∅ result.
Proof.
  intros Hread. split.
  - intros result line. destruct (candidate line) eqn:Hc.
    + by apply read_env_line_candidate.
    + by apply read_env_line_other.
  - destruct (read_env_lines_total (Str.lines content) ∅) as (r & Hr & Hspec).
    exists r. split; [|done].
    unfold read_env_file, except_FileNotFoundError, mbind, M_bind, lift.
    rewrite Hread, Hr. done.
Qed.

Lemma read_env_file_pairs_witness :
  FS.read Sample.ctx Sample.disk "/home/u/oci_env/.compose.env"
  = Ok Sample.user_file
  /\ fst (read_env_file Sample.ctx "/home/u/oci_env/.compose.env" Sample.disk)
     = Ok (<["API_PORT" := "8080"]> (<["COMPOSE_PROFILE" := "ui:galaxy/dev"]> ∅))
  /\ exists result,
       read_env_file Sample.ctx "/home/u/oci_env/.compose.env" Sample.disk
       = (Ok result, Sample.disk)
       /\ env_result (Str.lines Sample.user_file) ∅ result.
Proof.
  assert (FS.read Sample.ctx Sample.disk "/home/u/oci_env/.compose.env"
          = Ok Sample.user_file) as H by evaluate.
  split; [exact H|]. split; [evaluate|].
  exact (proj2 (read_env_file_pairs _ _ _ _ H)).
Defined.

(** C6, as stated, fails: a tab is white space, and the key of the line
    [A<tab>=1] keeps its trailing tab. *)
Lemma read_env_line_keeps_tab :
  read_env_line ∅ (String "A" (String tab "=1"))
    = Ok (<[String "A" (String tab "") := "1"]> ∅)
  /\ final_char (String "A" (String tab "")) = Some tab
  /\ Str.isspace tab = true.
Proof. by vm_compute. Qed.



(** C8, amended.  Let every profile that the list names, the base profile
    apart, have for its source directory, in the file tree that a run of
    [parse_profiles] starts on, a directory that is not the output directory
    [.compiled].  Then a second run, started on the file tree that the first
    run left, ends as the first run did and leaves the file tree as it found
    it, so [.compiled] is byte for byte the same.
    The files a run returns are named, in [.compiled], after a resolved
    profile: its reference with every slash replaced by an underscore,
    followed by [_compose.yaml]. *)
Theorem parse_profiles_idempotent ctx config fs r fs' :
  parse_profiles ctx config fs = (r, fs') ->
  (forall ps fs1,
     resolve_profiles ctx config fs = (Ok ps, fs1) ->
     Forall (fun p => apart ctx fs (compiled_path ctx) (Profile.path p)) (tail ps)) ->
  parse_profiles ctx config fs' = (r, fs')
  /\ forall files,
       r = Ok files ->
       exists ps fs1,
         resolve_profiles ctx config fs = (Ok ps, fs1)
         /\ Forall (fun file =>
                      exists p, p ∈ ps
                        /\ file = Path.join (compiled_path ctx)
                                    [Str.replace slash "_"%char (Profile.name p)
                                       +:+ "_compose.yaml"]) files.
Proof.
  intros Hrun Hap. split.
  - eapply parse_profiles_rerun; [exact Hrun|]. intros ps fs1 Hres.
    unfold parse_profiles, mbind, M_bind in Hrun. rewrite Hres in Hrun.
    eapply RerunFacts.unchanged_inputs; [exact Hres|exact Hrun|by eapply Hap].
  - intros files ->. unfold parse_profiles, mbind, M_bind in Hrun.
    destruct (resolve_profiles ctx config fs) as [[ps| | |] fs1] eqn:Hres; try done.
    exists ps, fs1. split; [done|]. by eapply FilesFacts.compile_profiles_files.
Qed.

Lemma parse_profiles_idempotent_witness :
  fst Sample.first_run = Ok Sample.compiled_files
  /\ parse_profiles Sample.ctx Sample.config (snd Sample.first_run)
     = (fst Sample.first_run, snd Sample.first_run).
Proof.
  assert (fst Sample.first_run = Ok Sample.compiled_files) as Hfiles
      by evaluate.
  split; [exact Hfiles|].
  refine (proj1 (parse_profiles_idempotent Sample.ctx Sample.config Sample.disk
                   (fst Sample.first_run) (snd Sample.first_run)
                   (run_result _ _ _ eq_refl) _)).
  intros ps fs1 Hres.
  assert (fst Sample.resolved = Ok [Sample.base; Sample.ui; Sample.dev]) as Hps
      by evaluate.
  unfold Sample.resolved in Hps. rewrite Hres in Hps. simpl in Hps.
  injection Hps as ->.
  repeat constructor; first [evaluate | by vm_compute].
Defined.

(** C8, as stated, fails: the reference [oci_env/../.compiled] has the
    plugin [oci_env] and the profile name [../.compiled], and its source
    directory is the output directory.  The first run finds no [init.sh]
    there and writes one; the second run, on the tree that the first one
    left, finds it and adds a line for it, so the [init.sh] that it writes
    differs from the one it found. *)
Lemma second_run_changes_init_script :
  fst (resolve_profiles Sample.ctx Sample.looping_config Sample.disk)
  = Ok [Sample.base; Sample.looping]
  /\ is_ok (fst Sample.looping_first) = true
  /\ is_ok (fst Sample.looping_second) = true
  /\ FS.read Sample.ctx (snd Sample.looping_first)
       "/home/u/oci_env/.compiled/init.sh"
     = Ok (Str.join (String nl "")
             (init_banner ++ ["bash /src/oci_env/base/init.sh"]))
  /\ FS.read Sample.ctx (snd Sample.looping_second)
       "/home/u/oci_env/.compiled/init.sh"
     = Ok (Str.join (String nl "")
             (init_banner ++ [ "bash /src/oci_env/base/init.sh";
                               "bash /src/oci_env/profiles/../.compiled/init.sh" ]))
  /\ snd Sample.looping_second <> snd Sample.looping_first.
Proof.
  assert (FS.read Sample.ctx (snd Sample.looping_first)
            "/home/u/oci_env/.compiled/init.sh"
          = Ok (Str.join (String nl "")
                  (init_banner ++ ["bash /src/oci_env/base/init.sh"]))) as H1
      by evaluate.
  assert (FS.read Sample.ctx (snd Sample.looping_second)
            "/home/u/oci_env/.compiled/init.sh"
          = Ok (Str.join (String nl "")
                  (init_banner ++ [ "bash /src/oci_env/base/init.sh";
                                    "bash /src/oci_env/profiles/../.compiled/init.sh" ])))
    as H2 by evaluate.
  split; [evaluate|]. split; [evaluate|]. split; [evaluate|].
  split; [exact H1|]. split; [exact H2|].
  apply (RerunFacts.read_differs _ _ _ _ _ _ H1 H2). evaluate.
Qed.

(** C9, amended.  [str.format] replaces each placeholder [{KEY}] whose key is
    plain and present by the key's value; literal text reaches the output
    unchanged when each of its braces is written twice, a doubled brace
    coming out as a single one, so text without braces is copied as it is;
    a closing brace that stands alone makes the substitution raise
    [ValueError]. *)
Theorem format_template config ps out :
  Forall plain_piece ps ->
  expand config ps = Some out ->
  Format.format config (render ps) = Ok out
  /\ forall t rest,
       all_chars (fun c => negb (is_brace c)) t = true ->
       first_char rest <> Some rbrace ->
       Format.format config (t +:+ String rbrace rest) = Raise ValueError.
Proof.
  intros Hps Hout. split.
  - by apply format_render.
  - intros t rest. apply format_lone_rbrace.
Qed.

Lemma format_template_witness :
  Forall plain_piece Sample.pieces
  /\ expand Sample.host Sample.pieces = Some "HOST=localhost {literal}"
  /\ Format.format Sample.host "HOST={API_HOST} {{literal}}"
     = Ok "HOST=localhost {literal}".
Proof.
  assert (Forall plain_piece Sample.pieces) as H1 by (repeat constructor).
  assert (expand Sample.host Sample.pieces = Some "HOST=localhost {literal}")
    as H2 by evaluate.
  split; [exact H1|]. split; [exact H2|].
  exact (proj1 (format_template _ _ _ H1 H2)).
Defined.

(** C9, as stated, fails: a lone closing brace does not pass through but
    raises [ValueError], and doubled braces come out single. *)
Lemma format_not_pass_through :
  Format.format Sample.host "a } b" = Raise ValueError
  /\ Format.format Sample.host "{{x}}" = Ok "{x}".
Proof. split; evaluate. Qed.

(** C10.  The empty profile list splits into the one token [""]; it is
    resolved as a local profile whose source directory is
    [<run-root>/profiles] followed by a slash, which is a directory exactly
    when [<run-root>/profiles] is one; when it is, the descriptor with the
    empty name follows the base descriptor, and when it is not, the run
    exits with status 1 and the missing-profile message. *)
Theorem empty_profile_list ctx config fs fs1 oci_dir :
  let root := get_oci_env_path ctx in
  let dir := Path.join root ["profiles"; ""] in
  config !! "COMPOSE_PROFILE" = Some "" ->
  config !! "OCI_ENV_DIRECTORY" = Some oci_dir ->
  FS.mkdir_exist_ok ctx (Path.join root [".compiled"]) fs = (Ok tt, fs1) ->
  Str.split ":"%char "" = [""]
  /\ locate ctx root oci_dir "" = Ok (oci_dir, "", dir)
  /\ dir = Path.join root ["profiles"] +:+ "/"
  /\ FS.isdir ctx fs1 dir = FS.isdir ctx fs1 (Path.join root ["profiles"])
  /\ if FS.isdir ctx fs1 (Path.join root ["profiles"])
     then resolve_profiles ctx config fs
          = (Ok [ base_profile root oci_dir;
                  {| Profile.path := dir;
                     Profile.name := "";
                     Profile.container_path :=
                       Path.join "/src" [oci_dir; "profiles"; ""] |} ], fs1)
     else resolve_profiles ctx config fs = (Exit 1 (missing_profile "" dir), fs1)
          /\ parse_profiles ctx config fs = (Exit 1 (missing_profile "" dir), fs1).
Proof.
  intros root dir Hv Hod Hmk.
  destruct (PathFacts.join_empty_name root) as [Hdir Hne].
  assert (FS.isdir ctx fs1 dir = FS.isdir ctx fs1 (Path.join root ["profiles"])) as Hsame.
  { unfold dir. rewrite Hdir. by apply FSFacts.isdir_trailing_slash. }
  split; [done|]. split; [done|]. split; [done|]. split; [done|].
  rewrite (ResolveFacts.resolve_profiles_unfold _ _ _ _ _ _ Hv Hod Hmk).
  fold root. rewrite <- Hsame.
  assert (resolve_loop ctx root oci_dir (Str.split ":"%char "")
            [base_profile root oci_dir] fs1
          = if FS.isdir ctx fs1 dir
            then (Ok [ base_profile root oci_dir;
                       {| Profile.path := dir; Profile.name := "";
                          Profile.container_path :=
                            Path.join "/src" [oci_dir; "profiles"; ""] |} ], fs1)
            else (Exit 1 (missing_profile "" dir), fs1)) as Hloop.
  { simpl. unfold mbind, M_bind, lift. simpl.
    change (Path.join2 (Path.join2 root "profiles") "") with dir.
    by destruct (FS.isdir ctx fs1 dir). }
  destruct (FS.isdir ctx fs1 dir) eqn:E; [done|]. split; [done|].
  unfold parse_profiles, mbind, M_bind.
  rewrite (ResolveFacts.resolve_profiles_unfold _ _ _ _ _ _ Hv Hod Hmk).
  fold root. by rewrite Hloop.
Qed.

Lemma empty_profile_list_witness :
  Sample.empty_config !! "COMPOSE_PROFILE" = Some ""
  /\ FS.isdir Sample.ctx Sample.after_mkdir "/home/u/oci_env/profiles" = true
  /\ resolve_profiles Sample.ctx Sample.empty_config Sample.disk
     = (Ok [ Sample.base;
             {| Profile.path := "/home/u/oci_env/profiles/";
                Profile.name := "";
                Profile.container_path := "/src/oci_env/profiles/" |} ],
        Sample.after_mkdir).
Proof.
  assert (Sample.empty_config !! "COMPOSE_PROFILE" = Some "") as Hv
      by evaluate.
  assert (Sample.empty_config !! "OCI_ENV_DIRECTORY" = Some "oci_env") as Hod
      by evaluate.
  assert (FS.mkdir_exist_ok Sample.ctx
            (Path.join (get_oci_env_path Sample.ctx) [".compiled"]) Sample.disk
          = (Ok tt, Sample.after_mkdir)) as Hmk
      by (apply (run_result (FS.mkdir_exist_ok Sample.ctx _));
          evaluate).
  assert (FS.isdir Sample.ctx Sample.after_mkdir "/home/u/oci_env/profiles" = true)
    as Hd by evaluate.
  split; [exact Hv|]. split; [exact Hd|].
  destruct (empty_profile_list Sample.ctx Sample.empty_config Sample.disk
              Sample.after_mkdir "oci_env" Hv Hod Hmk) as (_ & _ & _ & _ & Hrun).
  change (FS.isdir Sample.ctx Sample.after_mkdir
            (Path.join (get_oci_env_path Sample.ctx) ["profiles"]))
    with (FS.isdir Sample.ctx Sample.after_mkdir "/home/u/oci_env/profiles")
    in Hrun.
  rewrite Hd in Hrun. exact Hrun.
Defined.

(** * Further properties of the program *)

Module EnvFacts.

Lemma lstrip_clean drop s :
  match first_char s with Some c => drop c = false | None => True end ->
  Str.lstrip drop s = s.
Proof. destruct s as [|c s]; simpl; [done|]. by intros ->. Qed.

Lemma rstrip_clean drop s :
  match final_char s with Some c => drop c = false | None => True end ->
  Str.rstrip drop s = s.
Proof.
  induction s as [|c s IH]; [done|]. simpl.
  destruct s as [|c' s'].
  - simpl. by intros ->.
  - intros H. by rewrite (IH H).
Qed.

Lemma rstrip_dropped drop t : all_chars drop t = true -> Str.rstrip drop t = "".
Proof.
  induction t as [|c t IH]; [done|]. simpl.
  intros [Hc Ht]%andb_true_iff. by rewrite (IH Ht), Hc.
Qed.

Lemma rstrip_app drop s t :
  all_chars drop t = true -> Str.rstrip drop (s +:+ t) = Str.rstrip drop s.
Proof.
  intros Ht. induction s as [|c s IH].
  - rewrite sapp_nil_l. by apply rstrip_dropped.
  - rewrite sapp_cons. simpl. by rewrite IH.
Qed.

Lemma strip_clean chars s : clean chars s -> Str.strip_chars chars s = s.
Proof.
  intros [Hf Hl]. unfold Str.strip_chars.
  rewrite lstrip_clean by done. by apply rstrip_clean.
Qed.

(** A value followed by the line feed that ends its line. *)
Lemma strip_value v :
  clean val_chars v -> Str.strip_chars val_chars (v +:+ String nl "") = v.
Proof.
  intros [Hf Hl]. unfold Str.strip_chars.
  assert (Str.lstrip (fun x => Str.contains x val_chars) (v +:+ String nl "")
          = if bool_decide (v = "") then "" else v +:+ String nl "") as ->.
  { destruct v as [|c v]; [done|]. rewrite sapp_cons. simpl in *. by rewrite Hf. }
  case_bool_decide as Hv; [by subst v|].
  rewrite rstrip_app by done. by apply rstrip_clean.
Qed.

Lemma split1_first c k rest :
  Str.contains c k = false -> Str.split1 c (k +:+ String c rest) = [k; rest].
Proof.
  induction k as [|x k IH]; rewrite ?sapp_nil_l, ?sapp_cons; simpl.
  - by rewrite eqc_refl.
  - intros [Hx Hk]%orb_false_iff. by rewrite Hx, (IH Hk).
Qed.

Lemma startswith_app_first p k rest :
  k <> "" -> Str.startswith (String p "") (k +:+ rest)
             = Str.startswith (String p "") k.
Proof. by destruct k. Qed.

Lemma read_env_line_setting kv result :
  setting kv ->
  read_env_line result (kv.1 +:+ "=" +:+ kv.2 +:+ String nl "")
  = Ok (<[kv.1 := kv.2]> result).
Proof.
  destruct kv as [k v]. intros (Heq & _ & Hhash & Hk & _ & Hv). simpl in *.
  unfold read_env_line.
  assert (Str.startswith "#" (k +:+ "=" +:+ v +:+ String nl "") = false) as ->.
  { destruct k as [|c k]; [done|]. by rewrite startswith_app_first. }
  rewrite !StrFacts.contains_app. simpl. rewrite orb_true_r. simpl.
  change ("=" +:+ v +:+ String nl "") with (String "="%char (v +:+ String nl "")).
  rewrite (split1_first _ _ _ Heq).
  by rewrite (strip_clean _ _ Hk), (strip_value _ Hv).
Qed.

Lemma text_cons x l : text (x :: l) = x +:+ String nl (text l).
Proof.
  unfold text. simpl. destruct l as [|y l]; simpl; [done|].
  by rewrite sapp_nil_l, sapp_assoc.
Qed.

Lemma lines_line x rest :
  Str.contains nl x = false ->
  Str.lines (x +:+ String nl rest) = (x +:+ String nl "") :: Str.lines rest.
Proof.
  induction x as [|c x IH]; rewrite ?sapp_nil_l, ?sapp_cons; simpl; [done|].
  intros [Hc Hx]%orb_false_iff. by rewrite Hc, (IH Hx).
Qed.

Lemma lines_text l :
  Forall (fun x => Str.contains nl x = false) l ->
  Str.lines (text l) = (fun x => x +:+ String nl "") <$> l.
Proof.
  induction 1 as [|x l Hx _ IH]; [done|].
  by rewrite text_cons, (lines_line _ _ Hx), IH.
Qed.

Lemma read_env_lines_settings l : forall result,
  Forall setting l ->
  read_env_lines result
    ((fun x => x +:+ String nl "") <$> ((fun kv => kv.1 +:+ "=" +:+ kv.2) <$> l))
  = Ok (foldl (fun m kv => <[kv.1 := kv.2]> m) result l).
Proof.
  induction l as [|kv l IH]; intros result Hl; [done|].
  inversion Hl as [|?? Hkv Hrest]; subst. simpl.
  rewrite !sapp_assoc, (read_env_line_setting _ _ Hkv). simpl. by apply IH.
Qed.

Lemma foldl_insert_map (l : list (string * string)) : forall m : gmap string string,
  foldl (fun m kv => <[kv.1 := kv.2]> m) m l = list_to_map (reverse l) ∪ m.
Proof.
  induction l as [|[k v] l IH]; intros m; simpl.
  - by rewrite (left_id_L ∅ (∪)).
  - rewrite IH, reverse_cons, list_to_map_app. simpl.
    rewrite <- (assoc_L (∪)). f_equal.
    by rewrite <- insert_union_l, (left_id_L ∅ (∪)).
Qed.

End EnvFacts.

(** X1.  Reading back a user file that sets one pair per line, the keys and
    values being such that nothing is stripped from them, gives the mapping
    of the pairs; when a key is set more than once, the last line that sets
    it decides.  The value may hold [=] signs. *)
Theorem read_env_file_round_trip ctx path fs l :
  Forall setting l ->
  FS.read ctx fs path = Ok (env_text l) ->
  read_env_file ctx path fs = (Ok (list_to_map (reverse l)), fs)
  /\ forall before k v after,
       l = before ++ (k, v) :: after -> k ∉ after.*1 ->
       (list_to_map (reverse l) : gmap string string) !! k = Some v.
Proof.
  intros Hl Hread. split.
  - unfold read_env_file, except_FileNotFoundError, mbind, M_bind, lift.
    rewrite Hread. unfold env_text. rewrite EnvFacts.lines_text.
    + rewrite (EnvFacts.read_env_lines_settings _ _ Hl).
      by rewrite EnvFacts.foldl_insert_map, (right_id_L ∅ (∪)).
    + apply Forall_fmap. eapply Forall_impl; [exact Hl|].
      intros [k v] (_ & Hk & _ & _ & Hv & _). simpl in *.
      rewrite !StrFacts.contains_app, Hk, Hv. done.
  - intros before k v after -> Hk.
    rewrite reverse_app, reverse_cons, <- app_assoc, list_to_map_app.
    rewrite lookup_union_r.
    + simpl. apply lookup_insert_eq.
    + apply not_elem_of_list_to_map_1. by rewrite fmap_reverse, elem_of_reverse.
Qed.

Lemma read_env_file_round_trip_witness :
  Forall setting Demo.pairs
  /\ FS.read Sample.ctx Demo.settings "/etc/env" = Ok (env_text Demo.pairs)
  /\ fst (read_env_file Sample.ctx "/etc/env" Demo.settings)
     = Ok (list_to_map (reverse Demo.pairs))
  /\ (list_to_map (reverse Demo.pairs) : gmap string string) !! "API_PORT"
     = Some "9090"
  /\ (list_to_map (reverse Demo.pairs) : gmap string string) !! "NAME"
     = Some "a=b".
Proof.
  assert (Forall setting Demo.pairs) as Hl
      by (repeat constructor).
  assert (FS.read Sample.ctx Demo.settings "/etc/env" = Ok (env_text Demo.pairs))
    as Hread by evaluate.
  destruct (read_env_file_round_trip Sample.ctx "/etc/env" Demo.settings
              Demo.pairs Hl Hread) as [Hrun Hlast].
  split; [exact Hl|]. split; [exact Hread|]. split; [by rewrite Hrun|]. split.
  - apply (Hlast [("API_PORT", "8080"); ("NAME", "a=b")] "API_PORT" "9090" []
             eq_refl).
    apply not_elem_of_nil.
  - apply (Hlast [("API_PORT", "8080")] "NAME" "a=b" [("API_PORT", "9090")]
             eq_refl).
    intros [=]%list_elem_of_singleton.
Defined.

Module ConfigFacts.

Lemma read_env_file_unreadable ctx path fs e :
  FS.read ctx fs path = Raise e ->
  read_env_file ctx path fs = (unreadable path e, fs).
Proof.
  intros Hread.
  unfold read_env_file, except_FileNotFoundError, mbind, M_bind, lift, print_exit, lift.
  rewrite Hread. by destruct e.
Qed.

Lemma read_env_file_fs ctx path fs r fs' :
  read_env_file ctx path fs = (r, fs') -> fs' = fs.
Proof.
  unfold read_env_file, except_FileNotFoundError, mbind, M_bind, lift, print_exit, lift.
  destruct (FS.read ctx fs path) as [f| |e|]; try by intros [= _ <-].
  - destruct (read_env_lines ∅ (Str.lines f)) as [| |e|]; try by intros [= _ <-].
    by destruct e; intros [= _ <-].
  - by destruct e; intros [= _ <-].
Qed.

Lemma constant_vals_dom path :
  dom (constant_vals path) = list_to_set constant_keys.
Proof.
  unfold constant_vals. by rewrite !dom_insert_L, dom_empty_L.
Qed.

Lemma config_defaults_dom path :
  dom (config_defaults path) = list_to_set default_keys.
Proof. unfold config_defaults. by rewrite dom_list_to_map_L. Qed.

Lemma config_defaults_project path :
  config_defaults path !! "COMPOSE_PROJECT_NAME"
  = Some (default "" (constant_vals path !! "OCI_ENV_DIRECTORY")).
Proof.
  unfold config_defaults. apply elem_of_list_to_map_1.
  - apply (bool_decide_unpack _). by vm_compute.
  - do 7 (apply elem_of_cons; right). apply elem_of_cons. by left.
Qed.

Lemma get_config_inv ctx fs config fs' :
  get_config ctx fs = (Ok config, fs') ->
  let path := get_oci_env_path ctx in
  exists user,
    read_env_file ctx (Path.join path [".compose.env"]) fs = (Ok user, fs)
    /\ fs' = fs
    /\ config = dict_merge3 (config_defaults path) user (constant_vals path).
Proof.
  intros Hrun path. unfold get_config, mbind, M_bind in Hrun. fold path in Hrun.
  destruct (read_env_file ctx (Path.join path [".compose.env"]) fs)
    as [[user| | |] fs1] eqn:Hread; try discriminate.
  unfold mret, M_ret in Hrun. injection Hrun as <- <-.
  apply read_env_file_fs in Hread as Hfs. subst fs1. by exists user.
Qed.

Lemma get_config_dom ctx fs config fs' :
  get_config ctx fs = (Ok config, fs') ->
  forall key, key ∈ constant_keys ++ default_keys -> is_Some (config !! key).
Proof.
  intros (user & _ & _ & ->)%get_config_inv key Hkey.
  apply elem_of_dom. unfold dict_merge3.
  rewrite !dom_union_L, constant_vals_dom, config_defaults_dom.
  rewrite !elem_of_union, !elem_of_list_to_set.
  apply elem_of_app in Hkey as [Hkey|Hkey]; auto.
Qed.

End ConfigFacts.

(** X2.  When opening the user file fails, [get_config] leaves the file
    tree as it is and ends as [read_env_file] does: with the message that
    names the file and exit status 1 for [FileNotFoundError], with the
    exception itself for any other; the constructor of [Compose] ends the
    same way, before [.compiled] is created. *)
Theorem get_config_unreadable ctx fs e is_verbose :
  let file := Path.join (get_oci_env_path ctx) [".compose.env"] in
  FS.read ctx fs file = Raise e ->
  get_config ctx fs = (unreadable file e, fs)
  /\ Compose.__init__ ctx is_verbose fs = (unreadable file e, fs)
  /\ (e = FileNotFoundError ->
      get_config ctx fs
      = (Exit 1 ("No .compose.env file found in " +:+ file +:+ "."), fs)).
Proof.
  intros file Hread.
  assert (get_config ctx fs = (unreadable file e, fs)) as Hconfig.
  { unfold get_config, mbind, M_bind. fold file.
    rewrite (ConfigFacts.read_env_file_unreadable _ _ _ _ Hread). by destruct e. }
  split; [done|]. split.
  - unfold Compose.__init__, mbind, M_bind. rewrite Hconfig. by destruct e.
  - intros ->. by rewrite Hconfig.
Qed.

Lemma get_config_unreadable_witness :
  FS.read Sample.ctx Demo.bare "/home/u/oci_env/.compose.env"
  = Raise FileNotFoundError
  /\ get_config Sample.ctx Demo.bare
     = (Exit 1 "No .compose.env file found in /home/u/oci_env/.compose.env.",
        Demo.bare)
  /\ Compose.__init__ Sample.ctx true Demo.bare
     = (Exit 1 "No .compose.env file found in /home/u/oci_env/.compose.env.",
        Demo.bare).
Proof.
  assert (FS.read Sample.ctx Demo.bare
            (Path.join (get_oci_env_path Sample.ctx) [".compose.env"])
          = Raise FileNotFoundError) as Hread by evaluate.
  destruct (get_config_unreadable Sample.ctx Demo.bare FileNotFoundError true Hread)
    as (Hconfig & Hinit & _).
  split; [exact Hread|]. split; [exact Hconfig|exact Hinit].
Defined.

(** X3.  The mapping that [get_config] returns defines the two computed
    keys, the seventeen keys with a default and the keys of the user file,
    and no others; reading it leaves the file tree as it is.  The project
    name [COMPOSE_PROJECT_NAME] is the own directory name
    [OCI_ENV_DIRECTORY] unless the user file sets it. *)
Theorem get_config_keys ctx fs config fs' :
  get_config ctx fs = (Ok config, fs') ->
  let path := get_oci_env_path ctx in
  exists user oci_dir,
    read_env_file ctx (Path.join path [".compose.env"]) fs = (Ok user, fs)
    /\ fs' = fs
    /\ dom config = list_to_set (constant_keys ++ default_keys) ∪ dom user
    /\ (forall key, key ∈ constant_keys ++ default_keys -> is_Some (config !! key))
    /\ config !! "OCI_ENV_DIRECTORY" = Some oci_dir
    /\ config !! "COMPOSE_PROJECT_NAME"
       = Some (default oci_dir (user !! "COMPOSE_PROJECT_NAME")).
Proof.
  intros Hrun path.
  pose proof (ConfigFacts.get_config_dom _ _ _ _ Hrun) as Hdom.
  destruct (ConfigFacts.get_config_inv _ _ _ _ Hrun) as (user & Hread & -> & ->).
  fold path in Hread |- *.
  destruct (constant_vals_directory path) as (oci_dir & Hdir & _).
  exists user, oci_dir. split; [done|]. split; [done|]. split; [|split; [done|split]].
  - unfold dict_merge3.
    rewrite !dom_union_L, ConfigFacts.constant_vals_dom, ConfigFacts.config_defaults_dom.
    rewrite list_to_set_app_L.
    by rewrite <- !(assoc_L (∪)), (comm_L (∪) (dom user)).
  - unfold dict_merge3. by apply lookup_union_Some_l.
  - unfold dict_merge3. rewrite lookup_union_r.
    + rewrite lookup_union, ConfigFacts.config_defaults_project, Hdir. simpl.
      by destruct (user !! "COMPOSE_PROJECT_NAME").
    + unfold constant_vals. by rewrite !lookup_insert_ne, lookup_empty.
Qed.

Lemma get_config_keys_witness :
  get_config Sample.ctx Sample.disk
  = (Ok Sample.config, snd (get_config Sample.ctx Sample.disk))
  /\ Sample.config !! "COMPOSE_PROJECT_NAME" = Some "oci_env"
  /\ exists (user : gmap string string) oci_dir,
       dom Sample.config = list_to_set (constant_keys ++ default_keys) ∪ dom user
       /\ Sample.config !! "OCI_ENV_DIRECTORY" = Some oci_dir
       /\ Sample.config !! "COMPOSE_PROJECT_NAME"
          = Some (default oci_dir (user !! "COMPOSE_PROJECT_NAME")).
Proof.
  assert (is_ok (fst (get_config Sample.ctx Sample.disk)) = true) as Hok
      by evaluate.
  pose proof (ok_result (get_config Sample.ctx) Sample.disk ∅ Hok) as H.
  split; [exact H|]. split; [evaluate|].
  destruct (get_config_keys Sample.ctx Sample.disk _ _ H)
    as (user & oci_dir & _ & _ & Hdom & _ & Hdir & Hname).
  exists user, oci_dir. split; [exact Hdom|]. split; [exact Hdir|exact Hname].
Defined.

Module NameFacts.

Lemma eqc_sym a b : eqc a b = eqc b a.
Proof.
  destruct (eqc b a) eqn:E.
  - apply eqc_true in E as ->. apply eqc_refl.
  - apply eqc_false. apply eqc_false in E. congruence.
Qed.

Lemma all_chars_ext p q s :
  (forall c, p c = q c) -> all_chars p s = all_chars q s.
Proof. intros H. induction s as [|c s IH]; [done|]. simpl. by rewrite H, IH. Qed.

Lemma all_chars_app p s t :
  all_chars p (s +:+ t) = all_chars p s && all_chars p t.
Proof.
  induction s as [|c s IH]; [done|]. rewrite sapp_cons. simpl.
  by rewrite IH, andb_assoc.
Qed.

Lemma lstrip_dropped drop s : all_chars drop s = true -> Str.lstrip drop s = "".
Proof.
  induction s as [|c s IH]; [done|]. simpl.
  intros [Hc Hs]%andb_true_iff. rewrite Hc. by apply IH.
Qed.

Lemma endswith_final c s : Str.endswith c s = true -> final_char s = Some c.
Proof.
  induction s as [|x s IH]; [done|]. simpl. destruct s as [|y s].
  - by intros ->%eqc_true.
  - apply IH.
Qed.

Lemma in_slash c : Str.contains c "/" = eqc c slash.
Proof. simpl. by rewrite orb_false_r, eqc_sym. Qed.

(** Stripping the slashes leaves nothing exactly when there are only
    slashes. *)
Lemma strip_slashes_empty path :
  Str.strip_chars "/" path = "" <-> all_chars (fun c => eqc c slash) path = true.
Proof.
  rewrite <- (all_chars_ext (fun c => Str.contains c "/")) by apply in_slash.
  split.
  - intros He. destruct (strip_spec (fun c => Str.contains c "/") path)
      as (l & t & Hp & Hl & Ht & _).
    fold (Str.strip_chars "/" path) in Hp. rewrite He, sapp_nil_l in Hp.
    by rewrite Hp, all_chars_app, Hl, Ht.
  - intros Hall. unfold Str.strip_chars. by rewrite (lstrip_dropped _ _ Hall).
Qed.

Lemma last_segment_empty path : last_segment path "" -> Str.strip_chars "/" path = "".
Proof.
  intros (_ & pre & Hp & Hpre). rewrite sapp_nil_r in Hp.
  destruct Hpre as [->|He]; [done|]. rewrite <- Hp in He.
  apply endswith_final in He.
  destruct (StrFacts.rstrip_spec (fun c => Str.contains c "/")
              (Str.lstrip (fun c => Str.contains c "/") path)) as (t & _ & _ & Hf & _).
  fold (Str.strip_chars "/" path) in Hf. by rewrite He in Hf.
Qed.

Lemma directory_empty path :
  constant_vals path !! "OCI_ENV_DIRECTORY" = Some ""
  <-> all_chars (fun c => eqc c slash) path = true.
Proof.
  rewrite <- strip_slashes_empty. split.
  - intros He. destruct (constant_vals_directory path) as (seg & Hseg & Hlast).
    rewrite He in Hseg. injection Hseg as <-. by apply last_segment_empty.
  - intros He. unfold constant_vals. by rewrite lookup_insert_eq, He.
Qed.

End NameFacts.

(** X4.  The own directory name [OCI_ENV_DIRECTORY] that [get_config]
    computes is empty exactly when the base directory has no character
    other than the slash, as for [/]; the project name is then empty as
    well, unless the user file sets it. *)
Theorem directory_name_empty ctx fs config fs' :
  get_config ctx fs = (Ok config, fs') ->
  let path := get_oci_env_path ctx in
  (config !! "OCI_ENV_DIRECTORY" = Some ""
   <-> all_chars (fun c => eqc c slash) path = true)
  /\ forall user,
       read_env_file ctx (Path.join path [".compose.env"]) fs = (Ok user, fs) ->
       user !! "COMPOSE_PROJECT_NAME" = None ->
       all_chars (fun c => eqc c slash) path = true ->
       config !! "COMPOSE_PROJECT_NAME" = Some "".
Proof.
  intros (user & Hread & _ & ->)%ConfigFacts.get_config_inv path. fold path in Hread.
  split.
  - rewrite <- NameFacts.directory_empty. unfold dict_merge3.
    destruct (constant_vals_directory path) as (seg & Hseg & _).
    rewrite (lookup_union_Some_l _ _ _ _ Hseg), Hseg. done.
  - intros user' Hread' Hnone Hall%NameFacts.directory_empty.
    assert (user' = user) as -> by congruence.
    fold path. unfold dict_merge3. rewrite lookup_union_r.
    + rewrite lookup_union, Hnone, ConfigFacts.config_defaults_project, Hall. done.
    + unfold constant_vals. by rewrite !lookup_insert_ne, lookup_empty.
Qed.

Lemma directory_name_empty_witness :
  get_config Sample.ctx Sample.disk
  = (Ok Sample.config, snd (get_config Sample.ctx Sample.disk))
  /\ all_chars (fun c => eqc c slash) "/home/u/oci_env" = false
  /\ Sample.config !! "OCI_ENV_DIRECTORY" <> Some "".
Proof.
  assert (is_ok (fst (get_config Sample.ctx Sample.disk)) = true) as Hok
      by evaluate.
  pose proof (ok_result (get_config Sample.ctx) Sample.disk ∅ Hok) as H.
  split; [exact H|]. split; [reflexivity|].
  destruct (directory_name_empty Sample.ctx Sample.disk _ _ H) as [Hiff _].
  intros Hempty. apply Hiff in Hempty. discriminate Hempty.
Defined.

Module PlanFacts.
Import FS.

Lemma plans_ext config cp ctx a b ps : forall bufs,
  Forall (fun q => profile_inputs ctx b q = profile_inputs ctx a q) ps ->
  plans config cp ctx b ps bufs = plans config cp ctx a ps bufs.
Proof.
  induction ps as [|p ps IH]; intros bufs Hps; [done|].
  inversion Hps as [|?? Hp Hrest]; subst. simpl. rewrite Hp.
  destruct (plan config cp (profile_inputs ctx a p) bufs p) as [x| | |]; simpl; auto.
Qed.

(** The loop computes what the rounds compute from the tree it starts on. *)
Lemma compile_loop_plans ctx config cp ps : forall b fs b' fs',
  isdir ctx fs cp = true ->
  Forall (verified ctx fs) (tail ps) ->
  compile_loop ctx config cp ps b fs = (Ok b', fs') ->
  plans config cp ctx fs ps b = Ok b'.
Proof.
  induction ps as [|p ps IH]; intros b fs b' fs' Hcp Hv; simpl.
  - by intros [= <- _].
  - unfold mbind at 1, M_bind.
    destruct (compile_profile ctx config cp b p fs) as [[b1| | |] fs1] eqn:Hp;
      try done.
    intros Hloop. simpl in Hv.
    pose proof (FrameFacts.compile_profile_frame _ _ _ _ _ _ _ _ Hcp Hp) as [Hsame Hin].
    assert (isdir ctx fs1 cp = true) as Hcp1
        by (by rewrite <- (FSFacts.isdir_same _ _ _ _ Hsame)).
    assert (Forall (verified ctx fs1) ps) as Hv1.
    { eapply Forall_impl; [done|]. intros q. by apply FrameFacts.verified_same. }
    assert (plans config cp ctx fs1 ps b1 = Ok b') as Hrest.
    { eapply IH; [done| |done]. destruct ps; [constructor|]. by inversion Hv1. }
    rewrite (plans_ext config cp ctx fs fs1 ps b1) in Hrest
      by (eapply Forall_impl; [exact Hv|]; intros q Hq; by apply Hin).
    rewrite CompileFacts.compile_profile_plan in Hp.
    unfold mbind, M_bind, lift in Hp.
    destruct (plan config cp (profile_inputs ctx fs p) b p) as [[b2 w]| | |] eqn:Hplan;
      try done.
    cbn [fst snd] in Hp.
    destruct (commit ctx w fs) as [[[]| | |] fs2]; try done.
    unfold mret, M_ret in Hp. injection Hp as -> ->. done.
Qed.

(** What a round adds to the buffers, and what it writes. *)
Lemma plan_buffers config cp i b p b' w :
  plan config cp i b p = Ok (b', w) ->
  init_script b'
  = init_script b
      ++ (if has_init i
          then ["bash " +:+ Path.join (Profile.container_path p) ["init.sh"]]
          else [])
  /\ compose_files b'
     = compose_files b
         ++ (if is_ok (compose_read i) then [Path.join cp [compose_name p]] else [])
  /\ match compose_read i with
     | Ok data => exists out, Format.format config data = Ok out
                              /\ w = Some (Path.join cp [compose_name p], out)
     | _ => w = None
     end.
Proof.
  unfold plan, mbind, outcome_bind.
  destruct (env_stage _ _ _ _) as [eo| | |]; try done.
  unfold compose_stage.
  destruct (compose_read i) as [data| |e|]; try done.
  - destruct (Format.format config data) as [out| |e|] eqn:Hf; simpl; try done;
      [|by destruct e].
    intros [= <- <-]. simpl. split; [by destruct (has_init i); rewrite ?app_nil_r|].
    split; [done|]. by exists out.
  - destruct e; try done. intros [= <- <-]. simpl.
    split; [by destruct (has_init i); rewrite ?app_nil_r|].
    split; [by rewrite app_nil_r|done].
Qed.

Lemma plans_buffers config ctx fs ps : forall b b',
  plans config (compiled_path ctx) ctx fs ps b = Ok b' ->
  init_script b' = init_script b ++ init_lines ctx fs ps
  /\ compose_files b' = compose_files b ++ compiled_list ctx fs ps.
Proof.
  induction ps as [|p ps IH]; intros b b'; simpl.
  - intros [= <-]. by rewrite !app_nil_r.
  - unfold mbind, outcome_bind.
    destruct (plan config (compiled_path ctx) (profile_inputs ctx fs p) b p)
      as [[b1 w]| | |] eqn:Hplan; try done.
    cbn [fst]. intros [Hi Hc]%IH.
    apply plan_buffers in Hplan as (Hi1 & Hc1 & _).
    cbn [has_init compose_read profile_inputs] in Hi1, Hc1.
    rewrite Hi, Hc, Hi1, Hc1, <- !app_assoc. done.
Qed.

(** A run that returns, step by step. *)
Lemma parse_profiles_ok ctx config fs files fs' :
  parse_profiles ctx config fs = (Ok files, fs') ->
  exists ps fs1 b fs2 fs3,
    resolve_profiles ctx config fs = (Ok ps, fs1)
    /\ isdir ctx fs1 (compiled_path ctx) = true
    /\ Forall (verified ctx fs1) (tail ps)
    /\ compile_loop ctx config (compiled_path ctx) ps empty_buffers fs1 = (Ok b, fs2)
    /\ write ctx (Path.join (compiled_path ctx) ["init.sh"])
         (Str.join (String nl "") (init_script b)) fs2 = (Ok tt, fs3)
    /\ write ctx (Path.join (compiled_path ctx) ["combined.env"])
         (Str.join (String nl "") (env_output b)) fs3 = (Ok tt, fs')
    /\ files = compose_files b.
Proof.
  intros Hrun. unfold parse_profiles, mbind, M_bind in Hrun.
  destruct (resolve_profiles ctx config fs) as [[ps| | |] fs1] eqn:Hres; try done.
  destruct (RunFacts.resolve_profiles_ready _ _ _ _ _ Hres) as [Hcp Hv].
  unfold compile_profiles, mbind, M_bind in Hrun.
  fold (compiled_path ctx) empty_buffers in Hrun.
  destruct (compile_loop ctx config (compiled_path ctx) ps _ fs1)
    as [[b| | |] fs2] eqn:Hloop; try done.
  destruct (write ctx (Path.join (compiled_path ctx) ["init.sh"]) _ fs2)
    as [[[]| | |] fs3] eqn:Hw1; try done.
  destruct (write ctx (Path.join (compiled_path ctx) ["combined.env"]) _ fs3)
    as [[[]| | |] fs4] eqn:Hw2; try done.
  injection Hrun as <- <-. by exists ps, fs1, b, fs2, fs3.
Qed.

End PlanFacts.

(** X5.  When [parse_profiles] returns, [.compiled/init.sh] holds, joined by
    line feeds, the five lines of the banner followed by one line
    [bash <container path>/init.sh] for each resolved profile, in
    resolution order, whose directory has a file [init.sh]. *)
Theorem init_script_contents ctx config fs files fs' :
  parse_profiles ctx config fs = (Ok files, fs') ->
  exists ps fs1,
    resolve_profiles ctx config fs = (Ok ps, fs1)
    /\ FS.read ctx fs' (Path.join (compiled_path ctx) ["init.sh"])
       = Ok (Str.join (String nl "") (init_banner ++ init_lines ctx fs1 ps)).
Proof.
  intros (ps & fs1 & b & fs2 & fs3 & Hres & Hcp & Hv & Hloop & Hw1 & Hw2 & _)
    %PlanFacts.parse_profiles_ok.
  exists ps, fs1. split; [done|].
  pose proof (PlanFacts.compile_loop_plans _ _ _ _ _ _ _ _ Hcp Hv Hloop) as Hplans.
  apply PlanFacts.plans_buffers in Hplans as [Hinit _]. simpl in Hinit.
  pose proof (FrameFacts.compile_loop_frame _ _ _ _ _ _ _ _ Hcp Hloop) as [Hsame _].
  assert (FS.isdir ctx fs2 (compiled_path ctx) = true) as Hcp2
      by (by rewrite <- (FSFacts.isdir_same _ _ _ _ Hsame)).
  destruct (LoopFacts.write_read _ _ _ _ _ _ Hcp2 RunFacts.regular_init Hw1)
    as [Hread Hsame3].
  assert (FS.isdir ctx fs3 (compiled_path ctx) = true) as Hcp3
      by (by rewrite <- (FSFacts.isdir_same _ _ _ _ Hsame3)).
  destruct (FrameFacts.isdir_found _ _ _ Hcp3) as (d & Hd & _).
  destruct (TouchFacts.write_only _ _ _ _ _ _ _ _ Hcp3 RunFacts.regular_combined Hd Hw2)
    as [Honly _].
  destruct (TouchFacts.only_files_read ctx (compiled_path ctx) _ d "init.sh" fs3 fs'
              Hcp3 Hd RunFacts.regular_init Honly) as [-> _]; [done|].
  by rewrite Hread, Hinit.
Qed.

Lemma init_script_contents_witness :
  fst Sample.first_run = Ok Sample.compiled_files
  /\ FS.read Sample.ctx (snd Sample.first_run) "/home/u/oci_env/.compiled/init.sh"
     = Ok (Str.join (String nl "")
             (init_banner ++ [ "bash /src/oci_env/base/init.sh";
                               "bash /src/galaxy/profiles/dev/init.sh" ]))
  /\ exists ps fs1,
       resolve_profiles Sample.ctx Sample.config Sample.disk = (Ok ps, fs1)
       /\ FS.read Sample.ctx (snd Sample.first_run)
            (Path.join (compiled_path Sample.ctx) ["init.sh"])
          = Ok (Str.join (String nl "")
                  (init_banner ++ init_lines Sample.ctx fs1 ps)).
Proof.
  assert (fst Sample.first_run = Ok Sample.compiled_files) as Hfiles
      by evaluate.
  split; [exact Hfiles|]. split; [evaluate|].
  exact (init_script_contents Sample.ctx Sample.config Sample.disk _ _
           (run_result _ _ _ Hfiles)).
Defined.

(** X6.  The list that [parse_profiles] returns holds, in resolution order
    and with repetitions, the compiled file of each resolved profile whose
    directory has a readable [compose.yaml], and nothing else. *)
Theorem returned_compose_files ctx config fs files fs' :
  parse_profiles ctx config fs = (Ok files, fs') ->
  exists ps fs1,
    resolve_profiles ctx config fs = (Ok ps, fs1)
    /\ files = compiled_list ctx fs1 ps.
Proof.
  intros (ps & fs1 & b & fs2 & fs3 & Hres & Hcp & Hv & Hloop & _ & _ & ->)
    %PlanFacts.parse_profiles_ok.
  exists ps, fs1. split; [done|].
  pose proof (PlanFacts.compile_loop_plans _ _ _ _ _ _ _ _ Hcp Hv Hloop) as Hplans.
  by apply PlanFacts.plans_buffers in Hplans as [_ Hfiles].
Qed.

Lemma returned_compose_files_witness :
  fst Sample.first_run = Ok Sample.compiled_files
  /\ exists ps fs1,
       resolve_profiles Sample.ctx Sample.config Sample.disk = (Ok ps, fs1)
       /\ Sample.compiled_files = compiled_list Sample.ctx fs1 ps.
Proof.
  assert (fst Sample.first_run = Ok Sample.compiled_files) as Hfiles
      by evaluate.
  split; [exact Hfiles|].
  exact (returned_compose_files Sample.ctx Sample.config Sample.disk _ _
           (run_result _ _ _ Hfiles)).
Defined.

(** X7.  A run of [parse_profiles], however it ends, removes nothing, keeps
    every directory a directory and every file a file, and creates or
    changes only the directory [.compiled], when it was absent, and files
    directly in it that are named [init.sh], [combined.env] or end in
    [_compose.yaml].  So no [.compose.env], [compose.yaml] or
    [pulp_config.env] is ever written. *)
Theorem parse_profiles_writes_only_compiled ctx config fs r fs' :
  parse_profiles ctx config fs = (r, fs') ->
  (forall k, fs !! k = Some Dir -> fs' !! k = Some Dir)
  /\ (forall k c, fs !! k = Some (File c) -> exists c', fs' !! k = Some (File c'))
  /\ forall k, fs' !! k <> fs !! k ->
       exists d, FS.resolve ctx fs (compiled_path ctx) = FS.Found d
         /\ (k = d /\ fs !! k = None /\ fs' !! k = Some Dir
             \/ exists n c, k = d ++ [n] /\ output_name n
                            /\ fs' !! k = Some (File c)).
Proof.
  intros Hrun. unfold parse_profiles, mbind, M_bind in Hrun.
  destruct (resolve_profiles ctx config fs) as [r1 fs1] eqn:Hres.
  assert ((exists d, FS.resolve ctx fs1 (compiled_path ctx) = FS.Found d
                     /\ only_files output_name d fs1 fs')
          \/ fs' = fs1) as Hsecond.
  { destruct r1 as [ps| | |]; try (injection Hrun as _ <-; by right).
    destruct (RunFacts.resolve_profiles_ready _ _ _ _ _ Hres) as [Hcp _].
    destruct (FrameFacts.isdir_found _ _ _ Hcp) as (d & Hd & _).
    left. exists d. split; [done|].
    destruct (OutputFacts.compile_profiles_cases _ _ _ _ _ _ _ Hcp Hd Hrun)
      as (fs2 & H2 & [[-> _]|(b & fs3 & _ & H3 & H4 & _)]).
    - eapply TouchFacts.only_files_weaken; [|exact H2].
      apply OutputFacts.compose_name_output.
    - eapply TouchFacts.only_files_trans; [|eapply TouchFacts.only_files_trans].
      + eapply TouchFacts.only_files_weaken; [|exact H2].
        apply OutputFacts.compose_name_output.
      + eapply TouchFacts.only_files_weaken; [|exact H3]. intros n ->. by left.
      + eapply TouchFacts.only_files_weaken; [|exact H4]. intros n ->. right. by left. }
  destruct (OutputFacts.resolve_profiles_tree _ _ _ _ _ Hres)
    as [->|(d & Hd & Hnone & ->)].
  - destruct Hsecond as [(d & Hd & Honly)| ->].
    2:{ split; [done|]. split; [by eauto|]. intros k Hk. by destruct Hk. }
    split; [|split].
    + intros k Hk. destruct (Honly k) as [->|(n & c & _ & _ & _ & Hnd)]; done.
    + intros k c Hk. destruct (Honly k) as [->|(n & c' & _ & _ & Hc & _)]; eauto.
    + intros k Hk. exists d. split; [done|]. right.
      destruct (Honly k) as [?|(n & c & -> & Hn & Hc & _)]; [done|]. by exists n, c.
  - assert (d <> []) as Hne by (by intros ->).
    assert (fs !! d = None) as Hfsd by (by destruct d).
    assert (sub_dirs fs (<[d := Dir]> fs)) as Hsub.
    { intros j Hj. rewrite lookup_insert_ne; [done|congruence]. }
    pose proof (FSFacts.resolve_found_mono _ _ _ _ _ Hsub Hd) as Hd1.
    assert (only_files output_name d (<[d := Dir]> fs) fs') as Honly.
    { destruct Hsecond as [(d' & Hd' & Honly)| ->];
        [|apply TouchFacts.only_files_refl].
      by assert (d' = d) as -> by congruence. }
    assert (fs' !! d = Some Dir) as Hd'.
    { destruct (Honly d) as [->|(n & c & Hk & _)]; [apply lookup_insert_eq|].
      apply (f_equal length) in Hk. rewrite length_app in Hk. simpl in Hk. lia. }
    split; [|split].
    + intros k Hk. assert (k <> d) as Hkd by congruence.
      destruct (Honly k) as [->|(n & c & _ & _ & _ & Hnd)].
      * by rewrite lookup_insert_ne.
      * by rewrite lookup_insert_ne in Hnd.
    + intros k c Hk. assert (k <> d) as Hkd by congruence.
      destruct (Honly k) as [->|(n & c' & _ & _ & Hc & _)]; [|eauto].
      rewrite lookup_insert_ne by done. eauto.
    + intros k Hk. exists d. split; [done|].
      destruct (decide (k = d)) as [->|Hkd]; [by left|]. right.
      destruct (Honly k) as [Heq|(n & c & -> & Hn & Hc & _)]; [|by exists n, c].
      rewrite lookup_insert_ne in Heq by done. done.
Qed.

Lemma parse_profiles_writes_only_compiled_witness :
  Sample.disk !! ["home"; "u"; "oci_env"; ".compose.env"]
  = Some (File Sample.user_file)
  /\ snd Sample.first_run !! ["home"; "u"; "oci_env"; ".compose.env"]
     = Some (File Sample.user_file)
  /\ forall k c,
       Sample.disk !! k = Some (File c) ->
       exists c', snd Sample.first_run !! k = Some (File c').
Proof.
  split; [evaluate|]. split; [evaluate|].
  exact (proj1 (proj2 (parse_profiles_writes_only_compiled Sample.ctx Sample.config
                         Sample.disk (fst Sample.first_run) (snd Sample.first_run)
                         (run_result _ _ _ eq_refl)))).
Defined.

Module ContentFacts.
Import FS.

Lemma compose_name_differs (q : Profile.t) n :
  has_suffix "_compose.yaml" n = false -> n <> compose_name q.
Proof.
  intros Hn ->. destruct (FrameFacts.compose_name_regular q) as [_ Hs]. congruence.
Qed.

(** The round of a profile with a [compose.yaml] leaves the substituted
    text in the compiled file. *)
Lemma compile_profile_written ctx config cp b p fs b' fs' d data :
  isdir ctx fs cp = true -> resolve ctx fs cp = Found d ->
  read ctx fs (compose_file p) = Ok data ->
  compile_profile ctx config cp b p fs = (Ok b', fs') ->
  exists out, Format.format config data = Ok out
              /\ fs' !! (d ++ [compose_name p]) = Some (File out).
Proof.
  intros Hcp Hd Hread. rewrite CompileFacts.compile_profile_plan.
  unfold mbind, M_bind, lift.
  destruct (plan config cp (profile_inputs ctx fs p) b p) as [[b1 w]| | |] eqn:Hplan;
    try done.
  apply PlanFacts.plan_buffers in Hplan as (_ & _ & Hw).
  cbn [compose_read profile_inputs] in Hw. rewrite Hread in Hw.
  destruct Hw as (out & Hout & ->). cbn [fst snd].
  unfold commit, except_FileNotFoundError.
  destruct (write ctx (Path.join cp [compose_name p]) out fs) as [r0 fs0] eqn:Hw.
  destruct (FrameFacts.compose_name_regular p) as [Hreg _].
  destruct (OutputFacts.write_cases _ _ _ _ _ _ _ _ Hcp Hreg Hd Hw)
    as [_ [[-> Hfile]|[-> ->]]]; [|done].
  unfold mret, M_ret. intros [= _ <-]. by exists out.
Qed.

Lemma read_written ctx fs cp d n out :
  isdir ctx fs cp = true -> resolve ctx fs cp = Found d -> regular n ->
  fs !! (d ++ [n]) = Some (File out) ->
  read ctx fs (Path.join cp [n]) = Ok out.
Proof.
  intros Hcp Hd Hn Hfile.
  destruct (FrameFacts.read_child ctx fs cp n Hcp Hn) as (e & He & _ & -> & _).
  assert (e = d) as -> by congruence. by rewrite Hfile.
Qed.

End ContentFacts.

(** X8.  When [parse_profiles] returns, the compiled file of a resolved
    profile whose directory has a [compose.yaml] holds the text of that
    file with the configuration substituted, and is among the files
    returned, provided that no profile later in the resolution order has a
    compiled file of the same name. *)
Theorem compiled_compose_contents ctx config fs files fs' fs1 before p after data :
  parse_profiles ctx config fs = (Ok files, fs') ->
  resolve_profiles ctx config fs = (Ok (before ++ p :: after), fs1) ->
  FS.read ctx fs1 (compose_file p) = Ok data ->
  Forall (fun q => compose_name q <> compose_name p) after ->
  exists out,
    Format.format config data = Ok out
    /\ FS.read ctx fs' (Path.join (compiled_path ctx) [compose_name p]) = Ok out
    /\ Path.join (compiled_path ctx) [compose_name p] ∈ files.
Proof.
  intros Hrun Hres Hdata Hafter.
  destruct (PlanFacts.parse_profiles_ok _ _ _ _ _ Hrun)
    as (ps & fs1' & b & fs2 & fs3 & Hres' & Hcp & Hv & Hloop & Hw1 & Hw2 & ->).
  rewrite Hres in Hres'. injection Hres' as <- <-.
  set (cp := compiled_path ctx) in *.
  destruct (FrameFacts.isdir_found _ _ _ Hcp) as (d & Hd & _).
  destruct (FrameFacts.compose_name_regular p) as [Hreg Hsuf].
  (* the rounds before [p] *)
  pose proof Hloop as Hsplit. rewrite LoopFacts.compile_loop_app in Hsplit.
  unfold mbind at 1, M_bind in Hsplit.
  destruct (compile_loop ctx config cp before empty_buffers fs1)
    as [[ba| | |] fsa] eqn:Hbefore; try done.
  simpl in Hsplit. unfold mbind at 1, M_bind in Hsplit.
  destruct (compile_profile ctx config cp ba p fsa) as [[bp| | |] fsp] eqn:Hp;
    try done.
  pose proof (FrameFacts.compile_loop_frame _ _ _ _ _ _ _ _ Hcp Hbefore)
    as [Hsame_a Hin_a].
  assert (FS.isdir ctx fsa cp = true) as Hcpa
      by (by rewrite <- (FSFacts.isdir_same _ _ _ _ Hsame_a)).
  pose proof (TouchFacts.resolve_same _ _ _ _ _ Hsame_a Hd) as Hda.
  assert (FS.read ctx fsa (compose_file p) = Ok data) as Hdata_a.
  { destruct before as [|q before].
    - simpl in Hbefore. by injection Hbefore as _ <-.
    - simpl in Hv. apply Forall_app in Hv as [_ Hv].
      apply Forall_cons in Hv as [Hvp _].
      rewrite <- Hdata. exact (f_equal compose_read (Hin_a p Hvp)). }
  destruct (ContentFacts.compile_profile_written _ _ _ _ _ _ _ _ _ _
              Hcpa Hda Hdata_a Hp) as (out & Hout & Hfile).
  exists out. split; [done|].
  (* the round of [p] *)
  pose proof (FrameFacts.compile_profile_frame _ _ _ _ _ _ _ _ Hcpa Hp) as [Hsame_p _].
  assert (FS.isdir ctx fsp cp = true) as Hcpp
      by (by rewrite <- (FSFacts.isdir_same _ _ _ _ Hsame_p)).
  pose proof (TouchFacts.resolve_same _ _ _ _ _ Hsame_p Hda) as Hdp.
  pose proof (ContentFacts.read_written _ _ _ _ _ _ Hcpp Hdp Hreg Hfile) as Hread.
  (* the rounds after [p] *)
  pose proof (TouchFacts.compile_loop_only _ _ _ _ _ _ _ _ _ Hcpp Hdp Hsplit) as Honly.
  destruct (TouchFacts.only_files_read ctx cp _ d (compose_name p) fsp fs2
              Hcpp Hdp Hreg Honly) as [Hread2 _].
  { intros (q & Hq & Hname).
    apply (proj1 (Forall_forall _ _) Hafter) in Hq. congruence. }
  pose proof (TouchFacts.only_files_same_dirs _ _ _ _ Honly) as Hsame_2.
  assert (FS.isdir ctx fs2 cp = true) as Hcp2
      by (by rewrite <- (FSFacts.isdir_same _ _ _ _ Hsame_2)).
  pose proof (TouchFacts.resolve_same _ _ _ _ _ Hsame_2 Hdp) as Hd2.
  (* the two last files *)
  destruct (OutputFacts.write_cases _ _ _ _ _ _ _ _ Hcp2 RunFacts.regular_init Hd2 Hw1)
    as [Honly3 _].
  destruct (TouchFacts.only_files_read ctx cp _ d (compose_name p) fs2 fs3
              Hcp2 Hd2 Hreg Honly3) as [Hread3 _].
  { intros E. by rewrite E in Hsuf. }
  pose proof (TouchFacts.only_files_same_dirs _ _ _ _ Honly3) as Hsame_3.
  assert (FS.isdir ctx fs3 cp = true) as Hcp3
      by (by rewrite <- (FSFacts.isdir_same _ _ _ _ Hsame_3)).
  pose proof (TouchFacts.resolve_same _ _ _ _ _ Hsame_3 Hd2) as Hd3.
  destruct (OutputFacts.write_cases _ _ _ _ _ _ _ _ Hcp3 RunFacts.regular_combined Hd3 Hw2)
    as [Honly4 _].
  destruct (TouchFacts.only_files_read ctx cp _ d (compose_name p) fs3 fs'
              Hcp3 Hd3 Hreg Honly4) as [Hread4 _].
  { intros E. by rewrite E in Hsuf. }
  split; [congruence|].
  (* the returned list *)
  pose proof (PlanFacts.compile_loop_plans _ _ _ _ _ _ _ _ Hcp Hv Hloop) as Hplans.
  apply PlanFacts.plans_buffers in Hplans as [_ ->]. simpl.
  unfold compiled_list. apply list_elem_of_In, in_flat_map.
  exists p. split.
  - apply list_elem_of_In, elem_of_app. right. apply elem_of_cons. by left.
  - rewrite Hdata. simpl. by left.
Qed.

Lemma compiled_compose_contents_witness :
  fst Sample.first_run = Ok Sample.compiled_files
  /\ fst Sample.resolved = Ok ([Sample.base; Sample.ui] ++ Sample.dev :: [])
  /\ FS.read Sample.ctx (snd Sample.resolved) (compose_file Sample.dev)
     = Ok "context: {COMPOSE_CONTEXT}"
  /\ FS.read Sample.ctx (snd Sample.first_run)
       "/home/u/oci_env/.compiled/galaxy_dev_compose.yaml"
     = Ok "context: /home/u/oci_env"
  /\ exists out,
       Format.format Sample.config "context: {COMPOSE_CONTEXT}" = Ok out
       /\ FS.read Sample.ctx (snd Sample.first_run)
            (Path.join (compiled_path Sample.ctx) [compose_name Sample.dev])
          = Ok out
       /\ Path.join (compiled_path Sample.ctx) [compose_name Sample.dev]
          ∈ Sample.compiled_files.
Proof.
  assert (fst Sample.first_run = Ok Sample.compiled_files) as Hfiles
      by evaluate.
  assert (fst Sample.resolved = Ok ([Sample.base; Sample.ui] ++ Sample.dev :: []))
    as Hres by evaluate.
  assert (FS.read Sample.ctx (snd Sample.resolved) (compose_file Sample.dev)
          = Ok "context: {COMPOSE_CONTEXT}") as Hdata by evaluate.
  split; [exact Hfiles|]. split; [exact Hres|]. split; [exact Hdata|].
  split; [evaluate|].
  exact (compiled_compose_contents Sample.ctx Sample.config Sample.disk _ _ _
           [Sample.base; Sample.ui] Sample.dev [] _
           (run_result _ _ _ Hfiles) (run_result _ _ _ Hres) Hdata
           (Forall_nil_2 _)).
Defined.

(** X9.  When [.compiled] is there already, a run of [parse_profiles] that
    does not return leaves [combined.env] as it found it; a run that ends
    with an exit, as for a missing profile or an undefined template
    variable, leaves [init.sh] as it found it as well.  What such a run may
    have rewritten are compiled files ending in [_compose.yaml]. *)
Theorem failed_run_keeps_outputs ctx config fs r fs' :
  parse_profiles ctx config fs = (r, fs') ->
  FS.isdir ctx fs (compiled_path ctx) = true ->
  is_ok r = false ->
  FS.read ctx fs' (Path.join (compiled_path ctx) ["combined.env"])
  = FS.read ctx fs (Path.join (compiled_path ctx) ["combined.env"])
  /\ (forall status said,
        r = Exit status said ->
        FS.read ctx fs' (Path.join (compiled_path ctx) ["init.sh"])
        = FS.read ctx fs (Path.join (compiled_path ctx) ["init.sh"])).
Proof.
  intros Hrun Hcp Hfail. unfold parse_profiles, mbind, M_bind in Hrun.
  destruct (resolve_profiles ctx config fs) as [r1 fs1] eqn:Hres.
  destruct (FrameFacts.isdir_found _ _ _ Hcp) as (d & Hd & Hnode).
  assert (fs1 = fs) as ->.
  { destruct (OutputFacts.resolve_profiles_tree _ _ _ _ _ Hres)
      as [->|(d' & Hd' & Hnone & _)]; [done|].
    assert (d' = d) as -> by congruence. congruence. }
  destruct r1 as [ps| | |]; try (injection Hrun as _ <-; done).
  destruct (OutputFacts.compile_profiles_cases _ _ _ _ _ _ _ Hcp Hd Hrun)
    as (fs2 & H2 & Hcases).
  destruct (TouchFacts.only_files_read ctx _ _ d "combined.env" fs fs2
              Hcp Hd RunFacts.regular_combined H2
              (OutputFacts.compose_name_not_combined ps)) as [Hc2 _].
  destruct (TouchFacts.only_files_read ctx _ _ d "init.sh" fs fs2
              Hcp Hd RunFacts.regular_init H2
              (OutputFacts.compose_name_not_init ps)) as [Hi2 _].
  destruct Hcases as [[-> _]|(b & fs3 & _ & H3 & _ & Hr)]; [done|].
  destruct (Hr Hfail) as [-> ->]. split; [|done].
  pose proof (TouchFacts.only_files_same_dirs _ _ _ _ H2) as Hsame.
  assert (FS.isdir ctx fs2 (compiled_path ctx) = true) as Hcp2
      by (by rewrite <- (FSFacts.isdir_same _ _ _ _ Hsame)).
  pose proof (TouchFacts.resolve_same _ _ _ _ _ Hsame Hd) as Hd2.
  destruct (TouchFacts.only_files_read ctx _ _ d "combined.env" fs2 fs3
              Hcp2 Hd2 RunFacts.regular_combined H3) as [Hc3 _]; [done|].
  congruence.
Qed.

Lemma failed_run_keeps_outputs_witness :
  FS.isdir Sample.ctx (snd Sample.first_run) (compiled_path Sample.ctx) = true
  /\ fst Demo.second_run
     = Exit 1
         "nope from COMPOSE_PROFILE does not exist at /home/u/oci_env/profiles/nope"
  /\ FS.read Sample.ctx (snd Demo.second_run)
       (Path.join (compiled_path Sample.ctx) ["combined.env"])
     = FS.read Sample.ctx (snd Sample.first_run)
         (Path.join (compiled_path Sample.ctx) ["combined.env"])
  /\ FS.read Sample.ctx (snd Demo.second_run)
       (Path.join (compiled_path Sample.ctx) ["init.sh"])
     = FS.read Sample.ctx (snd Sample.first_run)
         (Path.join (compiled_path Sample.ctx) ["init.sh"]).
Proof.
  assert (FS.isdir Sample.ctx (snd Sample.first_run) (compiled_path Sample.ctx)
          = true) as Hcp by evaluate.
  assert (fst Demo.second_run
          = Exit 1
              "nope from COMPOSE_PROFILE does not exist at /home/u/oci_env/profiles/nope")
    as Hexit by evaluate.
  assert (is_ok (fst Demo.second_run) = false) as Hfail by (by rewrite Hexit).
  destruct (failed_run_keeps_outputs Sample.ctx Sample.missing_config
              (snd Sample.first_run) (fst Demo.second_run) (snd Demo.second_run)
              (run_result _ _ _ eq_refl) Hcp Hfail) as [Hcombined Hinit].
  split; [exact Hcp|]. split; [exact Hexit|]. split; [exact Hcombined|].
  exact (Hinit _ _ Hexit).
Defined.

Module PositionFacts.
Import Format.







End PositionFacts.



Module ComposeFacts.
Import Compose.

Lemma perform_subprocess os cmd interactive pipe_output :
  perform os (subprocess cmd interactive pipe_output)
  = ([Started cmd], answer os cmd interactive pipe_output).
Proof.
  destruct interactive; simpl.
  - by destruct (on_call os cmd).
  - by destruct (on_run os pipe_output cmd).
Qed.

Lemma perform_announced os self cmd interactive pipe_output :
  perform os (_ ← announce self cmd; subprocess cmd interactive pipe_output)
  = (shown (is_verbose self) cmd, answer os cmd interactive pipe_output).
Proof.
  unfold announce, shown, mbind, action_mbind.
  destruct (is_verbose self); simpl; by rewrite perform_subprocess.
Qed.

Lemma getitem_present self key v :
  config self !! key = Some v -> getitem self key = mret v.
Proof. intros H. unfold getitem. by rewrite H. Qed.

Lemma init_inv ctx v fs self fs' :
  __init__ ctx v fs = (Ok self, fs') ->
  exists files,
    get_config ctx fs = (Ok (config self), fs)
    /\ parse_profiles ctx (config self) fs = (Ok files, fs')
    /\ self = {| path := get_oci_env_path ctx;
                 config := config self;
                 compose_files := files;
                 is_verbose := v |}.
Proof.
  unfold __init__, mbind, M_bind.
  destruct (get_config ctx fs) as [[c| | |] fs0] eqn:Hc; try done.
  destruct (ConfigFacts.get_config_inv _ _ _ _ Hc) as (_ & _ & -> & _).
  destruct (parse_profiles ctx c fs) as [[files| | |] fs1] eqn:Hp; try done.
  unfold mret, M_ret. intros [= <- <-]. by exists files.
Qed.

Lemma init_key ctx v fs self fs' key :
  __init__ ctx v fs = (Ok self, fs') ->
  key ∈ constant_keys ++ default_keys ->
  exists value, config self !! key = Some value.
Proof.
  intros (files & Hc & _)%init_inv Hkey.
  by destruct (ConfigFacts.get_config_dom _ _ _ _ Hc key Hkey) as [value ?]; eauto.
Qed.

Lemma terminal_spec ctx :
  bool_decide (default "0" (environ ctx !! "COMPOSE_INTERACTIVE_NO_CLI") = "1")
  = bool_decide (environ ctx !! "COMPOSE_INTERACTIVE_NO_CLI" = Some "1").
Proof.
  destruct (environ ctx !! "COMPOSE_INTERACTIVE_NO_CLI") as [x|]; simpl.
  - apply bool_decide_ext. split; congruence.
  - by rewrite ?bool_decide_eq_false_2.
Qed.

(** [exec] once the three keys it reads are known. *)
Lemma perform_exec os ctx self args service interactive pipe_output
    binary project api :
  config self !! "COMPOSE_BINARY" = Some binary ->
  config self !! "COMPOSE_PROJECT_NAME" = Some project ->
  config self !! "API_CONTAINER" = Some api ->
  perform os (exec ctx self args service interactive pipe_output)
  = (shown (is_verbose self)
       (exec_command ctx binary project (target service api) args),
     answer os (exec_command ctx binary project (target service api) args)
       interactive pipe_output).
Proof.
  intros Hb Hp Ha. unfold exec.
  assert (match service with
          | Some (String _ _ as s) => mret s
          | _ => getitem self "API_CONTAINER"
          end = (mret (target service api) : action string)) as ->.
  { rewrite (getitem_present _ _ _ Ha). by destruct service as [[|]|]. }
  rewrite (getitem_present _ _ _ Hp), (getitem_present _ _ _ Hb).
  rewrite terminal_spec.
  change (perform os (_ ← announce self ?c; subprocess ?c' _ _))
    with (perform os (_ ← announce self c; subprocess c' interactive pipe_output)).
  unfold exec_command, terminal.
  case_bool_decide; simpl; apply perform_announced.
Qed.

(** The loop of [compose_command] puts [-f] before each file. *)
Lemma flags_loop (files : list string) : forall acc,
  foldl (fun acc f => (acc ++ ["-f"]) ++ [f]) acc files
  = acc ++ flat_map (fun f => ["-f"; f]) files.
Proof.
  induction files as [|f files IH]; intros acc; simpl.
  - by rewrite app_nil_r.
  - rewrite IH, <- !app_assoc. done.
Qed.

End ComposeFacts.

(** X11.  On an object that the constructor returned, [exec] never fails on
    a configuration key: it prints the command when the object is verbose,
    starts one process and ends as that process does.  The command is the
    binary, [exec], the option [-it] unless [COMPOSE_INTERACTIVE_NO_CLI] is
    [1], the container [<project>_<service>_1] and then the arguments as
    given; the service is [API_CONTAINER] when none or an empty one is
    asked for. *)
Theorem exec_on_constructed
    ctx is_verbose fs self fs' os args service interactive pipe_output :
  Compose.__init__ ctx is_verbose fs = (Ok self, fs') ->
  exists binary project api,
    Compose.config self !! "COMPOSE_BINARY" = Some binary
    /\ Compose.config self !! "COMPOSE_PROJECT_NAME" = Some project
    /\ Compose.config self !! "API_CONTAINER" = Some api
    /\ perform os (Compose.exec ctx self args service interactive pipe_output)
       = (shown is_verbose
            (exec_command ctx binary project (target service api) args),
          answer os (exec_command ctx binary project (target service api) args)
            interactive pipe_output).
Proof.
  intros Hinit.
  destruct (ComposeFacts.init_key _ _ _ _ _ "COMPOSE_BINARY" Hinit) as [binary Hb].
  { do 10 (apply elem_of_cons; right). apply elem_of_cons. by left. }
  destruct (ComposeFacts.init_key _ _ _ _ _ "COMPOSE_PROJECT_NAME" Hinit)
    as [project Hp].
  { do 9 (apply elem_of_cons; right). apply elem_of_cons. by left. }
  destruct (ComposeFacts.init_key _ _ _ _ _ "API_CONTAINER" Hinit) as [api Ha].
  { do 11 (apply elem_of_cons; right). apply elem_of_cons. by left. }
  exists binary, project, api. split; [done|]. split; [done|]. split; [done|].
  rewrite (ComposeFacts.perform_exec _ _ _ _ _ _ _ _ _ _ Hb Hp Ha).
  destruct (ComposeFacts.init_inv _ _ _ _ _ Hinit) as (files & _ & _ & ->). done.
Qed.

Lemma exec_on_constructed_witness :
  is_ok (fst Demo.built) = true
  /\ Compose.config Demo.self !! "COMPOSE_BINARY" = Some "podman"
  /\ fst (perform Demo.os
            (Compose.exec Sample.ctx Demo.self ["ls"; "-l"] None false false))
     = [ Printed "Running command in container: podman exec -it oci_env_pulp_1 ls -l";
         Started ["podman"; "exec"; "-it"; "oci_env_pulp_1"; "ls"; "-l"] ]
  /\ exists binary project api,
       perform Demo.os
         (Compose.exec Sample.ctx Demo.self ["ls"; "-l"] (Some "db") true false)
       = (shown true (exec_command Sample.ctx binary project (target (Some "db") api)
                        ["ls"; "-l"]),
          answer Demo.os
            (exec_command Sample.ctx binary project (target (Some "db") api)
               ["ls"; "-l"]) true false).
Proof.
  assert (is_ok (fst Demo.built) = true) as Hok by evaluate.
  pose proof (ok_result (Compose.__init__ Sample.ctx true) Sample.disk Demo.blank Hok)
    as Hinit.
  split; [exact Hok|]. split; [evaluate|]. split; [evaluate|].
  destruct (exec_on_constructed Sample.ctx true Sample.disk _ _ Demo.os
              ["ls"; "-l"] (Some "db") true false Hinit)
    as (binary & project & api & _ & _ & _ & Hrun).
  exists binary, project, api. exact Hrun.
Defined.

Module MethodFacts.
Import Compose.

Lemma perform_bind {A B} os (f : A -> action B) (m : action A) :
  perform os (action_bind f m)
  = match perform os m with
    | (events, Ok a) =>
        let '(events', o) := perform os (f a) in (events ++ events', o)
    | (events, Exit n said) => (events, Exit n said)
    | (events, Raise e) => (events, Raise e)
    | (events, Unmodelled) => (events, Unmodelled)
    end.
Proof.
  induction m as [o|line next IH|cmd next IH|cmd c next IH]; simpl.
  - destruct o as [a| | |]; try done. by destruct (perform os (f a)).
  - rewrite IH. destruct (perform os next) as [events [a| | |]]; try done.
    by destruct (perform os (f a)).
  - destruct (on_call os cmd) as [rc| | |]; try done.
    rewrite IH. destruct (perform os (next rc)) as [events [a| | |]]; try done.
    by destruct (perform os (f a)).
  - destruct (on_run os c cmd) as [proc| | |]; try done.
    rewrite IH. destruct (perform os (next proc)) as [events [a| | |]]; try done.
    by destruct (perform os (f a)).
Qed.

Lemma parse_profiles_list ctx config fs files fs' :
  parse_profiles ctx config fs = (Ok files, fs') ->
  exists ps fs1,
    resolve_profiles ctx config fs = (Ok ps, fs1)
    /\ files = compiled_list ctx fs1 ps.
Proof.
  intros (ps & fs1 & b & fs2 & fs3 & Hres & Hcp & Hv & Hloop & _ & _ & ->)
    %PlanFacts.parse_profiles_ok.
  exists ps, fs1. split; [done|].
  pose proof (PlanFacts.compile_loop_plans _ _ _ _ _ _ _ _ Hcp Hv Hloop) as Hplans.
  by apply PlanFacts.plans_buffers in Hplans as [_ Hfiles].
Qed.




Lemma init_directory ctx v fs self fs' :
  __init__ ctx v fs = (Ok self, fs') ->
  exists oci_dir,
    config self !! "OCI_ENV_DIRECTORY" = Some oci_dir
    /\ constant_vals (get_oci_env_path ctx) !! "OCI_ENV_DIRECTORY" = Some oci_dir.
Proof.
  intros (files & Hc & _)%ComposeFacts.init_inv.
  destruct (ConfigFacts.get_config_inv _ _ _ _ Hc) as (user & _ & _ & Hconfig).
  destruct (constant_vals_directory (get_oci_env_path ctx)) as (seg & Hseg & _).
  exists seg. split; [|done]. rewrite Hconfig. unfold dict_merge3.
  by apply lookup_union_Some_l.
Qed.

(** [exec_container_script] once the four keys it reads are known. *)
Lemma perform_script os ctx self script args interactive pipe_output
    binary project api oci_dir :
  config self !! "COMPOSE_BINARY" = Some binary ->
  config self !! "COMPOSE_PROJECT_NAME" = Some project ->
  config self !! "API_CONTAINER" = Some api ->
  config self !! "OCI_ENV_DIRECTORY" = Some oci_dir ->
  let cmd :=
    exec_command ctx binary project api
      (["bash"; "/src/" +:+ oci_dir +:+ "/base/container_scripts/" +:+ script]
         ++ default [] args) in
  perform os (exec_container_script ctx self script args interactive pipe_output)
  = (shown (is_verbose self) cmd, answer os cmd interactive pipe_output).
Proof.
  intros Hb Hp Ha Hd cmd. unfold exec_container_script.
  rewrite (ComposeFacts.getitem_present _ _ _ Hd).
  change (perform os (exec ctx self
            (["bash"; "/src/" +:+ oci_dir +:+ "/base/container_scripts/" +:+ script]
               ++ default [] args) None interactive pipe_output)
          = (shown (is_verbose self) cmd, answer os cmd interactive pipe_output)).
  by rewrite (ComposeFacts.perform_exec _ _ _ _ _ _ _ _ _ _ Hb Hp Ha).
Qed.

Lemma init_keys ctx v fs self fs' :
  __init__ ctx v fs = (Ok self, fs') ->
  exists binary project api,
    config self !! "COMPOSE_BINARY" = Some binary
    /\ config self !! "COMPOSE_PROJECT_NAME" = Some project
    /\ config self !! "API_CONTAINER" = Some api
    /\ is_verbose self = v.
Proof.
  intros Hinit.
  destruct (ComposeFacts.init_key _ _ _ _ _ "COMPOSE_BINARY" Hinit) as [binary Hb].
  { do 10 (apply elem_of_cons; right). apply elem_of_cons. by left. }
  destruct (ComposeFacts.init_key _ _ _ _ _ "COMPOSE_PROJECT_NAME" Hinit)
    as [project Hp].
  { do 9 (apply elem_of_cons; right). apply elem_of_cons. by left. }
  destruct (ComposeFacts.init_key _ _ _ _ _ "API_CONTAINER" Hinit) as [api Ha].
  { do 11 (apply elem_of_cons; right). apply elem_of_cons. by left. }
  exists binary, project, api. split; [done|]. split; [done|]. split; [done|].
  by destruct (ComposeFacts.init_inv _ _ _ _ _ Hinit) as (files & _ & _ & ->).
Qed.

End MethodFacts.

(** X12.  On an object that the constructor returned, [compose_command]
    never fails on a configuration key: it prints the command when the
    object is verbose, starts one process and ends as that process does.
    The command is [<binary>-compose -p <project>], then [-f] and the
    compiled file for each resolved profile that has a [compose.yaml], in
    resolution order, then the arguments as given. *)
Theorem compose_command_on_constructed
    ctx is_verbose fs self fs' os cmd interactive pipe_output :
  Compose.__init__ ctx is_verbose fs = (Ok self, fs') ->
  exists binary project ps fs1,
    Compose.config self !! "COMPOSE_BINARY" = Some binary
    /\ Compose.config self !! "COMPOSE_PROJECT_NAME" = Some project
    /\ resolve_profiles ctx (Compose.config self) fs = (Ok ps, fs1)
    /\ let full :=
         [binary +:+ "-compose"; "-p"; project]
           ++ flat_map (fun f => ["-f"; f]) (compiled_list ctx fs1 ps) ++ cmd in
       perform os (Compose.compose_command self cmd interactive pipe_output)
       = (shown is_verbose full, answer os full interactive pipe_output).
Proof.
  intros Hinit.
  destruct (MethodFacts.init_keys _ _ _ _ _ Hinit)
    as (binary & project & _ & Hb & Hp & _ & Hv).
  destruct (ComposeFacts.init_inv _ _ _ _ _ Hinit) as (files & _ & Hrun & Hself).
  destruct (MethodFacts.parse_profiles_list _ _ _ _ _ Hrun) as (ps & fs1 & Hres & Hfiles).
  exists binary, project, ps, fs1. split; [done|]. split; [done|]. split; [done|].
  intros full. unfold Compose.compose_command.
  rewrite (ComposeFacts.getitem_present _ _ _ Hb), (ComposeFacts.getitem_present _ _ _ Hp).
  assert (Compose.compose_files self = compiled_list ctx fs1 ps) as ->
      by (rewrite Hself; exact Hfiles).
  cbv zeta. rewrite ComposeFacts.flags_loop, app_nil_l.
  unfold mret, action_ret, mbind, action_mbind. cbn [action_bind].
  rewrite <- app_assoc. fold full. rewrite <- Hv.
  apply ComposeFacts.perform_announced.
Qed.

Lemma compose_command_on_constructed_witness :
  is_ok (fst Demo.built) = true
  /\ fst (perform Demo.os (Compose.compose_command Demo.self ["up"; "-d"] false false))
     = [ Printed ("Running command in container: podman-compose -p oci_env "
                  +:+ "-f /home/u/oci_env/.compiled/base_compose.yaml "
                  +:+ "-f /home/u/oci_env/.compiled/galaxy_dev_compose.yaml up -d");
         Started [ "podman-compose"; "-p"; "oci_env";
                   "-f"; "/home/u/oci_env/.compiled/base_compose.yaml";
                   "-f"; "/home/u/oci_env/.compiled/galaxy_dev_compose.yaml";
                   "up"; "-d" ] ]
  /\ exists binary project ps fs1,
       resolve_profiles Sample.ctx (Compose.config Demo.self) Sample.disk
       = (Ok ps, fs1)
       /\ perform Demo.os (Compose.compose_command Demo.self ["up"; "-d"] false false)
          = (shown true
               ([binary +:+ "-compose"; "-p"; project]
                  ++ flat_map (fun f => ["-f"; f]) (compiled_list Sample.ctx fs1 ps)
                  ++ ["up"; "-d"]),
             answer Demo.os
               ([binary +:+ "-compose"; "-p"; project]
                  ++ flat_map (fun f => ["-f"; f]) (compiled_list Sample.ctx fs1 ps)
                  ++ ["up"; "-d"]) false false).
Proof.
  assert (is_ok (fst Demo.built) = true) as Hok by evaluate.
  pose proof (ok_result (Compose.__init__ Sample.ctx true) Sample.disk Demo.blank Hok)
    as Hinit.
  split; [exact Hok|]. split; [evaluate|].
  destruct (compose_command_on_constructed Sample.ctx true Sample.disk _ _ Demo.os
              ["up"; "-d"] false false Hinit)
    as (binary & project & ps & fs1 & _ & _ & Hres & Hrun).
  exists binary, project, ps, fs1. split; [exact Hres|exact Hrun].
Defined.



(** X14.  On an object that the constructor returned,
    [get_dynaconf_variable] runs the container script
    [get_dynaconf_var.sh] with the name as its one argument, not
    interactively and with the output captured.  The value it returns is
    the decoded output of the process without the white space at its ends:
    it neither begins nor ends with a white space character. *)
Theorem dynaconf_variable_stripped ctx is_verbose fs self fs' os name :
  Compose.__init__ ctx is_verbose fs = (Ok self, fs') ->
  exists binary project api oci_dir,
    Compose.config self !! "OCI_ENV_DIRECTORY" = Some oci_dir
    /\ let cmd :=
         exec_command ctx binary project api
           ["bash";
            "/src/" +:+ oci_dir +:+ "/base/container_scripts/get_dynaconf_var.sh";
            name] in
       let run := perform os (Compose.get_dynaconf_variable ctx self name) in
       run.1 = shown is_verbose cmd
       /\ (forall proc,
             on_run os true cmd = Ok proc ->
             run.2 = omap Str.strip (decode (stdout proc)))
       /\ forall value,
            run.2 = Ok value ->
            exists proc text,
              on_run os true cmd = Ok proc
              /\ decode (stdout proc) = Ok text
              /\ stripped_of Str.isspace text value.
Proof.
  intros Hinit.
  destruct (MethodFacts.init_keys _ _ _ _ _ Hinit)
    as (binary & project & api & Hb & Hp & Ha & Hv).
  destruct (MethodFacts.init_directory _ _ _ _ _ Hinit) as (oci_dir & Hd & _).
  exists binary, project, api, oci_dir. split; [done|].
  intros cmd run.
  assert (run = match on_run os true cmd with
                | Ok proc => (shown is_verbose cmd,
                              omap Str.strip (decode (stdout proc)))
                | Exit n said => (shown is_verbose cmd, Exit n said)
                | Raise e => (shown is_verbose cmd, Raise e)
                | Unmodelled => (shown is_verbose cmd, Unmodelled)
                end) as Hrun.
  { unfold run, Compose.get_dynaconf_variable, mbind, action_mbind.
    rewrite MethodFacts.perform_bind.
    pose proof (MethodFacts.perform_script os ctx self "get_dynaconf_var.sh"
                  (Some [name]) false true _ _ _ _ Hb Hp Ha Hd) as Hscript.
    cbv zeta in Hscript.
    change (Compose.returned false true) with (completed true) in Hscript.
    change (exec_command ctx binary project api _) with cmd in Hscript.
    rewrite Hscript, Hv. simpl.
    destruct (on_run os true cmd) as [proc| | |]; try done.
    destruct (decode (stdout proc)); simpl; by rewrite ?app_nil_r. }
  rewrite Hrun. split; [|split].
  - by destruct (on_run os true cmd).
  - by intros proc ->.
  - intros value. destruct (on_run os true cmd) as [proc| | |]; try done. simpl.
    destruct (decode (stdout proc)) as [text| | |] eqn:Ht; try done. simpl.
    intros [= <-]. exists proc, text. split; [done|]. split; [done|].
    apply strip_spec.
Qed.

Lemma dynaconf_variable_stripped_witness :
  is_ok (fst Demo.built) = true
  /\ snd (perform Demo.os
            (Compose.get_dynaconf_variable Sample.ctx Demo.self "API_ROOT"))
     = Ok "value"
  /\ exists cmd proc text,
       on_run Demo.os true cmd = Ok proc
       /\ decode (stdout proc) = Ok text
       /\ stripped_of Str.isspace text "value".
Proof.
  assert (is_ok (fst Demo.built) = true) as Hok by evaluate.
  pose proof (ok_result (Compose.__init__ Sample.ctx true) Sample.disk Demo.blank Hok)
    as Hinit.
  assert (snd (perform Demo.os
                 (Compose.get_dynaconf_variable Sample.ctx Demo.self "API_ROOT"))
          = Ok "value") as Hvalue by evaluate.
  split; [exact Hok|]. split; [exact Hvalue|].
  destruct (dynaconf_variable_stripped Sample.ctx true Sample.disk _ _ Demo.os
              "API_ROOT" Hinit)
    as (binary & project & api & oci_dir & _ & _ & _ & Hstripped).
  destruct (Hstripped "value" Hvalue) as (proc & text & Hproc & Htext & Hs).
  eexists _, proc, text. split; [exact Hproc|]. split; [exact Htext|exact Hs].
Defined.

Module ExistFacts.
Import FS.

Lemma only_files_keeps_file (names : string -> Prop) (d : list string)
    (a b : filesystem) k c :
  only_files names d a b -> a !! k = Some (File c) ->
  exists c', b !! k = Some (File c').
Proof.
  intros Hab Hk. destruct (Hab k) as [->|(n & c' & _ & _ & Hb & _)]; eauto.
Qed.

(** The files that the loop lists are files when the loop ends. *)
Lemma compile_loop_exist ctx config cp ps d : forall b fs b' fs',
  isdir ctx fs cp = true -> resolve ctx fs cp = Found d ->
  compile_loop ctx config cp ps b fs = (Ok b', fs') ->
  exists names,
    compose_files b' = compose_files b ++ ((fun n => Path.join cp [n]) <$> names)
    /\ Forall (fun n => regular n /\ exists c, fs' !! (d ++ [n]) = Some (File c)) names.
Proof.
  induction ps as [|p ps IH]; intros b fs b' fs' Hcp Hd; simpl.
  - intros [= <- <-]. exists []. by rewrite app_nil_r.
  - unfold mbind at 1, M_bind.
    destruct (compile_profile ctx config cp b p fs) as [[b0| | |] fs0] eqn:Hp;
      try done.
    intros Hloop.
    pose proof (TouchFacts.compile_profile_only _ _ _ _ _ _ _ _ _ Hcp Hd Hp) as Honly.
    pose proof (TouchFacts.only_files_same_dirs _ _ _ _ Honly) as Hsame.
    assert (isdir ctx fs0 cp = true) as Hcp0
        by (by rewrite <- (FSFacts.isdir_same _ _ _ _ Hsame)).
    pose proof (TouchFacts.resolve_same _ _ _ _ _ Hsame Hd) as Hd0.
    destruct (IH _ _ _ _ Hcp0 Hd0 Hloop) as (names & Hfiles & Hnames).
    pose proof (TouchFacts.compile_loop_only _ _ _ _ _ _ _ _ _ Hcp0 Hd0 Hloop) as Hrest.
    pose proof Hp as Hplan. rewrite CompileFacts.compile_profile_plan in Hplan.
    unfold mbind, M_bind, lift in Hplan.
    destruct (plan config cp (profile_inputs ctx fs p) b p) as [[b1 w]| | |] eqn:Hpl;
      try done.
    cbn [fst snd] in Hplan.
    destruct (commit ctx w fs) as [[[]| | |] fs1]; try done.
    unfold mret, M_ret in Hplan. injection Hplan as -> ->.
    apply PlanFacts.plan_buffers in Hpl as (_ & Hc & _).
    cbn [compose_read profile_inputs] in Hc.
    destruct (read ctx fs (compose_file p)) as [data| | |] eqn:Hread; simpl in Hc.
    + destruct (ContentFacts.compile_profile_written _ _ _ _ _ _ _ _ _ _
                  Hcp Hd Hread Hp) as (out & _ & Hfile).
      destruct (only_files_keeps_file _ _ _ _ _ _ Hrest Hfile) as (c' & Hfile').
      exists (compose_name p :: names). split.
      * rewrite Hfiles, Hc, <- app_assoc. done.
      * constructor; [|done]. split; [apply FrameFacts.compose_name_regular|eauto].
    + exists names. split; [|done]. by rewrite Hfiles, Hc, app_nil_r.
    + exists names. split; [|done]. by rewrite Hfiles, Hc, app_nil_r.
    + exists names. split; [|done]. by rewrite Hfiles, Hc, app_nil_r.
Qed.

Lemma isfile_written ctx fs cp d n c :
  isdir ctx fs cp = true -> resolve ctx fs cp = Found d -> regular n ->
  fs !! (d ++ [n]) = Some (File c) ->
  isfile ctx fs (Path.join cp [n]) = true.
Proof.
  intros Hcp Hd Hn Hfile.
  destruct (FrameFacts.read_child ctx fs cp n Hcp Hn) as (e & He & _ & _ & ->).
  assert (e = d) as -> by congruence. by rewrite Hfile.
Qed.

Lemma isabs_normpath p : Path.isabs p = true -> Path.isabs (Path.normpath p) = true.
Proof.
  intros Hp. unfold Path.normpath.
  assert (p <> "") as Hne by (by intros ->).
  rewrite bool_decide_eq_false_2 by done.
  unfold Path.initial_slashes. unfold Path.isabs in Hp. rewrite Hp.
  destruct (Str.startswith "//" p && negb (Str.startswith "///" p)); simpl.
  - destruct (Str.join "/" _); done.
  - destruct (Str.join "/" _); done.
Qed.

Lemma isabs_abspath cwd p :
  Path.isabs cwd = true -> Path.isabs (Path.abspath cwd p) = true.
Proof.
  intros Hcwd. unfold Path.abspath. apply isabs_normpath.
  destruct (Path.isabs p) eqn:Hp; [done|].
  unfold Path.join. simpl. unfold Path.join2. unfold Path.isabs in Hp. rewrite Hp.
  assert (cwd <> "") as Hne by (by intros ->).
  rewrite bool_decide_eq_false_2 by done. simpl.
  unfold Path.isabs in *.
  destruct (Str.endswith slash cwd); by rewrite FSFacts.startswith_slash_app.
Qed.

End ExistFacts.

(** X15.  When [parse_profiles] returns, [.compiled] is a directory and
    every path in the list returned is a regular file. *)
Theorem returned_files_exist ctx config fs files fs' :
  parse_profiles ctx config fs = (Ok files, fs') ->
  FS.isdir ctx fs' (compiled_path ctx) = true
  /\ Forall (fun file => FS.isfile ctx fs' file = true) files.
Proof.
  intros (ps & fs1 & b & fs2 & fs3 & Hres & Hcp & Hv & Hloop & Hw1 & Hw2 & ->)
    %PlanFacts.parse_profiles_ok.
  set (cp := compiled_path ctx) in *.
  destruct (FrameFacts.isdir_found _ _ _ Hcp) as (d & Hd & _).
  destruct (ExistFacts.compile_loop_exist _ _ _ _ _ _ _ _ _ Hcp Hd Hloop)
    as (names & Hfiles & Hnames).
  pose proof (TouchFacts.compile_loop_only _ _ _ _ _ _ _ _ _ Hcp Hd Hloop) as Honly.
  pose proof (TouchFacts.only_files_same_dirs _ _ _ _ Honly) as Hsame.
  assert (FS.isdir ctx fs2 cp = true) as Hcp2
      by (by rewrite <- (FSFacts.isdir_same _ _ _ _ Hsame)).
  pose proof (TouchFacts.resolve_same _ _ _ _ _ Hsame Hd) as Hd2.
  destruct (OutputFacts.write_cases _ _ _ _ _ _ _ _ Hcp2 RunFacts.regular_init Hd2 Hw1)
    as [Honly3 _].
  pose proof (TouchFacts.only_files_same_dirs _ _ _ _ Honly3) as Hsame3.
  assert (FS.isdir ctx fs3 cp = true) as Hcp3
      by (by rewrite <- (FSFacts.isdir_same _ _ _ _ Hsame3)).
  pose proof (TouchFacts.resolve_same _ _ _ _ _ Hsame3 Hd2) as Hd3.
  destruct (OutputFacts.write_cases _ _ _ _ _ _ _ _ Hcp3 RunFacts.regular_combined Hd3 Hw2)
    as [Honly4 _].
  pose proof (TouchFacts.only_files_same_dirs _ _ _ _ Honly4) as Hsame4.
  assert (FS.isdir ctx fs' cp = true) as Hcp4
      by (by rewrite <- (FSFacts.isdir_same _ _ _ _ Hsame4)).
  pose proof (TouchFacts.resolve_same _ _ _ _ _ Hsame4 Hd3) as Hd4.
  split; [done|]. rewrite Hfiles. simpl. apply Forall_fmap.
  eapply Forall_impl; [exact Hnames|]. intros n [Hn (c & Hc)]. simpl.
  destruct (ExistFacts.only_files_keeps_file _ _ _ _ _ _ Honly3 Hc) as (c3 & Hc3).
  destruct (ExistFacts.only_files_keeps_file _ _ _ _ _ _ Honly4 Hc3) as (c4 & Hc4).
  by eapply ExistFacts.isfile_written.
Qed.

Lemma returned_files_exist_witness :
  fst Sample.first_run = Ok Sample.compiled_files
  /\ FS.isdir Sample.ctx (snd Sample.first_run) (compiled_path Sample.ctx) = true
  /\ Forall (fun file => FS.isfile Sample.ctx (snd Sample.first_run) file = true)
       Sample.compiled_files.
Proof.
  assert (fst Sample.first_run = Ok Sample.compiled_files) as Hfiles
      by evaluate.
  split; [exact Hfiles|].
  exact (returned_files_exist Sample.ctx Sample.config Sample.disk _ _
           (run_result _ _ _ Hfiles)).
Defined.

(** X16.  The source directory of a profile of another plugin, whose
    reference has a slash, goes through [os.path.abspath]: it is an
    absolute path whenever the working directory is, also when
    [OCI_ENV_PATH] is a relative path. *)
Theorem plugin_profile_absolute ctx config fs ps fs' :
  resolve_profiles ctx config fs = (Ok ps, fs') ->
  Path.isabs (cwd ctx) = true ->
  Forall (fun d => Str.contains slash (Profile.name d) = true ->
                   Path.isabs (Profile.path d) = true) ps.
Proof.
  intros (v & od & ds & _ & _ & _ & -> & Hds)%ResolveFacts.resolve_profiles_inv Hcwd.
  constructor; [done|].
  induction Hds as [|token d tokens ds (pl & nm & dir & Hl & _ & ->) _ IH];
    constructor; [|done].
  cbn [Profile.name Profile.path]. intros Hslash.
  unfold locate in Hl. rewrite Hslash in Hl.
  destruct (Str.split1 slash token) as [|a [|b [|]]]; try done.
  injection Hl as _ _ <-. by apply ExistFacts.isabs_abspath.
Qed.

Lemma plugin_profile_absolute_witness :
  fst Sample.resolved = Ok [Sample.base; Sample.ui; Sample.dev]
  /\ Path.isabs (cwd Sample.ctx) = true
  /\ Forall (fun d => Str.contains slash (Profile.name d) = true ->
                      Path.isabs (Profile.path d) = true)
       [Sample.base; Sample.ui; Sample.dev].
Proof.
  assert (fst Sample.resolved = Ok [Sample.base; Sample.ui; Sample.dev]) as H
      by evaluate.
  assert (Path.isabs (cwd Sample.ctx) = true) as Hcwd by reflexivity.
  split; [exact H|]. split; [exact Hcwd|].
  exact (plugin_profile_absolute Sample.ctx Sample.config Sample.disk _ _
           (run_result _ _ _ H) Hcwd).
Defined.

Module OrderFacts.
Import FS.

Lemma orderly_cast {A B} (o : outcome A) (o' : outcome B) :
  orderly o -> is_ok o = false ->
  match o with
  | Ok _ => True
  | Exit n said => o' = Exit n said
  | Raise e => o' = Raise e
  | Unmodelled => o' = Unmodelled
  end -> orderly o'.
Proof. destruct o as [| |[]|]; simpl; intros; subst; done. Qed.

Lemma bind_orderly {A B} (m : M A) (f : A -> M B) fs r fs' :
  (m ≫= f) fs = (r, fs') ->
  (forall r1 fs1, m fs = (r1, fs1) -> orderly r1) ->
  (forall a fs1 r2 fs2, f a fs1 = (r2, fs2) -> orderly r2) ->
  orderly r.
Proof.
  unfold mbind, M_bind. destruct (m fs) as [r1 fs1] eqn:Hm. intros Hrun Hm' Hf.
  specialize (Hm' _ _ eq_refl).
  destruct r1 as [a| |e|]; try (injection Hrun as <- _; exact Hm').
  by eapply Hf.
Qed.

Lemma outcome_bind_orderly {A B} (o : outcome A) (f : A -> outcome B) :
  orderly o -> (forall a, orderly (f a)) -> orderly (o ≫= f).
Proof. destruct o as [a| |e|]; simpl; auto. Qed.

Lemma read_orderly ctx fs p : orderly (read ctx fs p).
Proof.
  unfold read. destruct (resolve ctx fs p) as [k| |]; try done.
  by destruct (node_at fs k) as [[|]|].
Qed.

Lemma write_orderly ctx p data fs r fs' :
  write ctx p data fs = (r, fs') -> orderly r.
Proof.
  unfold write. destruct (resolve ctx fs p) as [k| |]; try by intros [= <- _].
  destruct (node_at fs k) as [[|]|]; by intros [= <- _].
Qed.

Lemma mkdir_orderly ctx p fs r fs' :
  mkdir_exist_ok ctx p fs = (r, fs') -> orderly r.
Proof.
  unfold mkdir_exist_ok. destruct (resolve ctx fs p) as [k| |]; try by intros [= <- _].
  destruct (node_at fs k) as [[|]|]; by intros [= <- _].
Qed.

Lemma read_env_file_orderly ctx path fs r fs' :
  read_env_file ctx path fs = (r, fs') -> orderly r.
Proof.
  unfold read_env_file, except_FileNotFoundError, mbind, M_bind, lift, print_exit, lift.
  pose proof (read_orderly ctx fs path) as Hread.
  destruct (read ctx fs path) as [f| |e|]; try by intros [= <- _].
  - destruct (read_env_lines_total (Str.lines f) ∅) as (result & -> & _).
    by intros [= <- _].
  - by destruct e; intros [= <- _].
Qed.

Lemma get_config_orderly ctx fs r fs' : get_config ctx fs = (r, fs') -> orderly r.
Proof.
  intros Hrun. eapply bind_orderly; [exact Hrun| |].
  - intros r1 fs1. apply read_env_file_orderly.
  - by intros a fs1 r2 fs2 [= <- _].
Qed.

Lemma resolve_loop_orderly ctx root od tokens : forall acc fs r fs',
  resolve_loop ctx root od tokens acc fs = (r, fs') -> orderly r.
Proof.
  induction tokens as [|token tokens IH]; intros acc fs r fs'; simpl.
  - by intros [= <- _].
  - destruct (ResolveFacts.locate_shape ctx root od token)
      as (pl & nm & dir & Hl & _).
    unfold mbind at 1, M_bind, lift. rewrite Hl.
    unfold mbind at 1, M_bind.
    destruct (isdir ctx fs dir); simpl; [apply IH|].
    unfold print_exit, lift. by intros [= <- _].
Qed.

Lemma resolve_profiles_orderly ctx config fs r fs' :
  is_Some (config !! "COMPOSE_PROFILE") ->
  is_Some (config !! "OCI_ENV_DIRECTORY") ->
  resolve_profiles ctx config fs = (r, fs') -> orderly r.
Proof.
  intros [v Hv] [od Hod]. unfold resolve_profiles, getitem, mbind, M_bind.
  rewrite Hv, Hod. unfold mret, M_ret.
  destruct (mkdir_exist_ok ctx _ fs) as [r0 fs0] eqn:Hmk.
  apply mkdir_orderly in Hmk.
  destruct r0 as [[]| | |]; try (intros [= <- _]; exact Hmk).
  apply resolve_loop_orderly.
Qed.

Lemma get_field_no_exit config name n said :
  Format.get_field config name <> Exit n said.
Proof.
  unfold Format.get_field.
  destruct (Str.contains "." name); [done|].
  destruct name; [done|].
  destruct (Format.get_integer _); try done.
  by destruct (config !! _).
Qed.

(** [str.format] does not exit. *)
Lemma run_no_exit config s : forall st n said,
  Format.run config st s <> Exit n said.
Proof.
  assert (forall o (f : string -> string) n said,
            (forall n said, o <> Exit n said) -> omap f o <> Exit n said) as Homap.
  { intros o f n said H. destruct o as [a|n' m|e|]; simpl; done. }
  induction s as [|c s IH]; intros st n said.
  - by destruct st.
  - destruct st; simpl.
    + destruct (eqc c lbrace); [apply IH|].
      destruct (eqc c rbrace); [apply IH|]. apply Homap, IH.
    + destruct (eqc c lbrace); [apply Homap, IH|].
      destruct (eqc c rbrace); [done|].
      destruct (eqc c ":"%char || eqc c "!"%char || eqc c "["%char); [done|].
      apply IH.
    + destruct (eqc c rbrace); [apply Homap, IH|done].
    + destruct (eqc c rbrace).
      { pose proof (get_field_no_exit config name) as Hg.
        destruct (Format.get_field config name) as [v|n' m|e|]; try done.
        apply Homap, IH. }
      destruct (eqc c lbrace); [done|].
      destruct (eqc c ":"%char || eqc c "!"%char || eqc c "["%char); [done|].
      apply IH.
Qed.

Lemma template_orderly config file s :
  orderly (except_KeyError (Format.format config s) (template_error file)).
Proof.
  pose proof (run_no_exit config s Format.InText) as He.
  unfold Format.format.
  destruct (Format.run config Format.InText s) as [|n said|[]|]; simpl; try done.
  by destruct (He n said).
Qed.

Lemma format_env_lines_orderly config file f : forall out,
  orderly (format_env_lines config file f out).
Proof.
  induction f as [|line f IH]; intros out; simpl; [done|].
  apply outcome_bind_orderly; [apply template_orderly|]. intros a. apply IH.
Qed.

Lemma plan_orderly config cp ctx fs b p :
  orderly (plan config cp (profile_inputs ctx fs p) b p).
Proof.
  unfold plan. cbn [env_read compose_read has_init profile_inputs].
  apply outcome_bind_orderly.
  - unfold env_stage. pose proof (read_orderly ctx fs (env_file p)) as Hr.
    destruct (read ctx fs (env_file p)) as [f| |e|]; try done.
    + apply format_env_lines_orderly.
    + by destruct e.
  - intros eo. apply outcome_bind_orderly; [|by intros [d|]].
    unfold compose_stage. pose proof (read_orderly ctx fs (compose_file p)) as Hr.
    destruct (read ctx fs (compose_file p)) as [data| |e|]; try done.
    + pose proof (template_orderly config (compose_file p) data) as Ht.
      by destruct (except_KeyError _ _) as [| |[]|].
    + by destruct e.
Qed.

Lemma commit_orderly ctx w fs r fs' : commit ctx w fs = (r, fs') -> orderly r.
Proof.
  destruct w as [[out d]|]; simpl; [|by intros [= <- _]].
  unfold except_FileNotFoundError.
  destruct (write ctx out d fs) as [r0 fs0] eqn:Hw. apply write_orderly in Hw.
  destruct r0 as [| |[]|]; by intros [= <- _].
Qed.

Lemma compile_profile_orderly ctx config cp b p fs r fs' :
  compile_profile ctx config cp b p fs = (r, fs') -> orderly r.
Proof.
  rewrite CompileFacts.compile_profile_plan. intros Hrun.
  eapply bind_orderly; [exact Hrun| |].
  - intros r1 fs1 [= <- _]. apply plan_orderly.
  - intros x fs1 r2 fs2 Hc. eapply bind_orderly; [exact Hc| |].
    + intros r1 fs3. apply commit_orderly.
    + by intros a fs3 r3 fs4 [= <- _].
Qed.

Lemma compile_loop_orderly ctx config cp ps : forall b fs r fs',
  compile_loop ctx config cp ps b fs = (r, fs') -> orderly r.
Proof.
  induction ps as [|p ps IH]; intros b fs r fs'; simpl.
  - by intros [= <- _].
  - intros Hrun. eapply bind_orderly; [exact Hrun| |].
    + intros r1 fs1. apply compile_profile_orderly.
    + intros b1 fs1 r2 fs2. apply IH.
Qed.

Lemma parse_profiles_orderly ctx config fs r fs' :
  is_Some (config !! "COMPOSE_PROFILE") ->
  is_Some (config !! "OCI_ENV_DIRECTORY") ->
  parse_profiles ctx config fs = (r, fs') -> orderly r.
Proof.
  intros Hv Hod Hrun. eapply bind_orderly; [exact Hrun| |].
  - intros r1 fs1. by apply resolve_profiles_orderly.
  - intros ps fs1 r2 fs2 Hc. unfold compile_profiles in Hc.
    eapply bind_orderly; [exact Hc| |].
    + intros r1 fs3. apply compile_loop_orderly.
    + intros b fs3 r3 fs4 Hw. eapply bind_orderly; [exact Hw| |].
      * intros r1 fs5. apply write_orderly.
      * intros [] fs5 r4 fs6 Hw2. eapply bind_orderly; [exact Hw2| |].
        -- intros r1 fs7. apply write_orderly.
        -- by intros [] fs7 r5 fs8 [= <- _].
Qed.

End OrderFacts.

(** X17.  However the constructor of [Compose] ends, it does not end with
    [KeyError]: the mapping that [get_config] builds has the keys that
    [parse_profiles] reads, and a key that a template lacks ends the run
    with a message.  When it ends with an exit, the status is 1. *)
Theorem constructor_ends_orderly ctx is_verbose fs r fs' :
  Compose.__init__ ctx is_verbose fs = (r, fs') ->
  (forall key, r <> Raise (KeyError key))
  /\ (forall status said, r = Exit status said -> status = 1).
Proof.
  intros Hrun.
  assert (orderly r) as Horder.
  { unfold Compose.__init__, mbind, M_bind in Hrun.
    destruct (get_config ctx fs) as [rc fsc] eqn:Hc.
    pose proof (OrderFacts.get_config_orderly _ _ _ _ Hc) as Hoc.
    destruct rc as [config| | |]; try (injection Hrun as <- _; exact Hoc).
    pose proof (ConfigFacts.get_config_dom _ _ _ _ Hc) as Hdom.
    destruct (parse_profiles ctx config fsc) as [rp fsp] eqn:Hp.
    assert (orderly rp) as Hop.
    { eapply OrderFacts.parse_profiles_orderly; [| |exact Hp]; apply Hdom.
      - do 3 (apply elem_of_cons; right). apply elem_of_cons. by left.
      - apply elem_of_cons. by left. }
    destruct rp as [files| | |]; injection Hrun as <- _; done. }
  split.
  - intros key ->. exact Horder.
  - intros status said ->. exact Horder.
Qed.

Lemma constructor_ends_orderly_witness :
  fst (Compose.__init__ Sample.ctx true Demo.bare)
  = Exit 1 "No .compose.env file found in /home/u/oci_env/.compose.env."
  /\ forall key,
       fst (Compose.__init__ Sample.ctx true Demo.bare) <> Raise (KeyError key).
Proof.
  split; [evaluate|].
  exact (proj1 (constructor_ends_orderly Sample.ctx true Demo.bare
                  (fst (Compose.__init__ Sample.ctx true Demo.bare))
                  (snd (Compose.__init__ Sample.ctx true Demo.bare))
                  (run_result _ _ _ eq_refl))).
Defined.

Module DefaultFacts.

Lemma default_lookup path key value :
  (key, value) ∈ [ ("COMPOSE_BINARY", "podman"); ("API_CONTAINER", "pulp") ] ->
  config_defaults path !! key = Some value.
Proof.
  intros Hin. unfold config_defaults. apply elem_of_list_to_map_1.
  - apply (bool_decide_unpack _). by vm_compute.
  - apply elem_of_cons in Hin as [[= -> ->]|Hin].
    { do 8 (apply elem_of_cons; right). apply elem_of_cons. by left. }
    apply list_elem_of_singleton in Hin as [= -> ->].
    do 9 (apply elem_of_cons; right). apply elem_of_cons. by left.
Qed.

(** A key that is neither computed nor set by the user has its default. *)
Lemma merged_default path (user : gmap string string) key :
  key <> "OCI_ENV_DIRECTORY" -> key <> "COMPOSE_CONTEXT" ->
  user !! key = None ->
  dict_merge3 (config_defaults path) user (constant_vals path) !! key
  = config_defaults path !! key.
Proof.
  intros H1 H2 Hnone. unfold dict_merge3. rewrite lookup_union_r.
  - rewrite lookup_union, Hnone. by destruct (config_defaults path !! key).
  - unfold constant_vals. by rewrite !lookup_insert_ne, lookup_empty.
Qed.

Lemma names_resolved ctx root od fs tokens ds :
  Forall2 (describes ctx root od fs) tokens ds -> Profile.name <$> ds = tokens.
Proof.
  induction 1 as [|t d tokens ds (pl & nm & dir & _ & _ & ->) _ IH]; [done|].
  by rewrite fmap_cons, IH.
Qed.

End DefaultFacts.

(** X18.  The sequence that resolution returns has one descriptor for the
    base profile and one for each token of the profile list, in the order
    of the list and with repetitions, and no other: its names are [base]
    followed by the tokens. *)
Theorem resolved_names ctx config fs ps fs' :
  resolve_profiles ctx config fs = (Ok ps, fs') ->
  exists v,
    config !! "COMPOSE_PROFILE" = Some v
    /\ Profile.name <$> ps = "base" :: Str.split ":"%char v
    /\ length ps = S (length (Str.split ":"%char v)).
Proof.
  intros (v & od & ds & Hv & _ & _ & -> & Hds)%ResolveFacts.resolve_profiles_inv.
  exists v. split; [done|].
  pose proof (DefaultFacts.names_resolved _ _ _ _ _ _ Hds) as Hnames.
  split.
  - by rewrite fmap_cons, Hnames.
  - simpl. by rewrite <- Hnames, length_fmap.
Qed.

Lemma resolved_names_witness :
  fst Sample.resolved = Ok [Sample.base; Sample.ui; Sample.dev]
  /\ exists v,
       Sample.config !! "COMPOSE_PROFILE" = Some v
       /\ Profile.name <$> [Sample.base; Sample.ui; Sample.dev]
          = "base" :: Str.split ":"%char v.
Proof.
  assert (fst Sample.resolved = Ok [Sample.base; Sample.ui; Sample.dev]) as H
      by evaluate.
  split; [exact H|].
  destruct (resolved_names Sample.ctx Sample.config Sample.disk _ _
              (run_result _ _ _ H)) as (v & Hv & Hnames & _).
  exists v. split; [exact Hv|exact Hnames].
Defined.

(** X19.  With a user file that sets none of [COMPOSE_BINARY],
    [COMPOSE_PROJECT_NAME] and [API_CONTAINER], the commands of an object
    that the constructor returned use the defaults: [exec] without a
    service runs [podman exec] in the container [<own directory name>_pulp_1],
    and [compose_command] starts with [podman-compose -p <own directory name>]. *)
Theorem default_commands ctx is_verbose fs self fs' user :
  Compose.__init__ ctx is_verbose fs = (Ok self, fs') ->
  read_env_file ctx (Path.join (get_oci_env_path ctx) [".compose.env"]) fs
  = (Ok user, fs) ->
  user !! "COMPOSE_BINARY" = None ->
  user !! "COMPOSE_PROJECT_NAME" = None ->
  user !! "API_CONTAINER" = None ->
  exists oci_dir,
    Compose.config self !! "OCI_ENV_DIRECTORY" = Some oci_dir
    /\ last_segment (get_oci_env_path ctx) oci_dir
    /\ (forall os args interactive pipe_output,
          let cmd := exec_command ctx "podman" oci_dir "pulp" args in
          perform os (Compose.exec ctx self args None interactive pipe_output)
          = (shown is_verbose cmd, answer os cmd interactive pipe_output))
    /\ forall os args interactive pipe_output,
         exists cmd,
           perform os (Compose.compose_command self args interactive pipe_output)
           = (shown is_verbose cmd, answer os cmd interactive pipe_output)
           /\ take 3 cmd = ["podman-compose"; "-p"; oci_dir].
Proof.
  intros Hinit Hread Hb Hp Ha.
  destruct (ComposeFacts.init_inv _ _ _ _ _ Hinit) as (files & Hc & Hrun & Hself).
  destruct (ConfigFacts.get_config_inv _ _ _ _ Hc) as (user' & Hread' & _ & Hconfig).
  assert (user' = user) as -> by congruence.
  set (path := get_oci_env_path ctx) in *.
  destruct (constant_vals_directory path) as (oci_dir & Hdir & Hlast).
  assert (Compose.config self !! "OCI_ENV_DIRECTORY" = Some oci_dir) as Hod.
  { rewrite Hconfig. unfold dict_merge3. by apply lookup_union_Some_l. }
  assert (Compose.config self !! "COMPOSE_BINARY" = Some "podman") as Hbinary.
  { rewrite Hconfig, DefaultFacts.merged_default by done.
    apply DefaultFacts.default_lookup. apply elem_of_cons. by left. }
  assert (Compose.config self !! "API_CONTAINER" = Some "pulp") as Hapi.
  { rewrite Hconfig, DefaultFacts.merged_default by done.
    apply DefaultFacts.default_lookup. apply elem_of_cons. right.
    apply elem_of_cons. by left. }
  assert (Compose.config self !! "COMPOSE_PROJECT_NAME" = Some oci_dir) as Hproject.
  { rewrite Hconfig, DefaultFacts.merged_default by done.
    by rewrite ConfigFacts.config_defaults_project, Hdir. }
  assert (Compose.is_verbose self = is_verbose) as Hv by (by rewrite Hself).
  exists oci_dir. split; [done|]. split; [done|]. split.
  - intros os args interactive pipe_output cmd. rewrite <- Hv.
    exact (ComposeFacts.perform_exec os ctx self args None interactive pipe_output
             _ _ _ Hbinary Hproject Hapi).
  - intros os args interactive pipe_output.
    eexists. split.
    + unfold Compose.compose_command.
      rewrite (ComposeFacts.getitem_present _ _ _ Hbinary),
        (ComposeFacts.getitem_present _ _ _ Hproject).
      cbv zeta. unfold mret, action_ret, mbind, action_mbind. cbn [action_bind].
      rewrite <- Hv. apply ComposeFacts.perform_announced.
    + reflexivity.
Qed.

Lemma default_commands_witness :
  is_ok (fst Demo.built) = true
  /\ fst (perform Demo.os
            (Compose.exec Sample.ctx Demo.self ["ls"] None false false))
     = [ Printed "Running command in container: podman exec -it oci_env_pulp_1 ls";
         Started ["podman"; "exec"; "-it"; "oci_env_pulp_1"; "ls"] ]
  /\ exists oci_dir,
       last_segment "/home/u/oci_env" oci_dir
       /\ perform Demo.os
            (Compose.exec Sample.ctx Demo.self ["ls"] None false false)
          = (shown true (exec_command Sample.ctx "podman" oci_dir "pulp" ["ls"]),
             answer Demo.os
               (exec_command Sample.ctx "podman" oci_dir "pulp" ["ls"])
               false false).
Proof.
  assert (is_ok (fst Demo.built) = true) as Hok by evaluate.
  pose proof (ok_result (Compose.__init__ Sample.ctx true) Sample.disk Demo.blank Hok)
    as Hinit.
  assert (is_ok (fst (read_env_file Sample.ctx
                        (Path.join (get_oci_env_path Sample.ctx) [".compose.env"])
                        Sample.disk)) = true) as Hread by evaluate.
  pose proof (ok_result (read_env_file Sample.ctx _) Sample.disk ∅ Hread) as Huser.
  assert (snd (read_env_file Sample.ctx
                 (Path.join (get_oci_env_path Sample.ctx) [".compose.env"])
                 Sample.disk) = Sample.disk) as Hfs.
  { by apply (ConfigFacts.read_env_file_fs _ _ _ _ _ Huser). }
  rewrite Hfs in Huser.
  split; [exact Hok|]. split; [evaluate|].
  destruct (default_commands Sample.ctx true Sample.disk _ _ _ Hinit Huser)
    as (oci_dir & _ & Hlast & Hexec & _); [evaluate..|].
  exists oci_dir. split; [exact Hlast|].
  exact (Hexec Demo.os ["ls"] false false).
Defined.
